(** * Option-strategy backtest: pricing, signals, aggregation and metrics

    A shallow embedding of [utils.py] and [option_pricing.py].

    Numbers.  The program computes with numpy/pandas [float64].  They are
    modelled as the extended reals: a finite value carries an exact real
    (rounding and overflow are not modelled, signed zeros are not told
    apart), and the three special values [+inf], [-inf] and [nan] behave
    as in IEEE-754, which is what decides every division by zero and every
    [fillna]/[dropna] of the program.  numpy and pandas warn on such
    operations and raise nothing.

    Exceptions.  A function that can raise returns a [result]; the
    exceptions are the builtin ones the program can meet ([IndexError],
    [KeyError], [ValueError]).

    Series and frames.  A [Series] is the list of its (label, value)
    pairs; the frame of option quotes is the list of its rows, and a
    column that a loop fills row by row is a list updated by position.
    Trading dates are the text labels of the input frames (the rate table
    is read from a CSV file and joined on them); [pd.to_datetime] turns
    them into timestamps.

    Library routines whose results are only passed on (the date parser,
    [strftime], ['%.2f']) are the fields of the class [Library]; the
    statements hold for every instance.  The normal distribution function
    is defined, as the integral of the Gaussian kernel.

    Files.  [prepare_data] reads the rate table from a CSV file; the
    frame that [pd.read_csv(...).set_index('Unnamed: 0')] makes of it, a
    table of numbers, is an input of the model, and what line 104 does
    with it ([.loc[date_range]]) is modelled.  [get_backtest_result]
    reads the file [data/shibor.csv] and passes the pair of dates written
    in its body. *)

From Stdlib Require Import Reals Lra Lia ZArith List String Ascii Bool DecimalString.
From Stdlib Require Import Permutation Sorted.
From Stdlib Require OrderedTypeEx.
Import ListNotations.

Set Implicit Arguments.

(* ================================================================== *)
(** * Floats as extended reals *)
(* ================================================================== *)

Module Float.

Local Open Scope R_scope.

Inductive float : Type :=
| Fin (x : R)
| PInf
| NInf
| NaN.

Inductive sign : Type := Neg | Zero | Pos.

Definition sgn (x : R) : sign :=
  match total_order_T x 0 with
  | inleft (left _) => Neg
  | inleft (right _) => Zero
  | inright _ => Pos
  end.

Definition Rltb (x y : R) : bool := if Rlt_dec x y then true else false.

Definition isna (a : float) : bool :=
  match a with NaN => true | _ => false end.

Definition fneg (a : float) : float :=
  match a with
  | Fin x => Fin (- x)
  | PInf => NInf
  | NInf => PInf
  | NaN => NaN
  end.

Definition fadd (a b : float) : float :=
  match a, b with
  | NaN, _ | _, NaN => NaN
  | Fin x, Fin y => Fin (x + y)
  | PInf, NInf | NInf, PInf => NaN
  | PInf, _ | _, PInf => PInf
  | NInf, _ | _, NInf => NInf
  end.

Definition fsub (a b : float) : float := fadd a (fneg b).

(** The infinity whose sign is the product of the signs of its factors;
    [0 * inf] is [nan]. *)
Definition signed_inf (s : sign) : float :=
  match s with Pos => PInf | Neg => NInf | Zero => NaN end.

Definition sign_mul (s t : sign) : sign :=
  match s, t with
  | Zero, _ | _, Zero => Zero
  | Pos, Pos | Neg, Neg => Pos
  | _, _ => Neg
  end.

Definition fsign (a : float) : sign :=
  match a with
  | Fin x => sgn x
  | PInf => Pos
  | NInf => Neg
  | NaN => Zero
  end.

Definition fmul (a b : float) : float :=
  match a, b with
  | NaN, _ | _, NaN => NaN
  | Fin x, Fin y => Fin (x * y)
  | _, _ => signed_inf (sign_mul (fsign a) (fsign b))
  end.

(** [x / 0] is an infinity of the sign of [x], and [0 / 0] is [nan]:
    numpy warns and goes on, it raises nothing. *)
Definition fdiv (a b : float) : float :=
  match a, b with
  | NaN, _ | _, NaN => NaN
  | Fin x, Fin y =>
      match sgn y with
      | Zero => signed_inf (sgn x)
      | _ => Fin (x / y)
      end
  | Fin _, _ => Fin 0
  | _, Fin y =>
      match sgn y with
      | Neg => fneg a
      | _ => a
      end
  | _, _ => NaN
  end.

(** Python's [a > b] and [a < b]: false as soon as one side is [nan]. *)
Definition fgt (a b : float) : bool :=
  match a, b with
  | NaN, _ | _, NaN => false
  | Fin x, Fin y => Rltb y x
  | PInf, PInf | NInf, _ => false
  | PInf, _ => true
  | Fin _, NInf => true
  | Fin _, PInf => false
  end.

Definition flt (a b : float) : bool := fgt b a.

(** [np.maximum]: the larger of the two, [nan] if either is. *)
Definition np_maximum (a b : float) : float :=
  match a, b with
  | NaN, _ | _, NaN => NaN
  | _, _ => if fgt b a then b else a
  end.

Definition np_log (a : float) : float :=
  match a with
  | Fin x =>
      match sgn x with
      | Pos => Fin (ln x)
      | Zero => NInf
      | Neg => NaN
      end
  | PInf => PInf
  | _ => NaN
  end.

Definition np_sqrt (a : float) : float :=
  match a with
  | Fin x => if Rltb x 0 then NaN else Fin (sqrt x)
  | PInf => PInf
  | _ => NaN
  end.

Definition np_exp (a : float) : float :=
  match a with
  | Fin x => Fin (exp x)
  | PInf => PInf
  | NInf => Fin 0
  | NaN => NaN
  end.

(** Whether a real is a whole number, and whether that number is odd. *)
Definition is_whole (y : R) : bool :=
  if Req_dec_T (IZR (Int_part y)) y then true else false.

Definition is_odd_whole (y : R) : bool :=
  is_whole y && Z.odd (Int_part y).

(** The power [a ** b] of two floats, after C's [pow]. *)
Definition fpow (a b : float) : float :=
  match a, b with
  | _, Fin y =>
      match sgn y with
      | Zero => Fin 1
      | sy =>
          match a with
          | NaN => NaN
          | Fin x =>
              match sgn x with
              | Pos => Fin (Rpower x y)
              | Zero => match sy with Pos => Fin 0 | _ => PInf end
              | Neg =>
                  if is_whole y
                  then if is_odd_whole y
                       then Fin (- Rpower (- x) y)
                       else Fin (Rpower (- x) y)
                  else NaN
              end
          | PInf => match sy with Pos => PInf | _ => Fin 0 end
          | NInf =>
              match sy with
              | Pos => if is_odd_whole y then NInf else PInf
              | _ => Fin 0
              end
          end
      end
  | Fin x, (PInf | NInf) =>
      match sgn (Rabs x - 1) with
      | Zero => Fin 1
      | Pos => match b with PInf => PInf | _ => Fin 0 end
      | Neg => match b with PInf => Fin 0 | _ => PInf end
      end
  | (PInf | NInf), PInf => PInf
  | (PInf | NInf), NInf => Fin 0
  | Fin x, NaN => if Req_dec_T x 1 then Fin 1 else NaN
  | _, NaN => NaN
  | NaN, _ => NaN
  end.

Definition is_finite (a : float) : Prop :=
  match a with Fin _ => True | _ => False end.

Declare Scope float_scope.
Delimit Scope float_scope with fl.
Bind Scope float_scope with float.
Notation "a + b" := (fadd a b) : float_scope.
Notation "a - b" := (fsub a b) : float_scope.
Notation "a * b" := (fmul a b) : float_scope.
Notation "a / b" := (fdiv a b) : float_scope.
Notation "- a" := (fneg a) : float_scope.
Notation "a ** b" := (fpow a b)
  (at level 30, right associativity) : float_scope.
Notation "a >? b" := (fgt a b) : float_scope.
Notation "a <? b" := (flt a b) : float_scope.

End Float.

(* ================================================================== *)
(** * The standard normal distribution function ([scipy.stats.norm.cdf]) *)
(* ================================================================== *)

Module Normal.

Local Open Scope R_scope.

(** The Gaussian kernel [exp (- t^2 / 2)]. *)
Definition gauss (t : R) : R := exp (- (t * t / 2)).

Lemma gauss_continuity : continuity gauss.
Proof.
  apply (continuity_comp (fun t => - (t * t / 2)) exp).
  - reg.
  - apply derivable_continuous, derivable_exp.
Qed.

Lemma gauss_integrable (a b : R) : Riemann_integrable gauss a b.
Proof.
  destruct (Rle_dec a b) as [H | H].
  - apply continuity_implies_RiemannInt; [exact H |].
    intros; apply gauss_continuity.
  - apply RiemannInt_P1, continuity_implies_RiemannInt; [lra |].
    intros; apply gauss_continuity.
Qed.

(** [gauss_int x] is the integral of the kernel from [0] to [x]. *)
Definition gauss_int (x : R) : R := RiemannInt (gauss_integrable 0 x).

(** [Phi x = 1/2 + (1 / sqrt (2 pi)) * integral from 0 to x of the kernel]. *)
Definition Phi (x : R) : R := 1 / 2 + gauss_int x / sqrt (2 * PI).

Definition norm_cdf (a : Float.float) : Float.float :=
  match a with
  | Float.Fin x => Float.Fin (Phi x)
  | Float.PInf => Float.Fin 1
  | Float.NInf => Float.Fin 0
  | Float.NaN => Float.NaN
  end.

End Normal.

(* ================================================================== *)
(** * Python values: exceptions, list indexing, [max] *)
(* ================================================================== *)

Module Py.

Import Float.

Inductive exn : Type :=
| IndexError
| KeyError
| ValueError.

(** A computation either returns or raises. *)
Inductive result (A : Type) : Type :=
| Ok (a : A)
| Raise (e : exn).

Arguments Ok {A} a.
Arguments Raise {A} e.

Definition bind {A B : Type} (c : result A) (k : A -> result B) : result B :=
  match c with
  | Ok a => k a
  | Raise e => Raise e
  end.

Definition fmap {A B : Type} (f : A -> B) (c : result A) : result B :=
  bind c (fun a => Ok (f a)).

Definition of_option {A : Type} (e : exn) (o : option A) : result A :=
  match o with
  | Some a => Ok a
  | None => Raise e
  end.

Declare Scope py_scope.
Delimit Scope py_scope with py.
Notation "x <- c ;; k" := (bind c (fun x => k))
  (at level 61, c at next level, right associativity) : py_scope.
Notation "' p <- c ;; k" := (bind c (fun x => let p := x in k))
  (at level 61, p pattern, c at next level, right associativity) : py_scope.

Local Open Scope py_scope.

(** [l[i]] for a non-negative position. *)
Definition getitem {A : Type} (l : list A) (i : nat) : result A :=
  of_option IndexError (nth_error l i).

(** [l.index(x)]: the first position of [x]. *)
Fixpoint list_index (x : string) (l : list string) : result nat :=
  match l with
  | [] => Raise ValueError
  | y :: r =>
      if String.eqb x y then Ok 0%nat
      else i <- list_index x r ;; Ok (S i)
  end.

(** The builtin [max] of an iterable of floats: the first item stays until
    a later one compares greater. *)
Definition py_max (vs : list float) : result float :=
  match vs with
  | [] => Raise ValueError
  | v :: r => Ok (fold_left (fun m x => if fgt x m then x else m) r v)
  end.

(** [for x in items: st = body x st], leaving at the first raise. *)
Fixpoint for_each {A S : Type} (body : A -> S -> result S)
    (items : list A) (st : S) : result S :=
  match items with
  | [] => Ok st
  | x :: r => st' <- body x st ;; for_each body r st'
  end.

Definition for_range {S : Type} (n : nat) (body : nat -> S -> result S)
    (st : S) : result S :=
  for_each body (seq 0 n) st.

(** [l[i] = f(l[i])], in place. *)
Fixpoint update {A : Type} (i : nat) (f : A -> A) (l : list A) : list A :=
  match l, i with
  | [], _ => []
  | x :: r, O => f x :: r
  | x :: r, S j => x :: update j f r
  end.

End Py.

(* ================================================================== *)
(** * Timestamps and calendar days *)
(* ================================================================== *)

Module Time.

Local Open Scope Z_scope.

(** A [Timestamp] is a number of nanoseconds since 1970-01-01. *)
Definition timestamp : Type := Z.

Definition ns_per_day : Z := 86400000000000.

Definition day_of (t : timestamp) : Z := t / ns_per_day.

(** Midnight of the calendar day of [t]: the label of its ['1D'] bin. *)
Definition day_start (t : timestamp) : timestamp := day_of t * ns_per_day.

(** Days since the epoch of a proleptic Gregorian date, and back. *)
Definition days_from_civil (y m d : Z) : Z :=
  let y' := if m <=? 2 then y - 1 else y in
  let era := y' / 400 in
  let yoe := y' - era * 400 in
  let doy := (153 * (if 2 <? m then m - 3 else m + 9) + 2) / 5 + d - 1 in
  let doe := yoe * 365 + yoe / 4 - yoe / 100 + doy in
  era * 146097 + doe - 719468.

Definition civil_from_days (n : Z) : Z * Z * Z :=
  let z := n + 719468 in
  let era := z / 146097 in
  let doe := z - era * 146097 in
  let yoe := (doe - doe / 1460 + doe / 36524 - doe / 146096) / 365 in
  let doy := doe - (365 * yoe + yoe / 4 - yoe / 100) in
  let mp := (5 * doy + 2) / 153 in
  let d := doy - (153 * mp + 2) / 5 + 1 in
  let m := if mp <? 10 then mp + 3 else mp - 9 in
  ((if m <=? 2 then yoe + era * 400 + 1 else yoe + era * 400), m, d).

Definition digit_value (c : ascii) : option Z :=
  let n := Z.of_nat (nat_of_ascii c) in
  if (48 <=? n) && (n <=? 57) then Some (n - 48) else None.

Fixpoint number_of (cs : list ascii) (acc : Z) : option Z :=
  match cs with
  | [] => Some acc
  | c :: r =>
      match digit_value c with
      | Some v => number_of r (10 * acc + v)
      | None => None
      end
  end.

Definition digit_char (v : Z) : ascii := ascii_of_nat (Z.to_nat (48 + v mod 10)).

Definition two_digits (v : Z) : string :=
  String (digit_char (v / 10)) (String (digit_char v) EmptyString).

Definition four_digits (v : Z) : string :=
  String (digit_char (v / 1000)) (String (digit_char (v / 100))
    (two_digits v)).

(** ['%Y-%m-%d'] of a timestamp, for the years 0000 to 9999. *)
Definition iso_format (t : timestamp) : string :=
  let '(y, m, d) := civil_from_days (day_of t) in
  (four_digits y ++ "-" ++ two_digits m ++ "-" ++ two_digits d)%string.

(** Reads ['YYYY-MM-DD']: midnight of that day, or nothing when the text
    is not a date of this shape. *)
Definition iso_parse (s : string) : option timestamp :=
  match list_ascii_of_string s with
  | [y1; y2; y3; y4; "-"%char; m1; m2; "-"%char; d1; d2] =>
      match number_of [y1; y2; y3; y4] 0, number_of [m1; m2] 0,
            number_of [d1; d2] 0 with
      | Some y, Some m, Some d =>
          let n := days_from_civil y m d in
          let '(y', m', d') := civil_from_days n in
          if (y' =? y) && (m' =? m) && (d' =? d)
          then Some (n * ns_per_day) else None
      | _, _, _ => None
      end
  | _ => None
  end.

End Time.

(* ================================================================== *)
(** * The pandas operations the program calls *)
(* ================================================================== *)

Module Pandas.

Import Float Py Time.
Local Open Scope py_scope.

(** A [Series]: labels and values, position by position. *)
Definition series (I : Type) : Type := list (I * float).

Definition index {I : Type} (s : series I) : list I := map fst s.
Definition values {I : Type} (s : series I) : list float := map snd s.

(** The series on the labels of [s] whose values are [f] of those of [s]:
    every operation below that keeps the index goes through it. *)
Definition on_values {I : Type} (f : list float -> list float)
    (s : series I) : series I :=
  combine (index s) (f (values s)).

Definition zip_with {A B C : Type} (f : A -> B -> C)
    (xs : list A) (ys : list B) : list C :=
  map (fun p => f (fst p) (snd p)) (combine xs ys).

Definition notna (a : float) : bool := negb (isna a).

Definition dropna {I : Type} (s : series I) : series I :=
  filter (fun p => notna (snd p)) s.

Definition fillna (c : float) (vs : list float) : list float :=
  map (fun v => if isna v then c else v) vs.

(** [shift(1)]: every value moves one position down, the first position
    becomes [nan] and the last value is lost. *)
Definition shift (vs : list float) : list float :=
  match vs with
  | [] => []
  | _ :: _ => NaN :: removelast vs
  end.

(** [pct_change()] is [data / data.shift(1) - 1]. *)
Definition pct_change (vs : list float) : list float :=
  zip_with (fun v prev => fsub (fdiv v prev) (Fin 1)) vs (shift vs).

(** [cumsum()] and [cumprod()] skip [nan]: such a position stays [nan]
    and the running value goes on unchanged. *)
Fixpoint accumulate (op : float -> float -> float) (acc : float)
    (vs : list float) : list float :=
  match vs with
  | [] => []
  | v :: r =>
      if isna v then NaN :: accumulate op acc r
      else let acc' := op acc v in acc' :: accumulate op acc' r
  end.

Definition cumsum : list float -> list float := accumulate fadd (Fin 0).
Definition cumprod : list float -> list float := accumulate fmul (Fin 1).

(** [np.maximum.accumulate]: the running [np.maximum]. *)
Fixpoint maximum_accumulate_from (acc : float) (vs : list float)
    : list float :=
  match vs with
  | [] => []
  | v :: r =>
      let acc' := np_maximum acc v in acc' :: maximum_accumulate_from acc' r
  end.

Definition maximum_accumulate (vs : list float) : list float :=
  match vs with
  | [] => []
  | v :: r => v :: maximum_accumulate_from v r
  end.

(** [expanding().max()]: the largest value met so far, [nan] ones left
    out; [nan] while there is none. *)
Fixpoint expanding_max_from (acc : float) (vs : list float) : list float :=
  match vs with
  | [] => []
  | v :: r =>
      let acc' :=
        if isna v then acc
        else if isna acc then v
        else if fgt v acc then v else acc in
      acc' :: expanding_max_from acc' r
  end.

Definition expanding_max : list float -> list float :=
  expanding_max_from NaN.

(** [idxmax()]: the label of the first largest value, [nan] counting as
    [-inf]; raises on a series without any value. *)
Definition nan_to_ninf (a : float) : float :=
  if isna a then NInf else a.

Definition idxmax {I : Type} (s : series I) : result I :=
  if forallb isna (values s) then Raise ValueError
  else
    match s with
    | [] => Raise ValueError
    | (i, v) :: r =>
        Ok (fst (fold_left
                   (fun best p =>
                      if fgt (nan_to_ninf (snd p)) (snd best)
                      then (fst p, nan_to_ninf (snd p)) else best)
                   r (i, nan_to_ninf v)))
    end.

(** [iloc[-1]]. *)
Definition iloc_last (vs : list float) : result float :=
  match vs with
  | [] => Raise IndexError
  | _ :: _ => Ok (last vs NaN)
  end.

Definition fsum (vs : list float) : float := fold_left fadd vs (Fin 0).

Definition count (vs : list float) : float := Fin (INR (List.length vs)).

(** [mean()] and [std()] leave [nan] out; [std] is the sample deviation
    (one degree of freedom less). *)
Definition mean (vs : list float) : float :=
  let xs := filter notna vs in
  match xs with
  | [] => NaN
  | _ :: _ => fdiv (fsum xs) (count xs)
  end.

Definition std (vs : list float) : float :=
  let xs := filter notna vs in
  if (List.length xs <=? 1)%nat then NaN
  else
    let avg := fdiv (fsum xs) (count xs) in
    let sqr := map (fun x => fpow (fsub avg x) (Fin 2)) xs in
    np_sqrt (fdiv (fsum sqr) (fsub (count xs) (Fin 1))).

(** ** Sorting *)

(** The keys of a [groupby]: the distinct values, sorted ascending. *)
Fixpoint insert_key (k : string) (ks : list string) : list string :=
  match ks with
  | [] => [k]
  | h :: t => if String.leb k h then k :: ks else h :: insert_key k t
  end.

Definition sort_keys (ks : list string) : list string :=
  fold_right insert_key [] ks.

Definition sorted_unique (ks : list string) : list string :=
  sort_keys (nodup string_dec ks).

(** [groupby(key)[col].mean()]: one entry per key, keys ascending. *)
Definition group_values (k : string) (rows : list (string * float))
    : list float :=
  values (filter (fun p => String.eqb (fst p) k) rows).

Definition groupby_mean (rows : list (string * float)) : series string :=
  map (fun k => (k, mean (group_values k rows)))
      (sorted_unique (index rows)).

(** Stable sort of a time series by its timestamps. *)
Fixpoint insert_by_time (p : timestamp * float)
    (s : series timestamp) : series timestamp :=
  match s with
  | [] => [p]
  | h :: t =>
      if (fst p <=? fst h)%Z then p :: s else h :: insert_by_time p t
  end.

Definition sort_by_time (s : series timestamp) : series timestamp :=
  fold_right insert_by_time [] s.

(** Of observations in time order, the last of each calendar day, labelled
    by the day. *)
Fixpoint last_per_day (s : series timestamp) : series timestamp :=
  match s with
  | [] => []
  | (t, v) :: r =>
      match r with
      | [] => [(day_start t, v)]
      | (t', _) :: _ =>
          if (day_of t =? day_of t')%Z then last_per_day r
          else (day_start t, v) :: last_per_day r
      end
  end.

(** [resample('1D').last().dropna()]: one observation per calendar day
    that has a value, the last one of the day that is not [nan]. *)
Definition resample_last_dropna (s : series timestamp) : series timestamp :=
  last_per_day (dropna (sort_by_time s)).

(** [s.loc[:end]] on an ascending daily index, [end] naming a day: the
    observations up to the end of that day. *)
Definition loc_upto (end_day : timestamp) (s : series timestamp)
    : series timestamp :=
  filter (fun p => (day_of (fst p) <=? day_of end_day)%Z) s.

(** ** Index labels and [pd.to_datetime] *)

Inductive label : Type :=
| LStr (s : string)
| LInt (n : Z)
| LTs (t : timestamp).

(** The routines of the libraries whose results the program only passes
    on: the date parser behind [pd.to_datetime] (nothing when it raises),
    [strftime('%Y-%m-%d')] and the ['%.2f'] conversion of a float. *)
Class Library : Type := {
  parse_datetime : string -> option timestamp;
  strftime_ymd : timestamp -> string;
  format_2f : float -> string
}.

Definition to_datetime {L : Library} (l : label) : result timestamp :=
  match l with
  | LTs t => Ok t
  | LInt n => Ok n
  | LStr s => of_option ValueError (parse_datetime s)
  end.

Fixpoint to_datetime_index {L : Library} (ls : list label)
    : result (list timestamp) :=
  match ls with
  | [] => Ok []
  | l :: r =>
      t <- to_datetime l ;;
      ts <- to_datetime_index r ;;
      Ok (t :: ts)
  end.

(** ** The frame of value paths, one column per variant *)

Record frame : Type := {
  frame_index : list timestamp;
  frame_columns : list (string * list float)
}.

Definition empty_frame : frame :=
  {| frame_index := []; frame_columns := [] |}.

Fixpoint lookup (t : timestamp) (s : series timestamp) : float :=
  match s with
  | [] => NaN
  | (t', v) :: r => if (t' =? t)%Z then v else lookup t r
  end.

Definition reindex (idx : list timestamp) (s : series timestamp)
    : list float :=
  map (fun t => lookup t s) idx.

Fixpoint is_unique (ts : list timestamp) : bool :=
  match ts with
  | [] => true
  | t :: r => negb (existsb (Z.eqb t) r) && is_unique r
  end.

Definition index_equals (a b : list timestamp) : bool :=
  (List.length a =? List.length b)%nat && forallb (fun p => (fst p =? snd p)%Z) (combine a b).

Fixpoint set_column (name : string) (col : list float)
    (cols : list (string * list float)) : list (string * list float) :=
  match cols with
  | [] => [(name, col)]
  | (n, c) :: r =>
      if String.eqb n name then (n, col) :: r
      else (n, c) :: set_column name col r
  end.

(** [df[name] = s]: an empty frame takes the index of [s]; otherwise [s]
    is aligned on the index of the frame, which fails when the labels of
    [s] repeat. *)
Definition setitem (df : frame) (name : string) (s : series timestamp)
    : result frame :=
  let df1 :=
    match frame_index df, s with
    | [], _ :: _ =>
        {| frame_index := index s;
           frame_columns :=
             map (fun c => (fst c, map (fun _ => NaN) s)) (frame_columns df) |}
    | _, _ => df
    end in
  col <- (if index_equals (index s) (frame_index df1) then Ok (values s)
          else match frame_index df1 with
               | [] => Ok (values s)
               | _ :: _ =>
                   if is_unique (index s)
                   then Ok (reindex (frame_index df1) s)
                   else Raise ValueError
               end) ;;
  Ok {| frame_index := frame_index df1;
        frame_columns := set_column name col (frame_columns df1) |}.

End Pandas.

(* ================================================================== *)
(** * utils.py *)
(* ================================================================== *)

Module Utils.

Import Float Py Time Pandas.
Local Open Scope py_scope.

(** ** [bsm_option_price] *)

(** The arguments are numpy floats, as the values the program reads from
    its frame: a division by zero then gives an infinity or [nan] and
    raises nothing.  (On plain Python numbers [S0 / K] with a zero [K]
    raises [ZeroDivisionError]; such a call is outside the model.) *)
Definition bsm_option_price (option_type : Z) (S0 K T sigma rf : float)
    : result float :=
  let d1 := ((np_log (S0 / K) + (rf + Fin 0.5 * sigma ** Fin 2) * T)
             / (sigma * np_sqrt T))%fl in
  let d2 := (d1 - sigma * np_sqrt T)%fl in
  if (option_type =? 0)%Z then
    Ok (S0 * Normal.norm_cdf d1
        - K * np_exp (- rf * T) * Normal.norm_cdf d2)%fl
  else if (option_type =? 1)%Z then
    Ok (K * np_exp (- rf * T) * Normal.norm_cdf (- d2)
        - S0 * Normal.norm_cdf (- d1))%fl
  else Raise ValueError.

(** ** [get_backtest_info] *)

(** The figures of a report before they are turned into text. *)
Record metrics : Type := {
  total_return : float;
  annualized_return : float;
  annualized_volatility : float;
  maximum_drawdown : float;
  sharpe_ratio : float;
  calmar_ratio : float;
  drawdown_start : timestamp;
  drawdown_end : timestamp
}.

(** The returned series, entry by entry. *)
Record report : Type := {
  Total_Return : string;
  Annualized_Return : string;
  Annualized_Volatility : string;
  Maximum_Drawdown : string;
  Sharpe_Ratio : string;
  Calmar_Ratio : string;
  Maximum_Drawdown_Start_Date : string;
  Maximum_Drawdown_End_Date : string
}.

(** [ret_ser = portfolio_value_ser.pct_change().dropna()] *)
Definition ret_ser (portfolio_value_ser : series timestamp)
    : series timestamp :=
  dropna (on_values pct_change portfolio_value_ser).

(** [cum_ret_ser = (portfolio_value_ser.pct_change().fillna(0) + 0).cumprod()] *)
Definition cum_ret_ser (portfolio_value_ser : series timestamp)
    : series timestamp :=
  on_values
    (fun vs =>
       cumprod (map (fun x => x + Fin 0)%fl (fillna (Fin 0) (pct_change vs))))
    portfolio_value_ser.

(** [(np.maximum.accumulate(c) - c) / np.maximum.accumulate(c)] *)
Definition drawdowns (c : list float) : list float :=
  zip_with fdiv (zip_with fsub (maximum_accumulate c) c)
           (maximum_accumulate c).

(** Lines 46 to 78, on the series whose index has been converted.  The
    end of the drawdown is kept as the timestamp [idxmax] returns: the
    program formats it and slices [cum_ret_ser.loc[:end]] with the text,
    which on the daily index selects the observations up to that day. *)
Definition compute_metrics (ser : series timestamp) : result metrics :=
  let portfolio_value_ser := resample_last_dropna ser in
  let ret := ret_ser portfolio_value_ser in
  let cum := cum_ret_ser portfolio_value_ser in
  last <- iloc_last (values cum) ;;
  let total := (last - Fin 1)%fl in
  let annualized := (last ** (Fin 252 / count (values cum)) - Fin 1)%fl in
  let volatility := (std (values ret) * np_sqrt (Fin 252))%fl in
  drawdown <- py_max (drawdowns (values cum)) ;;
  let sharpe := (annualized / volatility)%fl in
  let calmar := (annualized / drawdown)%fl in
  end_ <- idxmax (on_values (fun c => zip_with fsub (expanding_max c) c) cum) ;;
  start <- idxmax (loc_upto end_ cum) ;;
  Ok {| total_return := total;
        annualized_return := annualized;
        annualized_volatility := volatility;
        maximum_drawdown := drawdown;
        sharpe_ratio := sharpe;
        calmar_ratio := calmar;
        drawdown_start := start;
        drawdown_end := end_ |}.

(** Lines 77 to 86: dates as ['%Y-%m-%d'], percentages as ['%.2f%%'] of a
    hundred times the figure, ratios as ['%.2f']. *)
Definition percent {L : Library} (a : float) : string :=
  (format_2f (a * Fin 100)%fl ++ "%")%string.

Definition format_report {L : Library} (m : metrics) : report :=
  {| Total_Return := percent (total_return m);
     Annualized_Return := percent (annualized_return m);
     Annualized_Volatility := percent (annualized_volatility m);
     Maximum_Drawdown := percent (maximum_drawdown m);
     Sharpe_Ratio := format_2f (sharpe_ratio m);
     Calmar_Ratio := format_2f (calmar_ratio m);
     Maximum_Drawdown_Start_Date := strftime_ymd (drawdown_start m);
     Maximum_Drawdown_End_Date := strftime_ymd (drawdown_end m) |}.

(** The series is passed by reference and line 45 assigns its index, so a
    call yields the series as the caller finds it afterwards together with
    what the call returns or raises. *)
Definition get_backtest_info {L : Library}
    (portfolio_value_ser : series label)
    : series label * result report :=
  match to_datetime_index (index portfolio_value_ser) with
  | Raise e => (portfolio_value_ser, Raise e)
  | Ok ts =>
      (combine (map LTs ts) (values portfolio_value_ser),
       fmap format_report
            (compute_metrics (combine ts (values portfolio_value_ser))))
  end.

(** ** [prepare_data] *)

(** A row of [data]; its index label is the trading date.  The columns are
    taken by position, under the names [prepare_data] gives them. *)
Record option_row : Type := {
  row_label : string;
  row_code : string;
  row_close : float;
  row_exercise_date : string;
  row_K : float;
  row_opt_type : string;
  row_T_days : float;
  row_T : float;
  row_ret : float
}.

(** The volatility table: a date, the underlying's price and one value
    per named volatility column. *)
Record vix_row : Type := {
  vix_label : string;
  vix_asset_price : float;
  vix_values : list float
}.

Record vix_table : Type := {
  vix_columns : list string;
  vix_rows : list vix_row
}.

(** A row of a prepared frame. *)
Record prepared_row : Type := {
  code : string;
  close : float;
  exercise_date : string;
  K : float;
  opt_type : string;
  T_days : float;
  T : float;
  ret : float;
  S0 : float;
  sigma : float;
  rf : float;
  opt : Z;
  date : string
}.

(** The column [s] of the volatility table.  [vix_columns] names the
    columns next to ['asset_price'], which is a column as well; a name
    that is neither is a [KeyError]. *)
Definition column_of (vix : vix_table) (s : string)
    : result (vix_row -> float) :=
  if String.eqb s "asset_price" then Ok vix_asset_price
  else
    match list_index s (vix_columns vix) with
    | Ok i => Ok (fun v => nth i (vix_values v) NaN)
    | Raise _ => Raise KeyError
    end.

(** [vix[['asset_price', s]]]: the price and the column [s] of every row. *)
Definition select_column (vix : vix_table) (s : string)
    : result (list (string * (float * float))) :=
  column <- column_of vix s ;;
  Ok (map (fun v => (vix_label v, (vix_asset_price v, column v)))
          (vix_rows vix)).

(** [pd.merge(left, right, left_index=True, right_index=True)]: each left
    row with each right row of the same label. *)
Definition merge {A B : Type} (left : list (string * A))
    (right : list (string * B)) : list (string * (A * B)) :=
  flat_map
    (fun l =>
       map (fun r => (fst l, (snd l, snd r)))
           (filter (fun r => String.eqb (fst r) (fst l)) right))
    left.

(** Lines 106 to 112 for the column [s], [shibor] being the one-column
    frame [shibor[['1']]] of line 107: the rates under their dates. *)
Definition prepare_variant (data : list option_row) (vix : vix_table)
    (shibor : list (string * float)) (s : string)
    : result (list prepared_row) :=
  cols <- select_column vix s ;;
  let merged_data :=
    merge (merge (map (fun d => (row_label d, d)) data) cols) shibor in
  let merged_data :=
    map (fun m =>
           let '(label, ((d, (asset_price, vol)), rate)) := m in
           {| code := row_code d;
              close := row_close d;
              exercise_date := row_exercise_date d;
              K := row_K d;
              opt_type := row_opt_type d;
              T_days := row_T_days d;
              T := row_T d;
              ret := row_ret d;
              S0 := asset_price;
              sigma := (vol / Fin 100)%fl;
              rf := rate;
              opt := if String.eqb (row_opt_type d) "call" then 0%Z else 1%Z;
              date := label |})
        merged_data in
  Ok (filter (fun r => negb (isna (ret r))) merged_data).

(** The rate table as line 104 reads it,
    [pd.read_csv(shibor_file, ...).set_index('Unnamed: 0')]: the names of
    its columns, which [read_csv] keeps distinct, and its rows of numbers
    under their labels. *)
Record rate_frame : Type := {
  rate_columns : list string;
  rate_rows : list (string * list float)
}.

(** What [.loc[date_range]] finds for a pair: the pair is read as a row
    label and a column label.  It is the number in that cell, or, when
    the row label repeats, the [Series] of the cells under that label. *)
Inductive located : Type :=
| Cell (x : float)
| Cells (s : series string).

Definition loc (shibor_file : rate_frame) (date_range : string * string)
    : result located :=
  let rows :=
    filter (fun r => String.eqb (fst r) (fst date_range))
           (rate_rows shibor_file) in
  match list_index (snd date_range) (rate_columns shibor_file) with
  | Raise _ => Raise KeyError
  | Ok j =>
      match rows with
      | [] => Raise KeyError
      | [r] => Ok (Cell (nth j (snd r) NaN))
      | _ :: _ :: _ =>
          Ok (Cells (map (fun r => (fst r, nth j (snd r) NaN)) rows))
      end
  end.

(** [shibor[['1']]] on what line 104 found: a number cannot be indexed,
    and a [Series] gives its entries labelled ['1'] if it has any. *)
Definition getitem_1 (shibor : located) : result (list (string * float)) :=
  match shibor with
  | Cell _ => Raise IndexError
  | Cells s =>
      match filter (fun p => String.eqb (fst p) "1") s with
      | [] => Raise KeyError
      | rates => Ok rates
      end
  end.

(** One pass of the loop, lines 106 to 113: [vix[['asset_price', s]]] is
    evaluated first, then [shibor[['1']]]. *)
Definition prepare_item (data : list option_row) (vix : vix_table)
    (shibor : located) (s : string)
    : result (list prepared_row * string) :=
  cols <- select_column vix s ;;
  rates <- getitem_1 shibor ;;
  df <- prepare_variant data vix rates s ;;
  Ok (df, s).

(** The generator is what a consumer gets from it: the frames it yields,
    in order, ended by the exception if it raises.  It stops at its first
    raise. *)
Fixpoint yields (data : list option_row) (vix : vix_table)
    (shibor : located) (sigma : list string)
    : list (result (list prepared_row * string)) :=
  match sigma with
  | [] => []
  | s :: rest =>
      match prepare_item data vix shibor s with
      | Ok item => Ok item :: yields data vix shibor rest
      | Raise e => [Raise e]
      end
  end.

(** Line 104 runs when the first item is asked for. *)
Definition prepare_data (data : list option_row) (vix : vix_table)
    (sigma : list string) (shibor_file : rate_frame)
    (date_range : string * string)
    : list (result (list prepared_row * string)) :=
  match loc shibor_file date_range with
  | Raise e => [Raise e]
  | Ok shibor => yields data vix shibor sigma
  end.

End Utils.

(* ================================================================== *)
(** * option_pricing.py *)
(* ================================================================== *)

Module OptionPricing.

Import Float Py Time Pandas Utils.
Local Open Scope py_scope.

(** Lines 29 to 33: the [price] column, set to 0 and then filled row by
    row. *)
Definition price_row (prepared_data : list prepared_row) (m : nat)
    (price : list float) : result (list float) :=
  r <- getitem prepared_data m ;;
  p <- bsm_option_price (opt r) (S0 r) (K r) (T r) (sigma r)
         (rf r / Fin 100)%fl ;;
  Ok (update m (fun _ => p) price).

Definition price_column (prepared_data : list prepared_row)
    : result (list float) :=
  for_range (List.length prepared_data) (price_row prepared_data)
            (map (fun _ => Fin 0) prepared_data).

(** Lines 36 to 41: the [signal] column, set to 0 and then decided row by
    row with [thres[sigma.index(s)]]. *)
Definition threshold (sigma : list string) (thres : list float)
    (s : string) : result float :=
  i <- list_index s sigma ;;
  getitem thres i.

Definition signal_row (sigma : list string) (thres : list float)
    (s : string) (prepared_data : list prepared_row) (price : list float)
    (j : nat) (signal : list Z) : result (list Z) :=
  r <- getitem prepared_data j ;;
  p <- getitem price j ;;
  th <- threshold sigma thres s ;;
  if (p >? (Fin 1 + th) * close r)%fl then
    Ok (update j (fun _ => 1%Z) signal)
  else
    th' <- threshold sigma thres s ;;
    if (p <? (Fin 1 - th') * close r)%fl then
      Ok (update j (fun _ => (-1)%Z) signal)
    else Ok signal.

Definition signal_column (sigma : list string) (thres : list float)
    (s : string) (prepared_data : list prepared_row) (price : list float)
    : result (list Z) :=
  for_range (List.length prepared_data)
            (signal_row sigma thres s prepared_data price)
            (map (fun _ => 0%Z) prepared_data).

(** Line 44: [prepared_data['ret'] * prepared_data['signal']]. *)
Definition return_column (prepared_data : list prepared_row)
    (signal : list Z) : list float :=
  zip_with (fun r sg => (ret r * Fin (IZR sg))%fl) prepared_data signal.

(** Line 45: [prepared_data.groupby('date')['return'].mean()]. *)
Definition daily_mean (prepared_data : list prepared_row)
    (returns : list float) : series string :=
  groupby_mean (combine (map date prepared_data) returns).

(** Lines 46 and 47:
    [pnl = (dd - commission).cumsum() + 1; pnl = pnl.shift(1).fillna(1)]. *)
Definition cumulative_value (commission : float) (dd : series string)
    : series string :=
  let pnl :=
    on_values
      (fun vs =>
         map (fun x => x + Fin 1)%fl
             (cumsum (map (fun x => x - commission)%fl vs)))
      dd in
  on_values (fun vs => fillna (Fin 1) (shift vs)) pnl.

(** Lines 28 to 47 for one prepared frame. *)
Definition value_path (sigma : list string) (thres : list float)
    (commission : float) (prepared_data : list prepared_row) (s : string)
    : result (series string) :=
  price <- price_column prepared_data ;;
  signal <- signal_column sigma thres s prepared_data price ;;
  let returns := return_column prepared_data signal in
  let dd := daily_mean prepared_data returns in
  Ok (cumulative_value commission dd).

(** The two tables the function builds. *)
Record tables : Type := {
  result_df : list (string * report);
  pnl_df : frame
}.

(** The body of the loop of [get_backtest_result], lines 28 to 53. *)
Definition run_variant {L : Library} (sigma : list string)
    (thres : list float) (commission : float)
    (item : result (list prepared_row * string)) (acc : tables)
    : result tables :=
  '(prepared_data, s) <- item ;;
  pnl <- value_path sigma thres commission prepared_data s ;;
  ts <- to_datetime_index (map LStr (index pnl)) ;;
  pnl_df' <- setitem (pnl_df acc) s (combine ts (values pnl)) ;;
  res <- snd (get_backtest_info (combine (map LTs ts) (values pnl))) ;;
  Ok {| result_df := result_df acc ++ [(s, res)];
        pnl_df := pnl_df' |}.

(** Lines 25 and 26.  [shibor_csv] stands for the contents of the file
    of that name, which the function reads from the disk. *)
Definition date_range : string * string :=
  ("2015-02-09"%string, "2024-04-30"%string).


End OptionPricing.

(* ================================================================== *)
(** * A reference instance of the library routines *)
(* ================================================================== *)

Module Reference.

Import Float Time Pandas.
Local Open Scope R_scope.

(** The nearest whole number, ties to even. *)
Definition round_half_even (x : R) : Z :=
  let n := Int_part x in
  if Rltb (x - IZR n) (1 / 2) then n
  else if Rltb (1 / 2) (x - IZR n) then (n + 1)%Z
  else if Z.even n then n else (n + 1)%Z.

Definition decimal (n : Z) : string :=
  DecimalString.NilZero.string_of_uint (N.to_uint (Z.to_N n)).

(** ['%.2f' % a] of an exact value. *)
Definition format_2f_exact (a : float) : string :=
  match a with
  | NaN => "nan"
  | PInf => "inf"
  | NInf => "-inf"
  | Fin x =>
      let n := round_half_even (Rabs x * 100) in
      ((if Rltb x 0 then "-" else EmptyString)
       ++ decimal (n / 100) ++ "." ++ two_digits (n mod 100))%string
  end.

(** ISO dates in and out, two exact decimals. *)
Definition iso_library : Library :=
  {| parse_datetime := iso_parse;
     strftime_ymd := iso_format;
     format_2f := format_2f_exact |}.

End Reference.

(* ================================================================== *)
(** * The specification's formulas *)
(* ================================================================== *)

Module Spec.

Import Float.
Local Open Scope R_scope.

(** Section 4.1: the closed form of the price. *)
Definition d1 (S0 K T sigma r : R) : R :=
  (ln (S0 / K) + (r + 0.5 * sigma ^ 2) * T) / (sigma * sqrt T).

Definition d2 (S0 K T sigma r : R) : R :=
  d1 S0 K T sigma r - sigma * sqrt T.

Definition call_price (S0 K T sigma r : R) : R :=
  S0 * Normal.Phi (d1 S0 K T sigma r)
  - K * exp (- r * T) * Normal.Phi (d2 S0 K T sigma r).

Definition put_price (S0 K T sigma r : R) : R :=
  K * exp (- r * T) * Normal.Phi (- d2 S0 K T sigma r)
  - S0 * Normal.Phi (- d1 S0 K T sigma r).

(** Section 4.3: the signal of one record. *)
Definition signal (model_price market_close_price threshold : float) : Z :=
  if (model_price >? (Fin 1 + threshold) * market_close_price)%fl then 1%Z
  else if (model_price <? (Fin 1 - threshold) * market_close_price)%fl
       then (-1)%Z
       else 0%Z.

(** Section 4.3: the return of a position, the average of the positions
    of a day, and the value at a position of the series: 1.0 first, then
    1.0 more than the sum of the commission-adjusted daily averages of
    the positions before. *)
Definition position_return (realized_return : float) (signal : Z) : float :=
  (realized_return * Fin (IZR signal))%fl.

Definition daily_average (positions : list (string * float)) (day : string)
    : float :=
  let xs := map snd (filter (fun p => String.eqb (fst p) day) positions) in
  (fold_left fadd xs (Fin 0) / Fin (INR (List.length xs)))%fl.

Definition value_at (daily : list float) (commission : float) (t : nat)
    : float :=
  match t with
  | O => Fin 1
  | S _ =>
      (fold_left fadd (map (fun x => x - commission) (firstn t daily))
         (Fin 0) + Fin 1)%fl
  end.

End Spec.

(* ================================================================== *)
(** * Vocabulary of the statements *)
(* ================================================================== *)

Module Terms.

Import Float Py Pandas Utils.

(** The option kind of a prepared row is one the pricer knows. *)
Definition kind_known (r : prepared_row) : Prop :=
  opt r = 0%Z \/ opt r = 1%Z.

(** The price line 31 computes for a row ([nan] standing in only where
    the pricer raises). *)
Definition model_price (r : prepared_row) : float :=
  match bsm_option_price (opt r) (S0 r) (K r) (T r) (sigma r)
          (rf r / Fin 100)%fl with
  | Ok p => p
  | Raise _ => NaN
  end.

(** The row [r] with another realized return. *)
Definition with_ret (r : prepared_row) (x : float) : prepared_row :=
  {| code := code r; close := close r; exercise_date := exercise_date r;
     K := K r; opt_type := opt_type r; T_days := T_days r; T := T r;
     ret := x;
     S0 := S0 r; sigma := sigma r; rf := rf r; opt := opt r;
     date := date r |}.

(** Dates are compared as text, character by character. *)
Definition date_le (a b : string) : Prop := String.leb a b = true.

(** The last key of the [groupby]: the greatest date of the frame. *)
Definition last_date (prepared_data : list prepared_row) : string :=
  last (sorted_unique (map date prepared_data)) EmptyString.

(** Two frames that are the same but for the realized returns of the rows
    dated [d]. *)
Definition same_but_ret_on (d : string)
    (rows rows' : list prepared_row) : Prop :=
  Forall2
    (fun r r' => r' = with_ret r (ret r') /\ (date r <> d -> ret r' = ret r))
    rows rows'.

(** The same, of the rows handed to the [groupby]. *)
Definition same_but_on (d : string) (rows rows' : list (string * float))
    : Prop :=
  Forall2 (fun p q => fst p = fst q /\ (fst p <> d -> snd p = snd q))
          rows rows'.

(** The positions of a frame under the threshold [th]: the date of
    every row with the return of its position, the signal being the one
    of section 4.3 on the model price of the row. *)
Definition positions (rows : list prepared_row) (th : float)
    : list (string * float) :=
  map (fun r =>
         (date r,
          Spec.position_return (ret r)
            (Spec.signal (model_price r) (close r) th)))
      rows.

(** The value the specification gives position [t] of the series of a
    frame whose dates, in order, are [dates]. *)
Definition claimed_value (rows : list prepared_row) (th commission : float)
    (dates : list string) (t : nat) : float :=
  Spec.value_at (map (Spec.daily_average (positions rows th)) dates)
    commission t.

(** The rate table has a row and a column under the two labels of the
    pair. *)
Definition has_cell (shibor_file : rate_frame)
    (date_range : string * string) : Prop :=
  In (fst date_range) (map fst (rate_rows shibor_file))
  /\ In (snd date_range) (rate_columns shibor_file).

(** The values of a series are finite, positive. *)
Definition all_finite (vs : list float) : Prop := Forall is_finite vs.

Definition is_positive (a : float) : Prop :=
  match a with Fin x => (0 < x)%R | _ => False end.

End Terms.

(* ================================================================== *)
(** * Sample data *)
(* ================================================================== *)

Module Sample.

Import Float Py Time Pandas Utils Terms.
Local Open Scope string_scope.

(** Two trading days, as timestamps and as text. *)
Definition jan_2 : timestamp := 1704153600000000000%Z.
Definition jan_3 : timestamp := 1704240000000000000%Z.

(** A value path that only rises: 1.0 and then 1.1. *)
Definition rising : series timestamp :=
  [(jan_2, Fin 1); (jan_3, Fin 1.1)].

(** The same path under the date labels a caller may well use. *)
Definition rising_text : series label :=
  [(LStr "2024-01-02", Fin 1); (LStr "2024-01-03", Fin 1.1)].

(** One quoted call and one quoted put, on consecutive days. *)
Definition call_row : prepared_row :=
  {| code := "10005001"; close := Fin 6; exercise_date := "2024-02-07";
     K := Fin 95; opt_type := "call"; T_days := Fin 36; T := Fin 0.1;
     ret := Fin 0.02; S0 := Fin 100; sigma := Fin 0.2; rf := Fin 3;
     opt := 0%Z; date := "2024-01-02" |}.

Definition put_row : prepared_row :=
  {| code := "10005002"; close := Fin 2; exercise_date := "2024-02-07";
     K := Fin 95; opt_type := "put"; T_days := Fin 35; T := Fin 0.1;
     ret := Fin (-0.01); S0 := Fin 101; sigma := Fin 0.2; rf := Fin 3;
     opt := 1%Z; date := "2024-01-03" |}.

Definition two_rows : list prepared_row := [call_row; put_row].

(** The inputs of [prepare_data] for one quote of each kind and one whose
    kind is spelt in capitals. *)
Definition quotes : list option_row :=
  [ {| row_label := "2024-01-02"; row_code := "10005001";
       row_close := Fin 6; row_exercise_date := "2024-02-07";
       row_K := Fin 95; row_opt_type := "call"; row_T_days := Fin 36;
       row_T := Fin 0.1; row_ret := Fin 0.02 |};
    {| row_label := "2024-01-02"; row_code := "10005002";
       row_close := Fin 2; row_exercise_date := "2024-02-07";
       row_K := Fin 95; row_opt_type := "put"; row_T_days := Fin 36;
       row_T := Fin 0.1; row_ret := Fin (-0.01) |};
    {| row_label := "2024-01-02"; row_code := "10005003";
       row_close := Fin 6; row_exercise_date := "2024-02-07";
       row_K := Fin 95; row_opt_type := "CALL"; row_T_days := Fin 36;
       row_T := Fin 0.1; row_ret := Fin 0.02 |} ].

Definition one_quote : list option_row :=
  [ {| row_label := "2024-01-02"; row_code := "10005001";
       row_close := Fin 6; row_exercise_date := "2024-02-07";
       row_K := Fin 95; row_opt_type := "call"; row_T_days := Fin 36;
       row_T := Fin 0.1; row_ret := Fin 0.02 |} ].

(** What [prepare_data] makes of [one_quote]. *)
Definition one_prepared : prepared_row :=
  {| code := "10005001"; close := Fin 6; exercise_date := "2024-02-07";
     K := Fin 95; opt_type := "call"; T_days := Fin 36; T := Fin 0.1;
     ret := Fin 0.02; S0 := Fin 100; sigma := (Fin 20 / Fin 100)%fl;
     rf := Fin 3; opt := 0%Z; date := "2024-01-02" |}.

Definition vix : vix_table :=
  {| vix_columns := ["iv"];
     vix_rows := [ {| vix_label := "2024-01-02"; vix_asset_price := Fin 100;
                      vix_values := [Fin 20] |} ] |}.

Definition shibor : list (string * float) := [("2024-01-02", Fin 3)].

(** A rate file with a row per trading date, and one that happens to
    have a row and a column under the two dates of [date_range]. *)
Definition rates_by_date : rate_frame :=
  {| rate_columns := ["1"];
     rate_rows := [("2024-01-02", [Fin 3]); ("2024-01-03", [Fin 3.1])] |}.


(** A quote without a volatility whose realized return is infinite, and
    a put on the next day. *)
Definition runaway_row : prepared_row :=
  {| code := "10005006"; close := Fin 4; exercise_date := "2024-02-07";
     K := Fin 95; opt_type := "call"; T_days := Fin 36; T := Fin 0.1;
     ret := PInf; S0 := Fin 100; sigma := NaN; rf := Fin 3;
     opt := 0%Z; date := "2024-01-02" |}.

Definition runaway_rows : list prepared_row := [runaway_row; put_row].

End Sample.

(* ================================================================== *)
(** * Further vocabulary and sample data *)
(* ================================================================== *)

Module Terms2.

Import Float Py Time Pandas Utils OptionPricing Terms.

(** One of the five numbers the pricer reads from a row is missing. *)
Definition input_missing (r : prepared_row) : bool :=
  isna (S0 r) || isna (K r) || isna (T r) || isna (sigma r) || isna (rf r).

(** A row outside the domain of the formula: its time to expiry is
    negative, or its underlying and its strike have opposite signs. *)
Definition outside_domain (r : prepared_row) : Prop :=
  (exists t : R, T r = Fin t /\ (t < 0)%R)
  \/ (exists s k : R, S0 r = Fin s /\ K r = Fin k /\ (s * k < 0)%R).

(** Observations in time order. *)
Definition time_le (p q : timestamp * float) : Prop :=
  (fst p <= fst q)%Z.

(** A daily series: one observation per calendar day, at midnight, in
    ascending order. *)
Fixpoint ascending_days (ts : list timestamp) : Prop :=
  match ts with
  | [] => True
  | t :: r =>
      match r with
      | [] => True
      | t' :: _ => (day_of t < day_of t')%Z
      end /\ ascending_days r
  end.

Definition is_daily (s : series timestamp) : Prop :=
  ascending_days (index s)
  /\ Forall (fun t => day_start t = t) (index s)
  /\ forallb notna (values s) = true.

(** The prepared row of a quote [d] joined with the row [v] of the
    volatility table, a volatility figure and a rate. *)
Definition prepared_of (d : option_row) (v : vix_row) (vol : float)
    (rate : float) : prepared_row :=
  {| code := row_code d;
     close := row_close d;
     exercise_date := row_exercise_date d;
     K := row_K d;
     opt_type := row_opt_type d;
     T_days := row_T_days d;
     T := row_T d;
     ret := row_ret d;
     S0 := vix_asset_price v;
     sigma := (vol / Fin 100)%fl;
     rf := rate;
     opt := if String.eqb (row_opt_type d) "call" then 0%Z else 1%Z;
     date := row_label d |}.

(** The names of the columns of a frame, and its being rectangular. *)
Definition column_names (df : frame) : list string :=
  map fst (frame_columns df).

Definition rectangular (df : frame) : Prop :=
  Forall (fun c => List.length (snd c) = List.length (frame_index df))
         (frame_columns df).

End Terms2.

Module Sample2.

Import Float Py Time Pandas Utils Terms.
Local Open Scope string_scope.

(** A quote whose volatility is missing on its day. *)
Definition no_vol_row : prepared_row :=
  {| code := "10005004"; close := Fin 4; exercise_date := "2024-02-07";
     K := Fin 95; opt_type := "call"; T_days := Fin 36; T := Fin 0.1;
     ret := Fin 0.05; S0 := Fin 100; sigma := NaN; rf := Fin 3;
     opt := 0%Z; date := "2024-01-02" |}.

(** A quote of a kind the pricer does not know. *)
Definition odd_kind_row : prepared_row :=
  {| code := "10005005"; close := Fin 4; exercise_date := "2024-02-07";
     K := Fin 95; opt_type := "call"; T_days := Fin 36; T := Fin 0.1;
     ret := Fin 0.05; S0 := Fin 100; sigma := Fin 0.2; rf := Fin 3;
     opt := 2%Z; date := "2024-01-02" |}.

(** A quote past its expiry. *)
Definition expired_row : prepared_row :=
  {| code := "10005007"; close := Fin 4; exercise_date := "2023-12-27";
     K := Fin 95; opt_type := "call"; T_days := Fin (-6);
     T := Fin (-0.02); ret := Fin 0.05; S0 := Fin 100; sigma := Fin 0.2;
     rf := Fin 3; opt := 0%Z; date := "2024-01-02" |}.

(** Three observations on two days, out of order, one of them missing. *)
Definition intraday : series timestamp :=
  [(Sample.jan_3, Fin 3); ((Sample.jan_2 + 5)%Z, Fin 2);
   (Sample.jan_2, Fin 1); ((Sample.jan_2 + 7)%Z, NaN)].

End Sample2.

(* ================================================================== *)
(** * Facts about floats *)
(* ================================================================== *)

Module FloatFacts.

Import Float.
Local Open Scope R_scope.

Lemma sgn_pos (x : R) : 0 < x -> sgn x = Pos.
Proof.
  intros H. unfold sgn.
  destruct (total_order_T x 0) as [[Hlt | Heq] | Hgt]; [lra | lra | reflexivity].
Qed.

Lemma sgn_neg (x : R) : x < 0 -> sgn x = Neg.
Proof.
  intros H. unfold sgn.
  destruct (total_order_T x 0) as [[Hlt | Heq] | Hgt]; [reflexivity | lra | lra].
Qed.

Lemma sgn_zero (x : R) : x = 0 -> sgn x = Zero.
Proof.
  intros H. unfold sgn.
  destruct (total_order_T x 0) as [[Hlt | Heq] | Hgt]; [lra | reflexivity | lra].
Qed.

Lemma sgn_nonzero (x : R) : x <> 0 -> sgn x <> Zero.
Proof.
  intros H. unfold sgn.
  destruct (total_order_T x 0) as [[Hlt | Heq] | Hgt]; [discriminate | lra | discriminate].
Qed.

Lemma Rltb_true (x y : R) : x < y -> Rltb x y = true.
Proof. intros H. unfold Rltb. destruct (Rlt_dec x y); [reflexivity | lra]. Qed.

Lemma Rltb_false (x y : R) : y <= x -> Rltb x y = false.
Proof. intros H. unfold Rltb. destruct (Rlt_dec x y); [lra | reflexivity]. Qed.

Lemma fdiv_fin (x y : R) : y <> 0 -> (Fin x / Fin y)%fl = Fin (x / y).
Proof.
  intros H. unfold fdiv.
  destruct (sgn y) eqn:E; try reflexivity.
  exfalso. exact (sgn_nonzero H E).
Qed.

Lemma fdiv_zero_zero (x y : R) : x = 0 -> y = 0 -> (Fin x / Fin y)%fl = NaN.
Proof.
  intros Hx Hy. unfold fdiv. rewrite (sgn_zero Hy), (sgn_zero Hx). reflexivity.
Qed.

Lemma np_log_fin (x : R) : 0 < x -> np_log (Fin x) = Fin (ln x).
Proof. intros H. unfold np_log. rewrite (sgn_pos H). reflexivity. Qed.

Lemma np_sqrt_fin (x : R) : 0 <= x -> np_sqrt (Fin x) = Fin (sqrt x).
Proof. intros H. unfold np_sqrt. rewrite (Rltb_false H). reflexivity. Qed.

Lemma Rpower_2 (x : R) : 0 < x -> Rpower x 2 = x ^ 2.
Proof. intros H. exact (Rpower_pow 2 x H). Qed.

Lemma fpow_square (x : R) : 0 < x -> (Fin x ** Fin 2)%fl = Fin (x ^ 2).
Proof.
  intros H. unfold fpow.
  rewrite (@sgn_pos 2) by lra. rewrite (sgn_pos H), (Rpower_2 H). reflexivity.
Qed.

Lemma fpow_zero_pos (x y : R) : x = 0 -> 0 < y -> (Fin x ** Fin y)%fl = Fin 0.
Proof.
  intros Hx Hy. unfold fpow. rewrite (sgn_pos Hy), (sgn_zero Hx). reflexivity.
Qed.

Lemma fgt_irrefl (a : float) : (a >? a)%fl = false.
Proof. destruct a; try reflexivity. apply Rltb_false. lra. Qed.

End FloatFacts.

(* ================================================================== *)
(** * The normal distribution function is symmetric *)
(* ================================================================== *)

Module NormalFacts.

Import Normal.
Local Open Scope R_scope.

Lemma gauss_even (t : R) : gauss (- t) = gauss t.
Proof. unfold gauss. f_equal. lra. Qed.

(** The integral from 0 is odd: both [F] and [y => - F (- y)] are
    primitives of the even kernel on a symmetric interval, so they differ
    by a constant. *)
Lemma gauss_int_odd (x : R) : gauss_int (- x) = - gauss_int x.
Proof.
  set (b := Rabs x). set (a := - b).
  assert (hb : 0 <= b) by apply Rabs_pos.
  assert (h : a <= b) by (unfold a; lra).
  assert (C0 : forall y, a <= y <= b -> continuity_pt gauss y)
    by (intros; apply gauss_continuity).
  set (F := primitive h (FTC_P1 h C0)).
  assert (HF : forall y, a <= y <= b -> F y = RiemannInt (gauss_integrable a y)).
  { intros y [Hy1 Hy2]. unfold F, primitive.
    destruct (Rle_dec a y); [| lra]. destruct (Rle_dec y b); [| lra].
    apply RiemannInt_P5. }
  assert (HFd : forall y, a <= y <= b -> derivable_pt_lim F y (gauss y)).
  { intros y Hy. apply RiemannInt_P28. exact Hy. }
  set (G := fun y => - F (- y)).
  assert (HGd : forall y, a <= y <= b -> derivable_pt_lim G y (gauss y)).
  { intros y Hy. unfold G.
    replace (gauss y) with (- (gauss (- y) * -1)) by (rewrite gauss_even; lra).
    apply (derivable_pt_lim_opp (fun y => F (- y))).
    apply (derivable_pt_lim_comp (fun y => - y) F).
    - replace (-1) with (- 1) by lra.
      apply derivable_pt_lim_opp, derivable_pt_lim_id.
    - apply HFd. unfold a in *. lra. }
  assert (A1 : antiderivative gauss F a b).
  { split; [| exact h]. intros y Hy.
    exists (exist _ _ (HFd y Hy)). reflexivity. }
  assert (A2 : antiderivative gauss G a b).
  { split; [| exact h]. intros y Hy.
    exists (exist _ _ (HGd y Hy)). reflexivity. }
  destruct (antiderivative_Ucte _ _ _ _ _ A1 A2) as [c Hc].
  assert (Hx : a <= x <= b).
  { unfold a, b. split.
    - pose proof (Rle_abs (- x)) as Hle. rewrite Rabs_Ropp in Hle. lra.
    - apply Rle_abs. }
  assert (Hmx : a <= - x <= b) by (unfold a in *; lra).
  assert (H0 : a <= 0 <= b) by (unfold a; lra).
  pose proof (Hc x Hx) as E1. pose proof (Hc 0 H0) as E2.
  unfold G in E1, E2. rewrite Ropp_0 in E2.
  rewrite (HF x Hx), (HF (- x) Hmx) in E1. rewrite (HF 0 H0) in E2.
  unfold gauss_int.
  pose proof (RiemannInt_P26 (gauss_integrable a 0) (gauss_integrable 0 x)
                (gauss_integrable a x)).
  pose proof (RiemannInt_P26 (gauss_integrable a 0) (gauss_integrable 0 (- x))
                (gauss_integrable a (- x))).
  lra.
Qed.

Lemma Phi_symmetric (x : R) : Phi (- x) = 1 - Phi x.
Proof. unfold Phi. rewrite gauss_int_odd. lra. Qed.

Lemma Phi_zero : Phi 0 = 1 / 2.
Proof.
  pose proof (Phi_symmetric 0) as H. rewrite Ropp_0 in H. lra.
Qed.

End NormalFacts.

(* ================================================================== *)
(** * The pricer *)
(* ================================================================== *)

Module PricerFacts.

Import Float Py Utils FloatFacts.
Local Open Scope R_scope.

(** On strictly positive inputs no operation of the pricer leaves the
    finite values, and [d1], [d2] are the reals of the closed form. *)
Lemma bsm_option_price_finite (option_type : Z) (S0 K T sigma r : R) :
  0 < S0 -> 0 < K -> 0 < T -> 0 < sigma ->
  bsm_option_price option_type (Fin S0) (Fin K) (Fin T) (Fin sigma) (Fin r)
  = if (option_type =? 0)%Z then Ok (Fin (Spec.call_price S0 K T sigma r))
    else if (option_type =? 1)%Z then Ok (Fin (Spec.put_price S0 K T sigma r))
    else Raise ValueError.
Proof.
  intros HS HK HT Hs.
  assert (HSK : 0 < S0 / K) by (apply Rdiv_lt_0_compat; assumption).
  assert (Hsq : 0 < sqrt T) by (apply sqrt_lt_R0; assumption).
  assert (Hden : sigma * sqrt T <> 0) by nra.
  unfold bsm_option_price.
  rewrite (fdiv_fin S0) by lra.
  rewrite (np_log_fin HSK), (fpow_square Hs), np_sqrt_fin by lra.
  cbn [fmul fadd fsub fneg].
  rewrite fdiv_fin by exact Hden.
  cbn [fmul fadd fsub fneg np_exp Normal.norm_cdf].
  reflexivity.
Qed.

End PricerFacts.

(* ================================================================== *)
(** * Loops that fill a column position by position *)
(* ================================================================== *)

Module LoopFacts.

Import Py.
Local Open Scope py_scope.

Section Fill.

Variable A : Type.

Lemma update_middle (f : A -> A) (l1 l2 : list A) (x : A) :
  update (List.length l1) f (l1 ++ x :: l2) = l1 ++ f x :: l2.
Proof.
  induction l1 as [| y l1 IH]; simpl; [reflexivity |].
  rewrite IH. reflexivity.
Qed.

Lemma length_update (f : A -> A) (i : nat) (l : list A) :
  List.length (update i f l) = List.length l.
Proof.
  revert i. induction l as [| x l IH]; intros [| i]; simpl; auto.
Qed.

Lemma firstn_succ (j : nat) (l : list A) (x : A) :
  nth_error l j = Some x -> firstn (S j) l = firstn j l ++ [x].
Proof.
  revert l. induction j as [| j IH]; intros [| y l] H; simpl in *;
    try discriminate.
  - injection H as ->. reflexivity.
  - f_equal. apply IH. exact H.
Qed.

Lemma skipn_succ (j : nat) (l : list A) (x : A) :
  nth_error l j = Some x -> skipn j l = x :: skipn (S j) l.
Proof.
  revert l. induction j as [| j IH]; intros [| y l] H; simpl in *;
    try discriminate.
  - injection H as ->. reflexivity.
  - apply IH. exact H.
Qed.

(** A loop over [range(n)] whose step [j] turns position [j] of the
    column from its initial into its final value ends with the final
    column. *)
Lemma for_each_fill (body : nat -> list A -> result (list A))
    (init target : list A) (m k : nat) :
  (k + m = List.length target)%nat ->
  List.length init = List.length target ->
  (forall j, (j < List.length target)%nat ->
     body j (firstn j target ++ skipn j init)
     = Ok (firstn (S j) target ++ skipn (S j) init)) ->
  for_each body (seq k m) (firstn k target ++ skipn k init) = Ok target.
Proof.
  revert k. induction m as [| m IH]; intros k Hk Hlen Hstep; simpl.
  - replace k with (List.length target) by lia.
    rewrite firstn_all, <- Hlen, skipn_all, app_nil_r. reflexivity.
  - rewrite Hstep by lia. simpl. apply IH; [lia | assumption | assumption].
Qed.

Lemma for_range_fill (body : nat -> list A -> result (list A))
    (init target : list A) :
  List.length init = List.length target ->
  (forall j, (j < List.length target)%nat ->
     body j (firstn j target ++ skipn j init)
     = Ok (firstn (S j) target ++ skipn (S j) init)) ->
  for_range (List.length init) body init = Ok target.
Proof.
  intros Hlen Hstep. unfold for_range. rewrite Hlen.
  exact (for_each_fill body init target (List.length target) 0
           eq_refl Hlen Hstep).
Qed.

(** Writing [y] at position [j] of a column filled up to [j]. *)
Lemma update_fill (init target : list A) (j : nat) (y : A) :
  List.length init = List.length target ->
  nth_error target j = Some y ->
  update j (fun _ => y) (firstn j target ++ skipn j init)
  = firstn (S j) target ++ skipn (S j) init.
Proof.
  intros Hlen Hy.
  assert (Hj : (j < List.length target)%nat)
    by (apply nth_error_Some; congruence).
  destruct (nth_error init j) as [x |] eqn:Hx.
  2:{ apply nth_error_None in Hx. lia. }
  rewrite (skipn_succ _ _ Hx), (firstn_succ _ _ Hy), <- app_assoc. simpl.
  replace j with (List.length (firstn j target)) at 1
    by (rewrite length_firstn; lia).
  apply update_middle.
Qed.

(** Leaving position [j] as it is, when its initial value is the final
    one. *)
Lemma keep_fill (init target : list A) (j : nat) (y : A) :
  nth_error target j = Some y ->
  nth_error init j = Some y ->
  firstn j target ++ skipn j init
  = firstn (S j) target ++ skipn (S j) init.
Proof.
  intros Hy Hx.
  rewrite (skipn_succ _ _ Hx), (firstn_succ _ _ Hy), <- app_assoc.
  reflexivity.
Qed.

End Fill.

Lemma getitem_Some {A : Type} (l : list A) (i : nat) (x : A) :
  nth_error l i = Some x -> getitem l i = Ok x.
Proof. intros H. unfold getitem. rewrite H. reflexivity. Qed.

Lemma getitem_None {A : Type} (l : list A) (i : nat) :
  (List.length l <= i)%nat -> getitem l i = Raise IndexError.
Proof.
  intros H. unfold getitem.
  apply nth_error_None in H. rewrite H. reflexivity.
Qed.

End LoopFacts.

(* ================================================================== *)
(** * Facts about series *)
(* ================================================================== *)

Module SeriesFacts.

Import Float Py Pandas FloatFacts.

Section OnValues.

Variable I : Type.

Lemma length_index (s : series I) : List.length (index s) = List.length s.
Proof. apply length_map. Qed.

Lemma length_values (s : series I) : List.length (values s) = List.length s.
Proof. apply length_map. Qed.

Lemma combine_index_values (s : series I) : combine (index s) (values s) = s.
Proof.
  unfold index, values.
  induction s as [| [i v] s IH]; simpl; [reflexivity |].
  rewrite IH. reflexivity.
Qed.

Lemma index_combine (ls : list I) (vs : list float) :
  List.length ls = List.length vs -> index (combine ls vs) = ls.
Proof.
  revert vs. induction ls as [| i ls IH]; intros [| v vs] H; simpl in *;
    try discriminate; [reflexivity |].
  f_equal. apply IH. lia.
Qed.

Lemma values_combine (ls : list I) (vs : list float) :
  List.length ls = List.length vs -> values (combine ls vs) = vs.
Proof.
  revert vs. induction ls as [| i ls IH]; intros [| v vs] H; simpl in *;
    try discriminate; [reflexivity |].
  f_equal. apply IH. lia.
Qed.

(** An operation that keeps the length keeps the index. *)
Lemma index_on_values (f : list float -> list float) (s : series I) :
  List.length (f (values s)) = List.length s ->
  index (on_values f s) = index s.
Proof.
  intros H. unfold on_values. apply index_combine.
  rewrite length_index. symmetry. exact H.
Qed.

Lemma values_on_values (f : list float -> list float) (s : series I) :
  List.length (f (values s)) = List.length s ->
  values (on_values f s) = f (values s).
Proof.
  intros H. unfold on_values. apply values_combine.
  rewrite length_index. symmetry. exact H.
Qed.

End OnValues.

Lemma length_fillna (c : float) (vs : list float) :
  List.length (fillna c vs) = List.length vs.
Proof. apply length_map. Qed.

Lemma length_shift (vs : list float) :
  List.length (shift vs) = List.length vs.
Proof.
  destruct vs as [| v r]; [reflexivity |].
  unfold shift. cbn [List.length].
  change (v :: r) with ([v] ++ r).
  destruct r as [| w r]; [reflexivity |].
  rewrite removelast_app by discriminate. cbn [List.length app].
  f_equal. clear v. revert w.
  induction r as [| x r IH]; intros w; [reflexivity |].
  cbn [removelast List.length] in *. f_equal. apply IH.
Qed.

Lemma length_accumulate (op : float -> float -> float) (acc : float)
    (vs : list float) :
  List.length (accumulate op acc vs) = List.length vs.
Proof.
  revert acc. induction vs as [| v r IH]; intros acc; simpl; [reflexivity |].
  destruct (isna v); simpl; rewrite IH; reflexivity.
Qed.

Lemma length_zip_with {A B C : Type} (f : A -> B -> C)
    (xs : list A) (ys : list B) :
  List.length xs = List.length ys ->
  List.length (zip_with f xs ys) = List.length xs.
Proof.
  intros H. unfold zip_with.
  rewrite length_map, length_combine, <- H. apply Nat.min_id.
Qed.

(** ** Prefix sums *)

(** Without [nan], position [k] of an accumulation is the fold of the
    first [k + 1] values. *)
Lemma accumulate_nth (op : float -> float -> float) (vs : list float) :
  forall (acc : float) (k : nat),
    forallb notna vs = true ->
    (k < List.length vs)%nat ->
    nth_error (accumulate op acc vs) k
    = Some (fold_left op (firstn (S k) vs) acc).
Proof.
  induction vs as [| v r IH]; intros acc k Hna Hk; simpl in Hk; [lia |].
  simpl in Hna. apply andb_prop in Hna as [Hv Hr].
  unfold notna in Hv. apply negb_true_iff in Hv.
  cbn [accumulate]. rewrite Hv.
  destruct k as [| k]; [reflexivity |].
  cbn [nth_error]. rewrite IH by (assumption || lia). reflexivity.
Qed.

(** An accumulation of a list without its last value is the accumulation
    without its last value: a position never looks ahead. *)
Lemma removelast_accumulate (op : float -> float -> float)
    (vs : list float) :
  forall acc,
    removelast (accumulate op acc vs) = accumulate op acc (removelast vs).
Proof.
  induction vs as [| v r IH]; intros acc; [reflexivity |].
  destruct r as [| w r].
  - simpl. destruct (isna v); reflexivity.
  - cbn [removelast]. cbn [accumulate].
    destruct (isna v).
    + specialize (IH acc). cbn [accumulate] in IH.
      destruct (isna w); cbn [removelast] in *; rewrite <- IH;
        destruct (accumulate op _ r); reflexivity.
    + specialize (IH (op acc v)). cbn [accumulate] in IH.
      destruct (isna w); cbn [removelast] in *; rewrite <- IH;
        destruct (accumulate op _ r); reflexivity.
Qed.

Lemma removelast_map {A B : Type} (f : A -> B) (l : list A) :
  removelast (map f l) = map f (removelast l).
Proof.
  induction l as [| x r IH]; [reflexivity |].
  destruct r as [| y r]; [reflexivity |].
  cbn [map removelast] in *. rewrite IH. reflexivity.
Qed.

(** Sums of finite values are finite. *)
Lemma fold_fadd_finite (vs : list float) :
  forall acc,
    is_finite acc -> Forall is_finite vs ->
    is_finite (fold_left fadd vs acc).
Proof.
  induction vs as [| v r IH]; intros acc Ha Hv; simpl; [exact Ha |].
  inversion Hv as [| ? ? Hv1 Hv2]; subst.
  apply IH; [| exact Hv2].
  destruct acc, v; simpl in *; try contradiction; exact I.
Qed.

Lemma fsum_finite (vs : list float) :
  Forall is_finite vs -> is_finite (fsum vs).
Proof. intros H. apply fold_fadd_finite; [exact I | exact H]. Qed.

Lemma finite_notna (vs : list float) :
  Forall is_finite vs -> forallb notna vs = true.
Proof.
  induction 1 as [| v r Hv _ IH]; [reflexivity |].
  simpl. rewrite IH. destruct v; simpl in *; try contradiction; reflexivity.
Qed.

Lemma filter_notna_finite (vs : list float) :
  Forall is_finite vs -> filter notna vs = vs.
Proof.
  induction 1 as [| v r Hv _ IH]; [reflexivity |].
  simpl. rewrite IH. destruct v; simpl in *; try contradiction; reflexivity.
Qed.

(** The mean of finitely many finite values, at least one, is finite. *)
Lemma mean_finite (vs : list float) :
  vs <> [] -> Forall is_finite vs -> is_finite (mean vs).
Proof.
  intros Hne Hfin. unfold mean. rewrite (filter_notna_finite Hfin).
  destruct vs as [| v r]; [congruence |].
  pose proof (fsum_finite Hfin) as Hs.
  destruct (fsum (v :: r)) as [x | | |]; simpl in Hs; try contradiction.
  unfold count. rewrite fdiv_fin; [exact I |].
  apply not_0_INR. discriminate.
Qed.

End SeriesFacts.

(* ================================================================== *)
(** * The price and signal columns *)
(* ================================================================== *)

Module ColumnFacts.

Import Float Py Pandas Utils OptionPricing Terms LoopFacts.
Local Open Scope py_scope.

Lemma bsm_option_price_known (option_type : Z) (S0 K T sigma rf : float) :
  option_type = 0%Z \/ option_type = 1%Z ->
  exists p, bsm_option_price option_type S0 K T sigma rf = Ok p.
Proof.
  intros [-> | ->]; unfold bsm_option_price; simpl; eexists; reflexivity.
Qed.

(** The price a row gets when its kind is known. *)
Lemma price_column_value (prepared_data : list prepared_row)
    (f : prepared_row -> float) :
  (forall r, In r prepared_data ->
     bsm_option_price (opt r) (S0 r) (K r) (T r) (sigma r)
       (rf r / Fin 100)%fl = Ok (f r)) ->
  price_column prepared_data = Ok (map f prepared_data).
Proof.
  intros Hf. unfold price_column.
  set (init := map (fun _ => Fin 0) prepared_data).
  replace (List.length prepared_data) with (List.length init)
    by apply length_map.
  apply for_range_fill.
  - unfold init. rewrite !length_map. reflexivity.
  - intros j Hj. rewrite length_map in Hj.
    destruct (nth_error prepared_data j) as [r |] eqn:Hr.
    2:{ apply nth_error_None in Hr. lia. }
    unfold price_row. rewrite (getitem_Some _ _ Hr). cbn [bind].
    rewrite (Hf r (nth_error_In _ _ Hr)). cbn [bind].
    f_equal. apply update_fill.
    + unfold init. rewrite !length_map. reflexivity.
    + apply map_nth_error. exact Hr.
Qed.

Lemma price_column_known (prepared_data : list prepared_row) :
  Forall kind_known prepared_data ->
  exists price,
    price_column prepared_data = Ok price
    /\ List.length price = List.length prepared_data.
Proof.
  intros Hk.
  set (f := model_price).
  exists (map f prepared_data). split; [| apply length_map].
  apply price_column_value. intros r Hr.
  rewrite Forall_forall in Hk.
  destruct (bsm_option_price_known (S0 r) (K r) (T r) (sigma r)
              (rf r / Fin 100)%fl (Hk r Hr)) as [p Hp].
  unfold f, model_price. rewrite Hp. reflexivity.
Qed.

Lemma length_price_column (prepared_data : list prepared_row)
    (price : list float) :
  price_column prepared_data = Ok price ->
  List.length price = List.length prepared_data.
Proof.
  unfold price_column, for_range.
  set (init := map (fun _ => Fin 0) prepared_data).
  assert (Hinit : List.length init = List.length prepared_data)
    by apply length_map.
  clearbody init. revert init Hinit price.
  generalize (seq 0 (List.length prepared_data)) as range.
  induction range as [| m range IH]; intros init Hinit price H; simpl in H.
  - injection H as <-. exact Hinit.
  - destruct (price_row prepared_data m init) as [st |] eqn:E;
      simpl in H; [| discriminate].
    apply (IH st); [| exact H].
    unfold price_row in E.
    destruct (getitem prepared_data m); simpl in E; [| discriminate].
    destruct (bsm_option_price _ _ _ _ _ _); simpl in E; [| discriminate].
    injection E as <-. rewrite length_update. exact Hinit.
Qed.

(** With a threshold at hand the signal of every row is the one of the
    specification. *)
Lemma signal_column_value (sigma : list string) (thres : list float)
    (s : string) (prepared_data : list prepared_row) (price : list float)
    (th : float) :
  threshold sigma thres s = Ok th ->
  List.length price = List.length prepared_data ->
  signal_column sigma thres s prepared_data price
  = Ok (zip_with (fun r p => Spec.signal p (close r) th) prepared_data price).
Proof.
  intros Hth Hlen. unfold signal_column.
  set (init := map (fun _ => 0%Z) prepared_data).
  set (target := zip_with _ prepared_data price).
  assert (Hinit : List.length init = List.length prepared_data)
    by apply length_map.
  assert (Htarget : List.length target = List.length prepared_data)
    by (unfold target, zip_with;
        rewrite length_map, length_combine, Hlen; apply Nat.min_id).
  rewrite <- Hinit.
  apply for_range_fill; [congruence |].
  intros j Hj. rewrite Htarget in Hj.
  destruct (nth_error prepared_data j) as [r |] eqn:Hr.
  2:{ apply nth_error_None in Hr. lia. }
  destruct (nth_error price j) as [p |] eqn:Hp.
  2:{ apply nth_error_None in Hp. lia. }
  assert (Ht : nth_error target j = Some (Spec.signal p (close r) th)).
  { unfold target, zip_with.
    apply (map_nth_error (fun q => Spec.signal (snd q) (close (fst q)) th)
             j (combine prepared_data price) (d := (r, p))).
    clear - Hr Hp. revert price j Hr Hp.
    induction prepared_data as [| r0 rs IH]; intros [| p0 ps] [| j] Hr Hp;
      simpl in *; try discriminate; [congruence |].
    apply IH; assumption. }
  assert (Hi : nth_error init j = Some 0%Z).
  { unfold init. rewrite (map_nth_error (fun _ => 0%Z) j prepared_data Hr).
    reflexivity. }
  unfold signal_row.
  rewrite (getitem_Some _ _ Hr), (getitem_Some _ _ Hp), Hth. cbn [bind].
  unfold Spec.signal in Ht.
  destruct (p >? (Fin 1 + th) * close r)%fl.
  - f_equal. apply update_fill; [congruence | exact Ht].
  - destruct (p <? (Fin 1 - th) * close r)%fl.
    + f_equal. apply update_fill; [congruence | exact Ht].
    + f_equal. apply keep_fill with (y := 0%Z); [exact Ht | exact Hi].
Qed.

Lemma length_signal_column (sigma : list string) (thres : list float)
    (s : string) (prepared_data : list prepared_row) (price : list float)
    (signal : list Z) :
  signal_column sigma thres s prepared_data price = Ok signal ->
  List.length signal = List.length prepared_data.
Proof.
  unfold signal_column, for_range.
  set (init := map (fun _ => 0%Z) prepared_data).
  assert (Hinit : List.length init = List.length prepared_data)
    by apply length_map.
  clearbody init. revert init Hinit signal.
  generalize (seq 0 (List.length prepared_data)) as range.
  induction range as [| j range IH]; intros init Hinit signal H; simpl in H.
  - injection H as <-. exact Hinit.
  - destruct (signal_row sigma thres s prepared_data price j init)
      as [st |] eqn:E; simpl in H; [| discriminate].
    apply (IH st); [| exact H].
    unfold signal_row in E.
    destruct (getitem prepared_data j); simpl in E; [| discriminate].
    destruct (getitem price j); simpl in E; [| discriminate].
    destruct (threshold sigma thres s); simpl in E; [| discriminate].
    destruct (_ >? _)%fl.
    + injection E as <-. rewrite length_update. exact Hinit.
    + destruct (_ <? _)%fl; injection E as <-;
        [rewrite length_update |]; exact Hinit.
Qed.

(** Without one, the first row raises. *)
Lemma signal_column_raises (sigma : list string) (thres : list float)
    (s : string) (prepared_data : list prepared_row) (price : list float)
    (e : exn) :
  threshold sigma thres s = Raise e ->
  prepared_data <> [] ->
  List.length price = List.length prepared_data ->
  signal_column sigma thres s prepared_data price = Raise e.
Proof.
  intros Hth Hne Hlen.
  destruct prepared_data as [| r rs]; [congruence |].
  destruct price as [| p ps]; [discriminate |].
  unfold signal_column, for_range. cbn [List.length seq for_each].
  unfold signal_row at 1. cbn [getitem nth_error of_option bind].
  rewrite Hth. reflexivity.
Qed.

End ColumnFacts.

(* ================================================================== *)
(** * The value path *)
(* ================================================================== *)

Module PathFacts.

Import Float Py Pandas Utils OptionPricing Terms FloatFacts SeriesFacts.

Lemma In_removelast {A : Type} (l : list A) (x : A) :
  In x (removelast l) -> In x l.
Proof.
  induction l as [| y r IH]; intros H; [destruct H |].
  destruct r as [| z r]; [destruct H |].
  cbn [removelast] in H. destruct H as [<- | H];
    [left; reflexivity | right; apply IH; exact H].
Qed.

Lemma In_firstn {A : Type} (n : nat) (l : list A) (x : A) :
  In x (firstn n l) -> In x l.
Proof.
  revert l. induction n as [| n IH]; intros [| y l] H; simpl in H;
    try destruct H as [<- | H]; try contradiction;
    [left; reflexivity | right; apply IH; exact H].
Qed.

Lemma length_removelast_cons {A : Type} (x : A) (l : list A) :
  List.length (removelast (x :: l)) = List.length l.
Proof.
  revert x. induction l as [| y r IH]; intros x; [reflexivity |].
  cbn [removelast List.length] in *. f_equal. apply IH.
Qed.

Lemma length_path_values (commission : float) (vs : list float) :
  List.length
    (map (fun x => x + Fin 1)%fl
         (cumsum (map (fun x => x - commission)%fl vs)))
  = List.length vs.
Proof.
  unfold cumsum. rewrite length_map, length_accumulate, length_map.
  reflexivity.
Qed.

(** The series keeps the dates of the daily means; its values are those
    of lines 46 and 47. *)
Lemma index_cumulative_value (commission : float) (dd : series string) :
  index (cumulative_value commission dd) = index dd.
Proof.
  unfold cumulative_value.
  rewrite index_on_values.
  - apply index_on_values. rewrite length_path_values. apply length_values.
  - rewrite length_fillna, length_shift, length_values. reflexivity.
Qed.

Lemma values_cumulative_value (commission : float) (dd : series string) :
  values (cumulative_value commission dd)
  = fillna (Fin 1)
      (shift (map (fun x => x + Fin 1)%fl
                  (cumsum (map (fun x => x - commission)%fl (values dd))))).
Proof.
  unfold cumulative_value.
  rewrite values_on_values.
  - rewrite values_on_values; [reflexivity |].
    rewrite length_path_values. apply length_values.
  - rewrite length_fillna, length_shift, length_values. reflexivity.
Qed.

Lemma length_cumulative_value (commission : float) (dd : series string) :
  List.length (cumulative_value commission dd) = List.length dd.
Proof.
  rewrite <- (length_index (cumulative_value commission dd)),
    index_cumulative_value.
  apply length_index.
Qed.

(** The shift makes the path a function of all daily means but the
    last. *)
Lemma shifted_path_prefix (commission : float) (vs : list float) :
  shift (map (fun x => x + Fin 1)%fl
             (cumsum (map (fun x => x - commission)%fl vs)))
  = match vs with
    | [] => []
    | _ :: _ =>
        NaN :: map (fun x => x + Fin 1)%fl
                   (cumsum (map (fun x => x - commission)%fl (removelast vs)))
    end.
Proof.
  destruct vs as [| v r]; [reflexivity |].
  unfold shift.
  destruct (map _ (cumsum (map _ (v :: r)))) as [| p ps] eqn:E.
  - apply (f_equal (@List.length float)) in E.
    rewrite length_path_values in E. discriminate.
  - rewrite <- E. f_equal.
    unfold cumsum.
    rewrite removelast_map, removelast_accumulate, removelast_map.
    reflexivity.
Qed.

Lemma cumulative_value_prefix (commission : float) (dd dd' : series string) :
  index dd = index dd' ->
  removelast (values dd) = removelast (values dd') ->
  cumulative_value commission dd = cumulative_value commission dd'.
Proof.
  intros Hi Hv.
  rewrite <- (combine_index_values (cumulative_value commission dd)),
    <- (combine_index_values (cumulative_value commission dd')).
  rewrite !index_cumulative_value, !values_cumulative_value,
    !shifted_path_prefix, Hi, Hv.
  assert (Hlen : List.length (values dd) = List.length (values dd')).
  { rewrite !length_values, <- !(length_index (I := string)), Hi.
    reflexivity. }
  destruct (values dd), (values dd'); simpl in Hlen; try discriminate;
    reflexivity.
Qed.

(** The first value is the 1.0 that [fillna] writes in the slot the shift
    has emptied. *)
Lemma cumulative_value_first (commission : float) (dd : series string) :
  dd <> [] ->
  nth_error (values (cumulative_value commission dd)) 0 = Some (Fin 1).
Proof.
  intros Hne.
  rewrite values_cumulative_value, shifted_path_prefix.
  destruct dd as [| [k v] dd]; [congruence | reflexivity].
Qed.

(** On finite daily means and a finite commission: 1.0 first, and then
    1.0 more than the sum of the adjusted means of the days before. *)
Lemma cumulative_value_finite (commission : float) (dd : series string) :
  is_finite commission ->
  all_finite (values dd) ->
  dd <> [] ->
  nth_error (values (cumulative_value commission dd)) 0 = Some (Fin 1)
  /\ forall t,
       (1 <= t < List.length dd)%nat ->
       nth_error (values (cumulative_value commission dd)) t
       = Some (fsum (map (fun x => x - commission)%fl
                         (firstn t (values dd))) + Fin 1)%fl.
Proof.
  intros Hc Hfin Hne.
  rewrite values_cumulative_value, shifted_path_prefix.
  destruct (values dd) as [| v r] eqn:Ev.
  { destruct dd; [congruence | discriminate]. }
  rewrite <- Ev.
  assert (Hlen : List.length (values dd) = List.length dd)
    by apply length_values.
  split; [reflexivity |].
  intros t [Ht1 Ht2].
  destruct t as [| t]; [lia |].
  cbn [fillna map isna nth_error].
  set (xs := map (fun x => x - commission)%fl (removelast (values dd))).
  assert (Hxs : Forall is_finite xs).
  { unfold xs. apply Forall_map.
    assert (Hrl : Forall is_finite (removelast (values dd))).
    { apply Forall_forall. intros x Hx.
      assert (Hall : Forall is_finite (values dd))
        by (rewrite Ev; exact Hfin || (rewrite <- Ev; exact Hfin) || exact Hfin).
      rewrite Forall_forall in Hall. apply Hall.
      apply In_removelast. exact Hx. }
    revert Hrl. apply Forall_impl. intros a Ha.
    destruct a, commission; simpl in *; try contradiction; exact I. }
  assert (Hlx : List.length xs = List.length r).
  { unfold xs. rewrite length_map, Ev. apply length_removelast_cons. }
  assert (Hr : List.length r = (List.length dd - 1)%nat)
    by (rewrite <- Hlen, Ev; simpl; lia).
  assert (Hpre : firstn (S t) (values dd) = firstn (S t) (removelast (values dd))).
  { rewrite removelast_firstn_len.
    rewrite firstn_firstn. f_equal. rewrite Hlen. lia. }
  unfold fillna. rewrite nth_error_map, nth_error_map.
  unfold cumsum.
  rewrite accumulate_nth; [| apply finite_notna; exact Hxs | lia].
  cbn [option_map].
  rewrite Hpre, <- firstn_map. fold xs. fold (fsum (firstn (S t) xs)).
  assert (Hs : is_finite (fsum (firstn (S t) xs))).
  { apply fsum_finite. apply Forall_forall. intros a Ha.
    rewrite Forall_forall in Hxs. apply Hxs.
    apply (In_firstn _ _ _ Ha). }
  destruct (fsum (firstn (S t) xs)); simpl in Hs; try contradiction.
  reflexivity.
Qed.

End PathFacts.

(* ================================================================== *)
(** * Grouping by date *)
(* ================================================================== *)

Module GroupFacts.

Import Float Py Pandas Utils OptionPricing Terms FloatFacts SeriesFacts.
Import PathFacts.

Lemma insert_key_perm (k : string) (ks : list string) :
  Permutation (insert_key k ks) (k :: ks).
Proof.
  induction ks as [| h t IH]; simpl; [apply Permutation_refl |].
  destruct (String.leb k h); [apply Permutation_refl |].
  eapply Permutation_trans; [apply perm_skip, IH | apply perm_swap].
Qed.

Lemma sort_keys_perm (ks : list string) : Permutation (sort_keys ks) ks.
Proof.
  induction ks as [| k ks IH]; simpl; [apply Permutation_refl |].
  eapply Permutation_trans; [apply insert_key_perm | apply perm_skip, IH].
Qed.

Lemma sorted_unique_perm (ks : list string) :
  Permutation (sorted_unique ks) (nodup string_dec ks).
Proof. apply sort_keys_perm. Qed.

Lemma sorted_unique_In (k : string) (ks : list string) :
  In k (sorted_unique ks) <-> In k ks.
Proof.
  split; intros H.
  - apply (nodup_In string_dec).
    exact (Permutation_in _ (sorted_unique_perm ks) H).
  - apply (Permutation_in _ (Permutation_sym (sorted_unique_perm ks))).
    apply nodup_In. exact H.
Qed.

Lemma sorted_unique_NoDup (ks : list string) : NoDup (sorted_unique ks).
Proof.
  apply (Permutation_NoDup (Permutation_sym (sorted_unique_perm ks))).
  apply NoDup_nodup.
Qed.

Lemma sorted_unique_nonempty (ks : list string) :
  ks <> [] -> sorted_unique ks <> [].
Proof.
  intros Hne Hs. destruct ks as [| k ks]; [congruence |].
  assert (Hin : In k (sorted_unique (k :: ks)))
    by (apply sorted_unique_In; left; reflexivity).
  rewrite Hs in Hin. destruct Hin.
Qed.

(** In a list without repetition the last element is none of the
    others. *)
Lemma NoDup_removelast_last {A : Type} (l : list A) (x d : A) :
  NoDup l -> In x (removelast l) -> x <> last l d.
Proof.
  induction l as [| y r IH]; intros Hnd Hin; [destruct Hin |].
  destruct r as [| z r]; [destruct Hin |].
  inversion Hnd as [| ? ? Hy Hr]; subst.
  cbn [removelast] in Hin. cbn [last].
  destruct Hin as [<- | Hin].
  - intros ->. apply Hy.
    clear. generalize z. induction r as [| w r IH]; intros z0;
      [left; reflexivity |].
    cbn [last]. right. apply IH.
  - apply IH; assumption.
Qed.

Lemma index_groupby_mean (rows : list (string * float)) :
  index (groupby_mean rows) = sorted_unique (index rows).
Proof.
  unfold groupby_mean, index. rewrite map_map. simpl. apply map_id.
Qed.

Lemma values_groupby_mean (rows : list (string * float)) :
  values (groupby_mean rows)
  = map (fun k => mean (group_values k rows)) (sorted_unique (index rows)).
Proof.
  unfold groupby_mean, values. rewrite map_map. reflexivity.
Qed.

(** Every key has a row, and rows with finite values have finite
    means. *)
Lemma group_values_nonempty (k : string) (rows : list (string * float)) :
  In k (index rows) -> group_values k rows <> [].
Proof.
  unfold group_values, values, index.
  induction rows as [| [k0 v0] rows IH]; intros Hin; [destruct Hin |].
  simpl. destruct (String.eqb_spec k0 k) as [-> | Hne]; [discriminate |].
  destruct Hin as [Heq | Hin]; [simpl in Heq; congruence |].
  apply IH. exact Hin.
Qed.

Lemma group_values_finite (k : string) (rows : list (string * float)) :
  all_finite (values rows) -> all_finite (group_values k rows).
Proof.
  unfold group_values, values, all_finite.
  induction rows as [| [k0 v0] rows IH]; intros Hfin; simpl;
    [constructor |].
  inversion Hfin as [| ? ? Hv Hr]; subst.
  destruct (String.eqb k0 k); simpl; [constructor; [exact Hv |] |];
    apply IH; exact Hr.
Qed.

Lemma groupby_mean_finite (rows : list (string * float)) :
  all_finite (values rows) -> all_finite (values (groupby_mean rows)).
Proof.
  intros Hfin. rewrite values_groupby_mean.
  apply Forall_map, Forall_forall. intros k Hk.
  apply mean_finite.
  - apply group_values_nonempty, sorted_unique_In. exact Hk.
  - apply group_values_finite. exact Hfin.
Qed.

Lemma groupby_mean_nonempty (rows : list (string * float)) :
  rows <> [] -> groupby_mean rows <> [].
Proof.
  intros Hne Hg.
  apply (f_equal (@index string)) in Hg. rewrite index_groupby_mean in Hg.
  apply (sorted_unique_nonempty (ks := index rows)); [| exact Hg].
  destruct rows; [congruence | discriminate].
Qed.

(** Rows that differ only in the values of one date have the same groups
    at every other date. *)
Lemma same_but_on_index (d : string) (rows rows' : list (string * float)) :
  same_but_on d rows rows' -> index rows = index rows'.
Proof.
  unfold index.
  induction 1 as [| p q rows rows' [Hk _] _ IH]; [reflexivity |].
  simpl. rewrite Hk, IH. reflexivity.
Qed.

Lemma same_but_on_group (d k : string) (rows rows' : list (string * float)) :
  same_but_on d rows rows' -> k <> d ->
  group_values k rows = group_values k rows'.
Proof.
  intros H Hk. unfold group_values, values.
  induction H as [| p q rows rows' [Hfst Hsnd] _ IH]; [reflexivity |].
  simpl. rewrite <- Hfst.
  destruct (String.eqb_spec (fst p) k) as [E | E]; [| exact IH].
  simpl. rewrite IH, Hsnd by congruence. reflexivity.
Qed.

(** When that date is the last key, the daily means agree on every day
    but the last. *)
Lemma same_but_on_last (rows rows' : list (string * float)) :
  same_but_on (last (sorted_unique (index rows)) EmptyString) rows rows' ->
  index (groupby_mean rows) = index (groupby_mean rows')
  /\ removelast (values (groupby_mean rows))
     = removelast (values (groupby_mean rows')).
Proof.
  intros H. pose proof (same_but_on_index H) as Hi.
  rewrite !index_groupby_mean, !values_groupby_mean, <- Hi.
  split; [reflexivity |].
  rewrite !removelast_map. apply map_ext_in. intros k Hk.
  f_equal. apply (same_but_on_group H).
  apply NoDup_removelast_last; [apply sorted_unique_NoDup | exact Hk].
Qed.

End GroupFacts.

(* ================================================================== *)
(** * The metrics *)
(* ================================================================== *)

Module MetricsFacts.

Import Float Py Time Pandas Utils Terms FloatFacts SeriesFacts.
Local Open Scope py_scope.

Lemma fdiv_nan_r (a : float) : (a / NaN)%fl = NaN.
Proof. destruct a; reflexivity. Qed.

Lemma pct_change_cons (v : float) (r : list float) :
  pct_change (v :: r)
  = NaN :: zip_with (fun x prev => x / prev - Fin 1)%fl r
             (removelast (v :: r)).
Proof.
  unfold pct_change, shift, zip_with. cbn [combine map fst snd].
  rewrite fdiv_nan_r. reflexivity.
Qed.

(** Between positive values every change is a finite number. *)
Lemma pct_change_tail_finite (r : list float) :
  forall v,
    Forall is_positive (v :: r) ->
    Forall is_finite
      (zip_with (fun x prev => x / prev - Fin 1)%fl r (removelast (v :: r))).
Proof.
  induction r as [| w r IH]; intros v Hpos; [constructor |].
  inversion Hpos as [| ? ? Hv Hr]; subst.
  cbn [removelast]. unfold zip_with in *. cbn [combine map fst snd].
  constructor; [| apply IH; exact Hr].
  inversion Hr as [| ? ? Hw _]; subst.
  destruct v as [x | | |], w as [y | | |]; simpl in Hv, Hw;
    try contradiction.
  rewrite fdiv_fin by lra. exact I.
Qed.

(** A running product that has reached zero stays there on finite
    factors. *)
Lemma accumulate_fmul_zero (xs : list float) :
  Forall is_finite xs ->
  accumulate fmul (Fin 0) xs = map (fun _ => Fin 0) xs.
Proof.
  induction 1 as [| x xs Hx _ IH]; [reflexivity |].
  destruct x as [x | | |]; simpl in Hx; try contradiction.
  cbn [accumulate isna map fmul].
  replace (0 * x)%R with 0%R by lra.
  rewrite IH. reflexivity.
Qed.

(** Line 52 multiplies the changes themselves, the first of which is the
    0 that [fillna] wrote: on positive values the whole series is 0. *)
Lemma cum_ret_values_zero (vs : list float) :
  Forall is_positive vs ->
  cumprod (map (fun x => x + Fin 0)%fl (fillna (Fin 0) (pct_change vs)))
  = map (fun _ => Fin 0) vs.
Proof.
  intros Hpos. destruct vs as [| v r]; [reflexivity |].
  rewrite pct_change_cons.
  pose proof (pct_change_tail_finite Hpos) as Hfin.
  set (tl := zip_with _ r _) in *.
  assert (Hlen : List.length tl = List.length r).
  { unfold tl, zip_with. rewrite length_map, length_combine.
    rewrite PathFacts.length_removelast_cons. apply Nat.min_id. }
  cbn [fillna map isna fadd]. unfold cumprod.
  cbn [accumulate isna fmul].
  replace (1 * (0 + 0))%R with 0%R by lra.
  f_equal.
  rewrite accumulate_fmul_zero.
  - rewrite !map_map.
    clearbody tl. clear - Hlen. revert r Hlen.
    induction tl as [| a tl IH]; intros [| w r] Hlen; simpl in Hlen;
      try discriminate; [reflexivity |].
    cbn [map]. f_equal. apply IH. lia.
  - apply Forall_map, Forall_map. revert Hfin. apply Forall_impl.
    intros a Ha. destruct a; simpl in *; try contradiction; exact I.
Qed.

Lemma cum_ret_ser_zero (pv : series timestamp) :
  Forall is_positive (values pv) ->
  cum_ret_ser pv = map (fun p => (fst p, Fin 0)) pv.
Proof.
  intros Hpos. unfold cum_ret_ser, on_values.
  rewrite (cum_ret_values_zero Hpos). unfold index, values.
  rewrite map_map. clear.
  induction pv as [| [t v] pv IH]; [reflexivity |].
  simpl. rewrite IH. reflexivity.
Qed.

(** ** The metrics of a series that is 0 throughout *)

Lemma maximum_accumulate_from_zero (n : nat) :
  maximum_accumulate_from (Fin 0) (repeat (Fin 0) n) = repeat (Fin 0) n.
Proof.
  induction n as [| n IH]; [reflexivity |].
  cbn [repeat maximum_accumulate_from np_maximum].
  rewrite fgt_irrefl, IH. reflexivity.
Qed.

Lemma maximum_accumulate_zero (n : nat) :
  maximum_accumulate (repeat (Fin 0) n) = repeat (Fin 0) n.
Proof.
  destruct n as [| n]; [reflexivity |].
  cbn [repeat maximum_accumulate]. rewrite maximum_accumulate_from_zero.
  reflexivity.
Qed.

Lemma expanding_max_from_zero (n : nat) :
  expanding_max_from (Fin 0) (repeat (Fin 0) n) = repeat (Fin 0) n.
Proof.
  induction n as [| n IH]; [reflexivity |].
  cbn [repeat expanding_max_from isna]. rewrite fgt_irrefl, IH. reflexivity.
Qed.

Lemma expanding_max_zero (n : nat) :
  expanding_max (repeat (Fin 0) n) = repeat (Fin 0) n.
Proof.
  destruct n as [| n]; [reflexivity |].
  unfold expanding_max. cbn [repeat expanding_max_from isna].
  rewrite expanding_max_from_zero. reflexivity.
Qed.

Lemma zip_with_repeat {A B C : Type} (f : A -> B -> C) (a : A) (b : B)
    (n : nat) :
  zip_with f (repeat a n) (repeat b n) = repeat (f a b) n.
Proof.
  unfold zip_with. induction n as [| n IH]; [reflexivity |].
  simpl. rewrite IH. reflexivity.
Qed.

(** Every drawdown of the zero series is [0 / 0]. *)
Lemma drawdowns_zero (n : nat) :
  drawdowns (repeat (Fin 0) n) = repeat NaN n.
Proof.
  unfold drawdowns.
  rewrite maximum_accumulate_zero, !zip_with_repeat.
  f_equal. cbn [fsub fneg fadd].
  apply fdiv_zero_zero; lra.
Qed.

Lemma py_max_nan (n : nat) : py_max (repeat NaN (S n)) = Ok NaN.
Proof.
  cbn [repeat py_max]. f_equal.
  induction n as [| n IH]; [reflexivity |].
  cbn [repeat fold_left fgt]. exact IH.
Qed.

Lemma last_repeat {A : Type} (a d : A) (n : nat) :
  last (repeat a (S n)) d = a.
Proof.
  induction n as [| n IH]; [reflexivity |].
  change (repeat a (S (S n))) with (a :: repeat a (S n)).
  cbn [last]. cbn [repeat] in *. exact IH.
Qed.

(** The first label wins [idxmax] when no value is greater than the
    first. *)
Lemma idxmax_constant {I : Type} (i : I) (x : R) (r : series I) :
  Forall (fun p => snd p = Fin x) r ->
  idxmax ((i, Fin x) :: r) = Ok i.
Proof.
  intros H. unfold idxmax. cbn [values map snd forallb isna andb].
  f_equal. cbn [nan_to_ninf isna].
  induction H as [| p r Hp _ IH]; [reflexivity |].
  cbn [fold_left]. rewrite Hp. cbn [nan_to_ninf isna snd].
  rewrite fgt_irrefl. exact IH.
Qed.

Lemma values_zero_series (pv : series timestamp) :
  values (map (fun p => (fst p, Fin 0)) pv)
  = repeat (Fin 0) (List.length pv).
Proof.
  unfold values. rewrite map_map. cbn [snd]. apply map_const.
Qed.

Lemma index_zero_series (pv : series timestamp) :
  index (map (fun p => (fst p, Fin 0)) pv) = index pv.
Proof.
  unfold index. rewrite map_map. reflexivity.
Qed.

(** What lines 46 to 78 compute on a series of positive daily values. *)
Lemma compute_metrics_positive (ser : series timestamp) (t0 : timestamp)
    (v0 : float) (rest : series timestamp) :
  resample_last_dropna ser = (t0, v0) :: rest ->
  Forall is_positive (values (resample_last_dropna ser)) ->
  exists m,
    compute_metrics ser = Ok m
    /\ total_return m = Fin (-1)
    /\ annualized_return m = Fin (-1)
    /\ maximum_drawdown m = NaN
    /\ calmar_ratio m = NaN
    /\ drawdown_start m = t0
    /\ drawdown_end m = t0.
Proof.
  intros Hpv Hpos. unfold compute_metrics.
  rewrite (cum_ret_ser_zero _ Hpos), values_zero_series.
  rewrite Hpv. set (pv := (t0, v0) :: rest).
  change (List.length pv) with (S (List.length rest)).
  unfold iloc_last. change (repeat (Fin 0) (S (List.length rest)))
    with (Fin 0 :: repeat (Fin 0) (List.length rest)) at 1.
  cbn [bind]. rewrite last_repeat.
  rewrite drawdowns_zero, py_max_nan. cbn [bind].
  assert (Hend : idxmax
                   (on_values (fun c => zip_with fsub (expanding_max c) c)
                      (map (fun p => (fst p, Fin 0)) pv)) = Ok t0).
  { unfold on_values.
    rewrite values_zero_series, index_zero_series, expanding_max_zero,
      zip_with_repeat.
    unfold pv. cbn [index map fst List.length repeat combine].
    apply idxmax_constant.
    rewrite Forall_forall. intros [a b] Hp. cbn [snd].
    apply in_combine_r in Hp. exact (repeat_spec _ _ _ Hp). }
  rewrite Hend. cbn [bind].
  assert (Hstart : idxmax (loc_upto t0 (map (fun p => (fst p, Fin 0)) pv))
                   = Ok t0).
  { unfold loc_upto, pv. cbn [map filter fst]. rewrite Z.leb_refl.
    apply idxmax_constant.
    rewrite Forall_forall. intros p Hp.
    apply filter_In in Hp as [Hp _]. apply in_map_iff in Hp as [q [<- _]].
    reflexivity. }
  rewrite Hstart. cbn [bind].
  eexists. split; [reflexivity |].
  cbn [total_return annualized_return maximum_drawdown calmar_ratio
       drawdown_start drawdown_end].
  assert (Hann : (Fin 0 ** (Fin 252 / count (repeat (Fin 0) (S (List.length rest))))
                  - Fin 1)%fl = Fin (-1)).
  { unfold count. rewrite repeat_length.
    assert (Hn : (0 < INR (S (List.length rest)))%R) by (apply lt_0_INR; lia).
    rewrite fdiv_fin by lra.
    rewrite fpow_zero_pos; [| reflexivity | apply Rdiv_lt_0_compat; lra].
    cbn [fsub fneg fadd]. f_equal. lra. }
  rewrite Hann.
  repeat split; try reflexivity.
  cbn [fsub fneg fadd]. f_equal. lra.
Qed.

End MetricsFacts.

(* ================================================================== *)
(** * The call of [get_backtest_info] *)
(* ================================================================== *)

Module InfoFacts.

Import Float Py Time Pandas Utils Terms SeriesFacts.
Local Open Scope py_scope.

Section WithLibrary.

Context {L : Library}.

Lemma to_datetime_index_length (ls : list label) (ts : list timestamp) :
  to_datetime_index ls = Ok ts -> List.length ts = List.length ls.
Proof.
  revert ts. induction ls as [| l ls IH]; intros ts H; simpl in H.
  - injection H as <-. reflexivity.
  - destruct (to_datetime l); simpl in H; [| discriminate].
    destruct (to_datetime_index ls) as [ts' |]; simpl in H; [| discriminate].
    injection H as <-. simpl. f_equal. apply IH. reflexivity.
Qed.

(** Timestamps convert to themselves. *)
Lemma to_datetime_index_timestamps (ts : list timestamp) :
  to_datetime_index (map LTs ts) = Ok ts.
Proof.
  induction ts as [| t ts IH]; [reflexivity |].
  simpl. rewrite IH. reflexivity.
Qed.

Lemma to_datetime_index_already (ls : list label) (ts : list timestamp) :
  Forall (fun l => exists t, l = LTs t) ls ->
  to_datetime_index ls = Ok ts -> map LTs ts = ls.
Proof.
  intros H. revert ts. induction H as [| l ls [t ->] _ IH]; intros ts E;
    simpl in E.
  - injection E as <-. reflexivity.
  - destruct (to_datetime_index ls) as [ts' |]; simpl in E; [| discriminate].
    injection E as <-. simpl. f_equal. apply IH. reflexivity.
Qed.

(** What a call leaves of the series it was given. *)
Lemma get_backtest_info_converted (ser : series label)
    (ts : list timestamp) :
  to_datetime_index (index ser) = Ok ts ->
  get_backtest_info ser
  = (combine (map LTs ts) (values ser),
     fmap format_report (compute_metrics (combine ts (values ser)))).
Proof. intros H. unfold get_backtest_info. rewrite H. reflexivity. Qed.

Lemma get_backtest_info_raises (ser : series label) (e : exn) :
  to_datetime_index (index ser) = Raise e ->
  get_backtest_info ser = (ser, Raise e).
Proof. intros H. unfold get_backtest_info. rewrite H. reflexivity. Qed.

(** The call raises on a series that has no daily value at all. *)
Lemma get_backtest_info_empty :
  snd (get_backtest_info []) = Raise IndexError.
Proof. reflexivity. Qed.

End WithLibrary.

End InfoFacts.

(* ================================================================== *)
(** * Data preparation and the loop over the variants *)
(* ================================================================== *)

Module RunFacts.

Import Float Py Time Pandas Utils OptionPricing Terms.
Import LoopFacts ColumnFacts InfoFacts.
Local Open Scope py_scope.

Lemma for_each_ext {A S : Type} (body body' : A -> S -> result S)
    (items : list A) :
  (forall x, In x items -> forall st, body x st = body' x st) ->
  forall st, for_each body items st = for_each body' items st.
Proof.
  induction items as [| x r IH]; intros H st; [reflexivity |].
  simpl. rewrite (H x (or_introl eq_refl)).
  destruct (body' x st); simpl; [| reflexivity].
  apply IH. intros y Hy. apply H. right. exact Hy.
Qed.

Lemma for_each_app {A S : Type} (body : A -> S -> result S)
    (l1 l2 : list A) (st : S) :
  for_each body (l1 ++ l2) st
  = bind (for_each body l1 st) (for_each body l2).
Proof.
  revert st. induction l1 as [| x r IH]; intros st; [reflexivity |].
  simpl. destruct (body x st); simpl; [apply IH | reflexivity].
Qed.

(** ** The option kind *)

Lemma prepare_variant_opt (data : list option_row) (vix : vix_table)
    (shibor : list (string * float)) (s : string)
    (df : list prepared_row) :
  prepare_variant data vix shibor s = Ok df ->
  forall r, In r df ->
    opt r = if String.eqb (opt_type r) "call" then 0%Z else 1%Z.
Proof.
  unfold prepare_variant. intros H r Hr.
  destruct (select_column vix s) as [cols |]; simpl in H; [| discriminate].
  injection H as <-.
  apply filter_In in Hr as [Hr _].
  apply in_map_iff in Hr as [[label [[d [asset_price vol]] rate]] [<- _]].
  reflexivity.
Qed.

Lemma prepare_variant_kind_known (data : list option_row) (vix : vix_table)
    (shibor : list (string * float)) (s : string)
    (df : list prepared_row) :
  prepare_variant data vix shibor s = Ok df -> Forall kind_known df.
Proof.
  intros H. apply Forall_forall. intros r Hr.
  unfold kind_known. rewrite (prepare_variant_opt _ _ _ _ H r Hr).
  destruct (String.eqb (opt_type r) "call"); [left | right]; reflexivity.
Qed.

(** ** Thresholds *)


Lemma list_index_first (s : string) (pre post : list string) :
  ~ In s pre -> list_index s (pre ++ s :: post) = Ok (List.length pre).
Proof.
  induction pre as [| y pre IH]; intros Hn; simpl.
  - rewrite String.eqb_refl. reflexivity.
  - destruct (String.eqb_spec s y) as [-> | Hne].
    + exfalso. apply Hn. left. reflexivity.
    + rewrite IH; [reflexivity |]. intros Hin. apply Hn. right. exact Hin.
Qed.



Section WithLibrary.

Context {L : Library}.


(** Without rows nothing is priced and no threshold is read. *)
Lemma value_path_empty (sigma : list string) (thres : list float)
    (commission : float) (s : string) :
  value_path sigma thres commission [] s = Ok [].
Proof. reflexivity. Qed.

End WithLibrary.

End RunFacts.

Import Float Py Time Pandas Utils OptionPricing Terms.

(* ================================================================== *)
(** * The cumulative value series *)
(* ================================================================== *)

Module DailyFacts.

Import SeriesFacts GroupFacts.

Lemma length_return_column (prepared_data : list prepared_row)
    (signal : list Z) :
  List.length signal = List.length prepared_data ->
  List.length (return_column prepared_data signal)
  = List.length prepared_data.
Proof.
  intros H. unfold return_column. apply length_zip_with. congruence.
Qed.

Lemma return_column_finite (prepared_data : list prepared_row)
    (signal : list Z) :
  Forall (fun r => is_finite (ret r)) prepared_data ->
  all_finite (return_column prepared_data signal).
Proof.
  intros H. revert signal. unfold return_column, zip_with, all_finite.
  induction H as [| r rs Hr _ IH]; intros [| sg signal]; simpl;
    try constructor; [| apply IH].
  destruct (ret r); simpl in *; try contradiction; exact I.
Qed.

Lemma daily_mean_rows (prepared_data : list prepared_row)
    (returns : list float) :
  List.length returns = List.length prepared_data ->
  index (combine (map date prepared_data) returns) = map date prepared_data
  /\ values (combine (map date prepared_data) returns) = returns.
Proof.
  intros H. split.
  - apply index_combine. rewrite length_map. congruence.
  - apply values_combine. rewrite length_map. congruence.
Qed.

Lemma daily_mean_finite (prepared_data : list prepared_row)
    (signal : list Z) :
  List.length signal = List.length prepared_data ->
  Forall (fun r => is_finite (ret r)) prepared_data ->
  all_finite
    (values (daily_mean prepared_data
               (return_column prepared_data signal))).
Proof.
  intros Hlen Hfin. unfold daily_mean. apply groupby_mean_finite.
  destruct (daily_mean_rows prepared_data _
              (length_return_column prepared_data signal Hlen)) as [_ ->].
  apply return_column_finite. exact Hfin.
Qed.

Lemma daily_mean_nonempty (prepared_data : list prepared_row)
    (returns : list float) :
  List.length returns = List.length prepared_data ->
  prepared_data <> [] ->
  daily_mean prepared_data returns <> [].
Proof.
  intros Hlen Hne. unfold daily_mean. apply groupby_mean_nonempty.
  destruct prepared_data as [| r rs]; [congruence |].
  destruct returns; [discriminate | discriminate].
Qed.

End DailyFacts.

(* ================================================================== *)
(** * The last day's return does not reach the series *)
(* ================================================================== *)

Module LastDayFacts.

Import LoopFacts SeriesFacts GroupFacts.

Lemma same_length (d : string) (rows rows' : list prepared_row) :
  same_but_ret_on d rows rows' -> List.length rows' = List.length rows.
Proof. intros H. symmetry. exact (Forall2_length H). Qed.

Lemma same_row (d : string) (rows rows' : list prepared_row) (j : nat) :
  same_but_ret_on d rows rows' ->
  match nth_error rows j, nth_error rows' j with
  | Some r, Some r' => r' = with_ret r (ret r')
  | None, None => True
  | _, _ => False
  end.
Proof.
  intros H. revert j.
  induction H as [| r r' rs rs' [Hr _] _ IH]; intros [| j];
    cbn [nth_error]; [exact I | exact I | exact Hr | apply IH].
Qed.

(** Prices and signals do not read the realized return. *)
Lemma same_price_column (d : string) (rows rows' : list prepared_row) :
  same_but_ret_on d rows rows' ->
  price_column rows' = price_column rows.
Proof.
  intros Hsame. unfold price_column, for_range.
  rewrite (same_length Hsame).
  replace (map (fun _ => Fin 0) rows') with (map (fun _ => Fin 0) rows)
    by (rewrite !map_const, (same_length Hsame); reflexivity).
  apply RunFacts.for_each_ext. intros m _ st.
  unfold price_row, getitem. pose proof (same_row m Hsame) as H.
  destruct (nth_error rows m) as [r |], (nth_error rows' m) as [r' |];
    try contradiction; [| reflexivity].
  rewrite H. reflexivity.
Qed.

Lemma same_signal_column (d : string) (rows rows' : list prepared_row)
    (sigma : list string) (thres : list float) (s : string)
    (price : list float) :
  same_but_ret_on d rows rows' ->
  signal_column sigma thres s rows' price
  = signal_column sigma thres s rows price.
Proof.
  intros Hsame. unfold signal_column, for_range.
  rewrite (same_length Hsame).
  replace (map (fun _ => 0%Z) rows') with (map (fun _ => 0%Z) rows)
    by (rewrite !map_const, (same_length Hsame); reflexivity).
  apply RunFacts.for_each_ext. intros j _ st.
  unfold signal_row, getitem. pose proof (same_row j Hsame) as H.
  destruct (nth_error rows j) as [r |], (nth_error rows' j) as [r' |];
    try contradiction; [| reflexivity].
  rewrite H. reflexivity.
Qed.

(** The rows handed to the [groupby] differ on the date [d] only. *)
Lemma same_returns (d : string) (rows rows' : list prepared_row)
    (signal : list Z) :
  same_but_ret_on d rows rows' ->
  same_but_on d
    (combine (map date rows) (return_column rows signal))
    (combine (map date rows') (return_column rows' signal)).
Proof.
  intros Hsame. revert signal.
  unfold return_column, zip_with, same_but_on.
  induction Hsame as [| r r' rs rs' [Hr Hret] _ IH]; intros [| sg signal];
    simpl; try constructor; [| apply IH].
  cbn [fst snd]. split; [rewrite Hr; reflexivity |].
  intros Hd. rewrite (Hret Hd). reflexivity.
Qed.

(** Changing the realized returns of the last date changes no value of
    the series. *)
Lemma value_path_last_day (sigma : list string) (thres : list float)
    (commission : float) (rows rows' : list prepared_row) (s : string) :
  same_but_ret_on (last_date rows) rows rows' ->
  value_path sigma thres commission rows' s
  = value_path sigma thres commission rows s.
Proof.
  intros Hsame. unfold value_path.
  rewrite (same_price_column Hsame).
  destruct (price_column rows) as [price |]; [| reflexivity].
  cbn [bind]. rewrite (same_signal_column sigma thres s price Hsame).
  destruct (signal_column sigma thres s rows price) as [signal |] eqn:Hs;
    [| reflexivity].
  cbn [bind]. f_equal. symmetry.
  pose proof (ColumnFacts.length_signal_column _ _ _ _ _ Hs) as Hlen.
  pose proof (same_returns signal Hsame) as Hret.
  unfold daily_mean.
  assert (Hidx : index (combine (map date rows) (return_column rows signal))
                 = map date rows).
  { apply DailyFacts.daily_mean_rows.
    apply DailyFacts.length_return_column. exact Hlen. }
  assert (Hret' :
            same_but_on
              (last (sorted_unique
                       (index (combine (map date rows)
                                 (return_column rows signal)))) EmptyString)
              (combine (map date rows) (return_column rows signal))
              (combine (map date rows') (return_column rows' signal)))
    by (rewrite Hidx; exact Hret).
  destruct (same_but_on_last Hret') as [Hi Hv].
  apply PathFacts.cumulative_value_prefix; assumption.
Qed.

End LastDayFacts.

(* ================================================================== *)
(** * The keys of a [groupby] are ascending *)
(* ================================================================== *)

Module OrderFacts.

Import OrderedTypeEx GroupFacts.

Lemma date_le_cases (a b : string) :
  date_le a b <-> a = b \/ String_as_OT.lt a b.
Proof.
  unfold date_le, String.leb.
  destruct (String.compare a b) eqn:E.
  - apply String_as_OT.cmp_eq in E. split; [left; exact E | reflexivity].
  - apply String_as_OT.cmp_lt in E. split; [right; exact E | reflexivity].
  - split; [discriminate |]. intros [-> | H].
    + assert (H : String.compare b b = Eq) by (apply String_as_OT.cmp_eq; reflexivity).
      congruence.
    + apply String_as_OT.cmp_lt in H. unfold String_as_OT.cmp in H. congruence.
Qed.

Lemma date_le_trans (a b c : string) :
  date_le a b -> date_le b c -> date_le a c.
Proof.
  rewrite !date_le_cases. intros [-> | H1] [-> | H2]; auto.
  right. exact (String_as_OT.lt_trans _ _ _ H1 H2).
Qed.

Lemma insert_key_sorted (k : string) (ks : list string) :
  StronglySorted date_le ks -> StronglySorted date_le (insert_key k ks).
Proof.
  induction 1 as [| h t Ht IH Hall]; simpl.
  - constructor; constructor.
  - destruct (String.leb k h) eqn:E.
    + constructor; [constructor; assumption |].
      constructor; [exact E |].
      revert Hall. apply Forall_impl. intros x Hx.
      exact (date_le_trans E Hx).
    + constructor; [exact IH |].
      apply Forall_forall. intros x Hx.
      apply (Permutation_in _ (insert_key_perm k t)) in Hx.
      destruct Hx as [<- | Hx].
      * destruct (String.leb_total h k) as [H | H]; [exact H | congruence].
      * rewrite Forall_forall in Hall. apply Hall. exact Hx.
Qed.

Lemma sorted_unique_sorted (ks : list string) :
  StronglySorted date_le (sorted_unique ks).
Proof.
  unfold sorted_unique. generalize (nodup string_dec ks) as l.
  induction l as [| k l IH]; simpl; [constructor |].
  apply insert_key_sorted. exact IH.
Qed.

Lemma sorted_last_greatest (l : list string) (x d : string) :
  StronglySorted date_le l -> In x l -> date_le x (last l d).
Proof.
  induction 1 as [| h t Ht IH Hall]; intros Hin; [destruct Hin |].
  destruct t as [| h' t].
  - destruct Hin as [<- | []]. simpl.
    apply date_le_cases. left. reflexivity.
  - change (last (h :: h' :: t) d) with (last (h' :: t) d).
    destruct Hin as [<- | Hin]; [| apply IH; exact Hin].
    rewrite Forall_forall in Hall. apply Hall.
    clear. generalize h'. induction t as [| y t IHt]; intros z;
      [left; reflexivity |].
    change (last (z :: y :: t) d) with (last (y :: t) d).
    right. apply IHt.
Qed.

(** No date of the frame comes after [last_date]. *)
Lemma last_date_greatest (rows : list prepared_row) (r : prepared_row) :
  In r rows -> date_le (date r) (last_date rows).
Proof.
  intros Hr. unfold last_date.
  apply sorted_last_greatest; [apply sorted_unique_sorted |].
  apply sorted_unique_In. apply in_map. exact Hr.
Qed.

End OrderFacts.

(* ================================================================== *)
(** * The metrics of a rising series *)
(* ================================================================== *)

Module RisingFacts.

Import FloatFacts MetricsFacts.
Local Open Scope R_scope.

Lemma rising_resampled :
  resample_last_dropna Sample.rising
  = (Sample.jan_2, Fin 1) :: [(Sample.jan_3, Fin 1.1)].
Proof. reflexivity. Qed.

Lemma rising_positive :
  Forall is_positive (values (resample_last_dropna Sample.rising)).
Proof.
  rewrite rising_resampled.
  constructor; [simpl; lra |]. constructor; [simpl; lra | constructor].
Qed.

(** The text of whole numbers of hundredths. *)
Lemma round_half_even_IZR (z : Z) : Reference.round_half_even (IZR z) = z.
Proof.
  unfold Reference.round_half_even.
  assert (H : Int_part (IZR z) = z)
    by (symmetry; apply Int_part_spec; lra).
  rewrite H, Rltb_true by lra. reflexivity.
Qed.

Lemma percent_minus_one :
  percent (L := Reference.iso_library) (Fin (-1)) = "-100.00%"%string.
Proof.
  unfold percent. cbn [format_2f Reference.iso_library fmul].
  unfold Reference.format_2f_exact.
  replace (Rabs (-1 * 100) * 100) with (IZR 10000)
    by (rewrite Rabs_left by lra; lra).
  rewrite round_half_even_IZR, Rltb_true by lra.
  reflexivity.
Qed.

Lemma percent_nan :
  percent (L := Reference.iso_library) NaN = "nan%"%string.
Proof. reflexivity. Qed.

(** The call on the rising series, its dates given as text. *)
Lemma rising_report :
  exists report,
    get_backtest_info (L := Reference.iso_library) Sample.rising_text
    = ([(LTs Sample.jan_2, Fin 1); (LTs Sample.jan_3, Fin 1.1)], Ok report)
    /\ Total_Return report = "-100.00%"%string
    /\ Maximum_Drawdown report = "nan%"%string.
Proof.
  assert (Hts : to_datetime_index (L := Reference.iso_library)
                  (index Sample.rising_text)
                = Ok [Sample.jan_2; Sample.jan_3]) by reflexivity.
  rewrite (InfoFacts.get_backtest_info_converted _ Hts).
  destruct (compute_metrics_positive Sample.rising
              rising_resampled rising_positive)
    as [m [Hm [Ht [_ [Hd _]]]]].
  exists (format_report (L := Reference.iso_library) m).
  split; [| split].
  - change (combine [Sample.jan_2; Sample.jan_3] (values Sample.rising_text))
      with Sample.rising.
    rewrite Hm. reflexivity.
  - cbn [format_report Total_Return]. rewrite Ht. apply percent_minus_one.
  - cbn [format_report Maximum_Drawdown]. rewrite Hd. apply percent_nan.
Qed.

End RisingFacts.

(* ================================================================== *)
(** * Lists of different lengths *)
(* ================================================================== *)

Module MismatchFacts.

Import FloatFacts MetricsFacts.

(** The series of a single day is that day at 1.0. *)
Lemma cumulative_value_single (commission : float) (k : string)
    (v : float) :
  cumulative_value commission [(k, v)] = [(k, Fin 1)].
Proof.
  unfold cumulative_value, on_values, cumsum.
  cbn [values index map fst snd accumulate].
  destruct (isna (v - commission)%fl); reflexivity.
Qed.

Lemma one_quote_prepared :
  prepare_variant Sample.one_quote Sample.vix Sample.shibor "iv"
  = Ok [Sample.one_prepared].
Proof. reflexivity. Qed.

(** One quote, one variant, two thresholds: the path of the variant. *)
Lemma one_quote_value_path :
  value_path ["iv"%string] [Fin 0.1; Fin 0.2] (Fin 0.001)
    [Sample.one_prepared] "iv"
  = Ok [("2024-01-02"%string, Fin 1)].
Proof.
  assert (Hk : Forall kind_known [Sample.one_prepared])
    by (constructor; [left; reflexivity | constructor]).
  destruct (ColumnFacts.price_column_known Hk) as [price [Hp Hlen]].
  unfold value_path. rewrite Hp. cbn [bind].
  rewrite (ColumnFacts.signal_column_value ["iv"%string] [Fin 0.1; Fin 0.2]
             "iv" [Sample.one_prepared] price (th := Fin 0.1) eq_refl Hlen).
  cbn [bind]. f_equal.
  destruct price as [| p [| q price]]; try discriminate.
  unfold daily_mean, return_column, zip_with.
  cbn [combine map fst snd date Sample.one_prepared].
  unfold groupby_mean.
  cbn [index map fst sorted_unique nodup sort_keys fold_right insert_key].
  apply cumulative_value_single.
Qed.

Lemma single_day_positive :
  resample_last_dropna [(Sample.jan_2, Fin 1)] = [(Sample.jan_2, Fin 1)]
  /\ Forall is_positive
       (values (resample_last_dropna [(Sample.jan_2, Fin 1)])).
Proof.
  split; [reflexivity |].
  constructor; [simpl; lra | constructor].
Qed.

End MismatchFacts.

(* ================================================================== *)
(** * Rows with a missing input *)
(* ================================================================== *)

Module MissingFacts.

Import FloatFacts Terms2.

Lemma fmul_nan_r (a : float) : (a * NaN)%fl = NaN.
Proof. destruct a; reflexivity. Qed.

Lemma fadd_nan_r (a : float) : (a + NaN)%fl = NaN.
Proof. destruct a; reflexivity. Qed.

Lemma fgt_nan_r (a : float) : (a >? NaN)%fl = false.
Proof. destruct a; reflexivity. Qed.

Lemma fpow_nan_two : (NaN ** Fin 2)%fl = NaN.
Proof. unfold fpow. rewrite (@sgn_pos 2) by lra. reflexivity. Qed.

(** A [nan] among the inputs makes [d1] a [nan]. *)
Lemma d1_nan (S0 K T sigma rf : float) :
  isna S0 || isna K || isna T || isna sigma || isna rf = true ->
  ((np_log (S0 / K) + (rf + Fin 0.5 * sigma ** Fin 2) * T)
   / (sigma * np_sqrt T))%fl = NaN.
Proof.
  intros H.
  repeat (apply orb_prop in H; destruct H as [H | H]).
  - destruct S0; try discriminate. reflexivity.
  - destruct K; try discriminate. rewrite MetricsFacts.fdiv_nan_r. reflexivity.
  - destruct T; try discriminate. rewrite fmul_nan_r, fadd_nan_r.
    reflexivity.
  - destruct sigma; try discriminate.
    rewrite fpow_nan_two, fmul_nan_r, fadd_nan_r. cbn [fmul].
    rewrite fadd_nan_r. reflexivity.
  - destruct rf; try discriminate. cbn [fadd fmul].
    rewrite fadd_nan_r. reflexivity.
Qed.

Lemma bsm_option_price_nan (option_type : Z) (S0 K T sigma rf : float) :
  option_type = 0%Z \/ option_type = 1%Z ->
  isna S0 || isna K || isna T || isna sigma || isna rf = true ->
  bsm_option_price option_type S0 K T sigma rf = Ok NaN.
Proof.
  intros Hk H. unfold bsm_option_price. rewrite (d1_nan _ _ _ _ _ H).
  destruct Hk as [-> | ->]; cbn [Z.eqb Pos.eqb]; f_equal.
  - cbn [Normal.norm_cdf]. rewrite fmul_nan_r. reflexivity.
  - cbn [fsub fadd fneg Normal.norm_cdf]. rewrite fmul_nan_r. reflexivity.
Qed.

Lemma model_price_missing (r : prepared_row) :
  kind_known r -> input_missing r = true -> model_price r = NaN.
Proof.
  intros Hk H. unfold model_price.
  rewrite bsm_option_price_nan; [reflexivity | exact Hk |].
  unfold input_missing in H.
  repeat (apply orb_prop in H; destruct H as [H | H]);
    rewrite ?H, ?orb_true_r; try reflexivity.
  destruct (rf r); try discriminate. rewrite !orb_true_r. reflexivity.
Qed.

Lemma signal_of_nan (c th : float) : Spec.signal NaN c th = 0%Z.
Proof.
  unfold Spec.signal, flt. cbn [fgt]. rewrite fgt_nan_r. reflexivity.
Qed.

Lemma nth_error_zip_with {A B C : Type} (f : A -> B -> C)
    (xs : list A) (ys : list B) (j : nat) (x : A) (y : B) :
  nth_error xs j = Some x -> nth_error ys j = Some y ->
  nth_error (zip_with f xs ys) j = Some (f x y).
Proof.
  revert ys j. unfold zip_with.
  induction xs as [| x0 xs IH]; intros [| y0 ys] [| j] Hx Hy;
    simpl in *; try discriminate.
  - injection Hx as ->. injection Hy as ->. reflexivity.
  - apply IH; assumption.
Qed.

End MissingFacts.

(* ================================================================== *)
(** * The generator and line 104 *)
(* ================================================================== *)

Module GeneratorFacts.

Local Open Scope py_scope.

Lemma list_index_In (s : string) (l : list string) :
  In s l -> exists i, list_index s l = Ok i.
Proof.
  induction l as [| y l IH]; intros H; [destruct H |].
  simpl. destruct (String.eqb_spec s y) as [E | E]; [exists 0%nat; reflexivity |].
  destruct H as [H | H]; [congruence |].
  destruct (IH H) as [i Hi]. exists (S i). rewrite Hi. reflexivity.
Qed.

Lemma list_index_not_In (s : string) (l : list string) :
  ~ In s l -> list_index s l = Raise ValueError.
Proof.
  induction l as [| y l IH]; intros H; [reflexivity |].
  simpl. destruct (String.eqb_spec s y) as [E | E].
  - exfalso. apply H. left. congruence.
  - rewrite IH; [reflexivity |]. intros Hin. apply H. right. exact Hin.
Qed.

Lemma filter_label_nil {A : Type} (a : string) (rows : list (string * A)) :
  ~ In a (map fst rows) ->
  filter (fun r => String.eqb (fst r) a) rows = [].
Proof.
  induction rows as [| [k x] rows IH]; intros H; [reflexivity |].
  simpl. destruct (String.eqb_spec k a) as [E | E].
  - exfalso. apply H. left. exact E.
  - apply IH. intros Hin. apply H. right. exact Hin.
Qed.

Lemma filter_label_cons {A : Type} (a : string) (rows : list (string * A)) :
  In a (map fst rows) ->
  filter (fun r => String.eqb (fst r) a) rows <> [].
Proof.
  induction rows as [| [k x] rows IH]; intros H; [destruct H |].
  simpl. destruct (String.eqb_spec k a) as [E | E]; [discriminate |].
  destruct H as [H | H]; [simpl in H; congruence | apply IH; exact H].
Qed.

Lemma filter_label_all {A : Type} (a : string) (rows : list (string * A)) :
  Forall (fun r => fst r = a)
         (filter (fun r => String.eqb (fst r) a) rows).
Proof.
  apply Forall_forall. intros r Hr. apply filter_In in Hr as [_ Hr].
  apply String.eqb_eq. exact Hr.
Qed.

(** ** Line 104 *)

Lemma loc_missing (shibor_file : rate_frame) (range : string * string) :
  ~ has_cell shibor_file range -> loc shibor_file range = Raise KeyError.
Proof.
  intros H. unfold loc.
  destruct (list_index (snd range) (rate_columns shibor_file)) as [j |] eqn:Ej;
    [| reflexivity].
  destruct (in_dec string_dec (fst range) (map fst (rate_rows shibor_file)))
    as [Hin | Hnin].
  - exfalso. apply H. split; [exact Hin |].
    destruct (in_dec string_dec (snd range) (rate_columns shibor_file))
      as [Hc | Hc]; [exact Hc |].
    rewrite (list_index_not_In _ _ Hc) in Ej. discriminate.
  - rewrite (filter_label_nil _ _ Hnin). reflexivity.
Qed.

(** What is found under a row label that is not ['1'] has no entry
    labelled ['1']. *)
Lemma loc_found (shibor_file : rate_frame) (range : string * string) :
  has_cell shibor_file range ->
  fst range <> "1"%string ->
  exists shibor e,
    loc shibor_file range = Ok shibor
    /\ getitem_1 shibor = Raise e
    /\ (e = IndexError \/ e = KeyError).
Proof.
  intros [Hrow Hcol] Hne. unfold loc.
  destruct (list_index_In _ _ Hcol) as [j ->].
  pose proof (filter_label_cons _ _ Hrow) as Hrows.
  pose proof (filter_label_all (fst range) (rate_rows shibor_file)) as Hall.
  destruct (filter _ (rate_rows shibor_file)) as [| r [| r' rows]];
    [congruence | |].
  - exists (Cell (nth j (snd r) NaN)), IndexError.
    repeat split. left. reflexivity.
  - eexists. exists KeyError. split; [reflexivity |].
    split; [| right; reflexivity].
    unfold getitem_1.
    rewrite filter_label_nil; [reflexivity |].
    rewrite map_map. cbn [fst]. intros Hin.
    apply in_map_iff in Hin as [q [Hq Hin]].
    rewrite Forall_forall in Hall. rewrite (Hall q Hin) in Hq.
    apply Hne. exact Hq.
Qed.

(** ** One pass of the loop *)

Lemma column_of_known (vix : vix_table) (s : string) :
  s = "asset_price"%string \/ In s (vix_columns vix) ->
  exists column, column_of vix s = Ok column.
Proof.
  intros H. unfold column_of.
  destruct (String.eqb s "asset_price") eqn:E; [eexists; reflexivity |].
  destruct H as [-> | H]; [rewrite String.eqb_refl in E; discriminate |].
  destruct (list_index_In _ _ H) as [i ->]. eexists. reflexivity.
Qed.

Lemma column_of_missing (vix : vix_table) (s : string) :
  s <> "asset_price"%string -> ~ In s (vix_columns vix) ->
  column_of vix s = Raise KeyError.
Proof.
  intros Hne H. unfold column_of.
  apply String.eqb_neq in Hne. rewrite Hne.
  rewrite (list_index_not_In _ _ H). reflexivity.
Qed.

Lemma column_of_cases (vix : vix_table) (s : string) :
  (exists column, column_of vix s = Ok column)
  \/ column_of vix s = Raise KeyError.
Proof.
  unfold column_of.
  destruct (String.eqb s "asset_price"); [left; eexists; reflexivity |].
  destruct (list_index s (vix_columns vix));
    [left; eexists; reflexivity | right; reflexivity].
Qed.

Lemma prepare_item_raises (data : list option_row) (vix : vix_table)
    (shibor : located) (s : string) (e : exn) :
  getitem_1 shibor = Raise e ->
  prepare_item data vix shibor s
  = match column_of vix s with
    | Ok _ => Raise e
    | Raise _ => Raise KeyError
    end.
Proof.
  intros H. unfold prepare_item, select_column.
  destruct (column_of_cases vix s) as [[column ->] | ->]; cbn [bind];
    [rewrite H |]; reflexivity.
Qed.

(** A frame the generator yields is a frame of the loop body. *)
Lemma prepare_item_frame (data : list option_row) (vix : vix_table)
    (shibor : located) (s s' : string) (df : list prepared_row) :
  prepare_item data vix shibor s = Ok (df, s') ->
  s' = s /\ exists rates, prepare_variant data vix rates s = Ok df.
Proof.
  unfold prepare_item. intros H.
  destruct (select_column vix s); cbn [bind] in H; [| discriminate].
  destruct (getitem_1 shibor) as [rates |]; cbn [bind] in H;
    [| discriminate].
  destruct (prepare_variant data vix rates s) as [df' |] eqn:E;
    cbn [bind] in H; [| discriminate].
  injection H as <- <-. split; [reflexivity |]. exists rates. exact E.
Qed.

Lemma yields_frame (data : list option_row) (vix : vix_table)
    (shibor : located) (sigma : list string) (s : string)
    (df : list prepared_row) :
  In (Ok (df, s)) (yields data vix shibor sigma) ->
  In s sigma /\ exists rates, prepare_variant data vix rates s = Ok df.
Proof.
  induction sigma as [| s0 rest IH]; intros H; [destruct H |].
  cbn [yields] in H.
  destruct (prepare_item data vix shibor s0) as [[df0 s1] |] eqn:E.
  - destruct H as [H | H].
    + injection H as -> ->.
      destruct (@prepare_item_frame _ _ _ _ _ _ E) as [-> Hr].
      split; [left; reflexivity | exact Hr].
    + destruct (IH H) as [Hin Hr]. split; [right; exact Hin | exact Hr].
  - destruct H as [H | []]. discriminate.
Qed.

Lemma prepare_data_frame (data : list option_row) (vix : vix_table)
    (sigma : list string) (shibor_file : rate_frame)
    (range : string * string) (s : string) (df : list prepared_row) :
  In (Ok (df, s)) (prepare_data data vix sigma shibor_file range) ->
  In s sigma /\ exists rates, prepare_variant data vix rates s = Ok df.
Proof.
  unfold prepare_data. intros H.
  destruct (loc shibor_file range) as [shibor |].
  - exact (@yields_frame _ _ _ _ _ _ H).
  - destruct H as [H | []]. discriminate.
Qed.

(** ** The generator on a pair of dates *)

Lemma prepare_data_missing (data : list option_row) (vix : vix_table)
    (sigma : list string) (shibor_file : rate_frame)
    (range : string * string) :
  ~ has_cell shibor_file range ->
  prepare_data data vix sigma shibor_file range = [Raise KeyError].
Proof.
  intros H. unfold prepare_data. rewrite (@loc_missing shibor_file range H). reflexivity.
Qed.

Lemma prepare_data_found (shibor_file : rate_frame)
    (range : string * string) :
  has_cell shibor_file range ->
  fst range <> "1"%string ->
  exists e,
    (e = IndexError \/ e = KeyError)
    /\ forall data vix sigma,
         prepare_data data vix sigma shibor_file range
         = match sigma with
           | [] => []
           | s :: _ =>
               match column_of vix s with
               | Ok _ => [Raise e]
               | Raise _ => [Raise KeyError]
               end
           end.
Proof.
  intros Hcell Hne.
  destruct (@loc_found shibor_file range Hcell Hne) as [shibor [e [Hloc [Hget He]]]].
  exists e. split; [exact He |].
  intros data vix sigma.
  unfold prepare_data. rewrite Hloc.
  destruct sigma as [| s rest]; [reflexivity |].
  cbn [yields]. rewrite (@prepare_item_raises data vix shibor s e Hget).
  destruct (column_of vix s); reflexivity.
Qed.

Lemma has_cell_dec (shibor_file : rate_frame) (range : string * string) :
  has_cell shibor_file range \/ ~ has_cell shibor_file range.
Proof.
  unfold has_cell.
  destruct (in_dec string_dec (fst range) (map fst (rate_rows shibor_file)));
    destruct (in_dec string_dec (snd range) (rate_columns shibor_file));
    tauto.
Qed.

(** ** The run *)




End GeneratorFacts.

(* ================================================================== *)
(** * The value series, position by position *)
(* ================================================================== *)

Module AverageFacts.

Import FloatFacts SeriesFacts.
Local Open Scope py_scope.

Lemma price_column_model (prepared_data : list prepared_row) :
  Forall kind_known prepared_data ->
  price_column prepared_data = Ok (map model_price prepared_data).
Proof.
  intros Hk. apply ColumnFacts.price_column_value. intros r Hr.
  rewrite Forall_forall in Hk.
  destruct (ColumnFacts.bsm_option_price_known (S0 r) (K r) (T r)
              (Utils.sigma r) (rf r / Fin 100)%fl (Hk r Hr)) as [p Hp].
  unfold model_price. rewrite Hp. reflexivity.
Qed.

Lemma zip_with_map {A B C : Type} (f : A -> B -> C) (g : A -> B)
    (xs : list A) :
  zip_with f xs (map g xs) = map (fun x => f x (g x)) xs.
Proof.
  unfold zip_with. induction xs as [| x xs IH]; [reflexivity |].
  simpl. rewrite IH. reflexivity.
Qed.

Lemma combine_map {A B C : Type} (f : A -> B) (g : A -> C) (xs : list A) :
  combine (map f xs) (map g xs) = map (fun x => (f x, g x)) xs.
Proof.
  induction xs as [| x xs IH]; [reflexivity |].
  simpl. rewrite IH. reflexivity.
Qed.

(** The rows handed to the [groupby] are the positions of the frame. *)
Lemma value_path_positions (sigma : list string) (thres : list float)
    (commission : float) (prepared_data : list prepared_row) (s : string)
    (th : float) :
  Forall kind_known prepared_data ->
  threshold sigma thres s = Ok th ->
  value_path sigma thres commission prepared_data s
  = Ok (cumulative_value commission
          (groupby_mean (positions prepared_data th))).
Proof.
  intros Hk Hth. unfold value_path.
  rewrite (price_column_model Hk). cbn [bind].
  rewrite (ColumnFacts.signal_column_value sigma thres s prepared_data
             (map model_price prepared_data) Hth
             (length_map model_price prepared_data)).
  cbn [bind]. do 2 f_equal.
  unfold daily_mean, return_column. f_equal.
  rewrite zip_with_map, zip_with_map, combine_map. reflexivity.
Qed.

Lemma index_positions (rows : list prepared_row) (th : float) :
  index (positions rows th) = map date rows.
Proof. unfold index, positions. rewrite map_map. reflexivity. Qed.

Lemma positions_finite (rows : list prepared_row) (th : float) :
  Forall (fun r => is_finite (ret r)) rows ->
  all_finite (values (positions rows th)).
Proof.
  intros H. unfold values, positions, all_finite.
  rewrite map_map. cbn [snd]. apply Forall_map.
  revert H. apply Forall_impl. intros r Hr.
  unfold Spec.position_return.
  destruct (ret r); simpl in *; try contradiction; exact I.
Qed.

(** On finite values the mean of a group is the sum of its values over
    their number. *)
Lemma mean_is_average (recs : list (string * float)) (k : string) :
  all_finite (values recs) ->
  In k (index recs) ->
  mean (group_values k recs) = Spec.daily_average recs k.
Proof.
  intros Hfin Hk. unfold mean, Spec.daily_average.
  pose proof (@GroupFacts.group_values_finite k recs Hfin) as Hg.
  pose proof (GroupFacts.group_values_nonempty _ _ Hk) as Hne.
  rewrite (filter_notna_finite Hg).
  unfold group_values, values in *.
  destruct (map snd (filter (fun p => String.eqb (fst p) k) recs));
    [congruence | reflexivity].
Qed.

Lemma daily_means_are_averages (recs : list (string * float)) :
  all_finite (values recs) ->
  values (groupby_mean recs)
  = map (Spec.daily_average recs) (index (groupby_mean recs)).
Proof.
  intros Hfin.
  rewrite GroupFacts.values_groupby_mean, GroupFacts.index_groupby_mean.
  apply map_ext_in. intros k Hk.
  apply mean_is_average; [exact Hfin |].
  apply GroupFacts.sorted_unique_In. exact Hk.
Qed.

Lemma fmul_inf_zero : (PInf * Fin (IZR 0))%fl = NaN.
Proof.
  unfold fmul. cbn [fsign]. rewrite sgn_zero by reflexivity. reflexivity.
Qed.

End AverageFacts.

(* ================================================================== *)
(** * The claims of the specification *)
(* ================================================================== *)

(** C1 (the code departs from the claim).  On the daily values 1.0 and
    1.1 the reconstructed series of line 52 is 0 and 0 and the total
    return is -1, reported as -100.00%, where compounding
    [1 + daily_return] from 1 gives 1 and 1.1 and a total return of 0.1:
    line 52 adds 0 to the daily returns before the running product,
    not 1. *)
Theorem cumulative_return_of_rising_series :
  resample_last_dropna Sample.rising = Sample.rising
  /\ cum_ret_ser (resample_last_dropna Sample.rising)
     = [(Sample.jan_2, Fin 0); (Sample.jan_3, Fin 0)]
  /\ (exists m,
        compute_metrics Sample.rising = Ok m
        /\ total_return m = Fin (-1))
  /\ exists report,
       snd (get_backtest_info (L := Reference.iso_library)
              Sample.rising_text) = Ok report
       /\ Total_Return report = "-100.00%"%string.
Proof.
  split; [reflexivity |].
  split.
  { rewrite (MetricsFacts.cum_ret_ser_zero _ RisingFacts.rising_positive).
    reflexivity. }
  split.
  - destruct (MetricsFacts.compute_metrics_positive Sample.rising
                RisingFacts.rising_resampled RisingFacts.rising_positive)
      as [m [Hm [Ht _]]].
    exists m. split; assumption.
  - destruct RisingFacts.rising_report as [report [Hr [Ht _]]].
    exists report. rewrite Hr. split; [reflexivity | exact Ht].
Qed.




(** C3 (the code departs from the claim).  On the rising daily values
    1.0 and 1.1 the maximum drawdown the code computes is [nan], reported
    as nan%, not 0: the series of line 52 being 0 throughout, every
    drawdown of line 67 is [0 / 0]. *)
Theorem maximum_drawdown_of_rising_series :
  values (resample_last_dropna Sample.rising) = [Fin 1; Fin 1.1]
  /\ (0 < 1 < 1.1)%R
  /\ (exists m,
        compute_metrics Sample.rising = Ok m
        /\ maximum_drawdown m = NaN)
  /\ exists report,
       snd (get_backtest_info (L := Reference.iso_library)
              Sample.rising_text) = Ok report
       /\ Maximum_Drawdown report = "nan%"%string.
Proof.
  split; [reflexivity |]. split; [lra |].
  split.
  - destruct (MetricsFacts.compute_metrics_positive Sample.rising
                RisingFacts.rising_resampled RisingFacts.rising_positive)
      as [m [Hm [_ [_ [Hd _]]]]].
    exists m. split; assumption.
  - destruct RisingFacts.rising_report as [report [Hr [_ Hd]]].
    exists report. rewrite Hr. split; [reflexivity | exact Hd].
Qed.

(** C4 (as stated, refuted).  Called on a series whose index holds the
    dates as text, [get_backtest_info] returns a report and leaves the
    caller's series with another index: the timestamps of line 45. *)
Lemma caller_index_is_replaced :
  exists report,
    get_backtest_info (L := Reference.iso_library) Sample.rising_text
    = ([(LTs Sample.jan_2, Fin 1); (LTs Sample.jan_3, Fin 1.1)], Ok report)
    /\ index (fst (get_backtest_info (L := Reference.iso_library)
                     Sample.rising_text))
       <> index Sample.rising_text.
Proof.
  destruct RisingFacts.rising_report as [report [Hr _]].
  exists report. rewrite Hr. split; [reflexivity | discriminate].
Qed.

(** C4 (amended).  A call never changes the values of the caller's
    series; it replaces the index by its conversion to timestamps, so the
    series is unchanged exactly when the conversion raises or the index
    already held timestamps; and the report is a function of the series:
    calling again on the series as the call left it gives the same report
    and changes nothing more. *)
Theorem get_backtest_info_effect {L : Library} (ser : series label) :
  values (fst (get_backtest_info ser)) = values ser
  /\ (forall ts, to_datetime_index (index ser) = Ok ts ->
        index (fst (get_backtest_info ser)) = map LTs ts)
  /\ (forall e, to_datetime_index (index ser) = Raise e ->
        get_backtest_info ser = (ser, Raise e))
  /\ (Forall (fun l => exists t, l = LTs t) (index ser) ->
        fst (get_backtest_info ser) = ser)
  /\ get_backtest_info (fst (get_backtest_info ser))
     = get_backtest_info ser.
Proof.
  destruct (to_datetime_index (index ser)) as [ts | e] eqn:Hts.
  - rewrite (InfoFacts.get_backtest_info_converted _ Hts). cbn [fst].
    pose proof (InfoFacts.to_datetime_index_length _ Hts) as Hlen.
    rewrite SeriesFacts.length_index in Hlen.
    assert (Hl : List.length (map LTs ts) = List.length (values ser))
      by (rewrite length_map, SeriesFacts.length_values; exact Hlen).
    assert (Hv : values (combine (map LTs ts) (values ser)) = values ser)
      by (apply SeriesFacts.values_combine; exact Hl).
    assert (Hi : index (combine (map LTs ts) (values ser)) = map LTs ts)
      by (apply SeriesFacts.index_combine; exact Hl).
    split; [exact Hv |].
    split; [intros ts' E; injection E as <-; exact Hi |].
    split; [discriminate |].
    split.
    + intros Hall.
      rewrite (InfoFacts.to_datetime_index_already Hall Hts).
      apply SeriesFacts.combine_index_values.
    + unfold get_backtest_info at 1.
      rewrite Hi, InfoFacts.to_datetime_index_timestamps, Hv. reflexivity.
  - rewrite (InfoFacts.get_backtest_info_raises _ Hts). cbn [fst].
    split; [reflexivity |].
    split; [discriminate |].
    split; [intros e' E; injection E as <-; reflexivity |].
    split; [reflexivity |].
    apply InfoFacts.get_backtest_info_raises. exact Hts.
Qed.

Lemma get_backtest_info_effect_witness :
  values (fst (get_backtest_info (L := Reference.iso_library)
                 Sample.rising_text))
  = values Sample.rising_text
  /\ index (fst (get_backtest_info (L := Reference.iso_library)
                   Sample.rising_text))
     = map LTs [Sample.jan_2; Sample.jan_3].
Proof.
  destruct (get_backtest_info_effect (L := Reference.iso_library)
              Sample.rising_text) as [Hv [Hi _]].
  split; [exact Hv |].
  apply Hi. reflexivity.
Defined.

(** C5.  For strictly positive [S0], [K], [T] and [sigma] the pricer
    returns exactly the closed form: with
    [d1 = (ln (S0/K) + (r + 0.5 sigma^2) T) / (sigma sqrt T)] and
    [d2 = d1 - sigma sqrt T], a call (kind 0) is worth
    [S0 Phi(d1) - K exp(-r T) Phi(d2)] and a put (kind 1)
    [K exp(-r T) Phi(-d2) - S0 Phi(-d1)], [Phi] being the standard normal
    distribution function. *)
Theorem bsm_option_price_closed_form (S0 K T sigma r : R) :
  (0 < S0)%R -> (0 < K)%R -> (0 < T)%R -> (0 < sigma)%R ->
  bsm_option_price 0 (Fin S0) (Fin K) (Fin T) (Fin sigma) (Fin r)
  = Ok (Fin (Spec.call_price S0 K T sigma r))
  /\ bsm_option_price 1 (Fin S0) (Fin K) (Fin T) (Fin sigma) (Fin r)
     = Ok (Fin (Spec.put_price S0 K T sigma r)).
Proof.
  intros HS HK HT Hs.
  split; rewrite PricerFacts.bsm_option_price_finite by assumption;
    reflexivity.
Qed.

Lemma bsm_option_price_closed_form_witness :
  bsm_option_price 0 (Fin 100) (Fin 95) (Fin 0.1) (Fin 0.2) (Fin 0.03)
  = Ok (Fin (Spec.call_price 100 95 0.1 0.2 0.03))
  /\ bsm_option_price 1 (Fin 100) (Fin 95) (Fin 0.1) (Fin 0.2) (Fin 0.03)
     = Ok (Fin (Spec.put_price 100 95 0.1 0.2 0.03)).
Proof.
  apply bsm_option_price_closed_form; lra.
Defined.

(** C6.  Put-call parity: a call and a put priced on the same strictly
    positive [S0], [K], [T], [sigma] and the same [r] satisfy
    [call - put = S0 - K exp(-r T)], exactly, over the reals. *)
Theorem put_call_parity (S0 K T sigma r : R) :
  (0 < S0)%R -> (0 < K)%R -> (0 < T)%R -> (0 < sigma)%R ->
  exists call put : R,
    bsm_option_price 0 (Fin S0) (Fin K) (Fin T) (Fin sigma) (Fin r)
    = Ok (Fin call)
    /\ bsm_option_price 1 (Fin S0) (Fin K) (Fin T) (Fin sigma) (Fin r)
       = Ok (Fin put)
    /\ (call - put = S0 - K * exp (- r * T))%R.
Proof.
  intros HS HK HT Hs.
  exists (Spec.call_price S0 K T sigma r), (Spec.put_price S0 K T sigma r).
  rewrite !PricerFacts.bsm_option_price_finite by assumption.
  split; [reflexivity |]. split; [reflexivity |].
  unfold Spec.call_price, Spec.put_price.
  rewrite !NormalFacts.Phi_symmetric. lra.
Qed.

Lemma put_call_parity_witness :
  exists call put : R,
    bsm_option_price 0 (Fin 100) (Fin 95) (Fin 0.1) (Fin 0.2) (Fin 0.03)
    = Ok (Fin call)
    /\ bsm_option_price 1 (Fin 100) (Fin 95) (Fin 0.1) (Fin 0.2) (Fin 0.03)
       = Ok (Fin put)
    /\ (call - put = 100 - 95 * exp (Ropp 0.03 * 0.1))%R.
Proof.
  apply put_call_parity; lra.
Defined.

(** C7.  For every row, with model price [p], market close [c] and the
    variant's threshold [th], the signal column holds [+1] if
    [p > (1+th) c], else [-1] if [p < (1-th) c], else [0]; the signal is
    one of [-1], [0], [+1]; and, both comparisons being strict, a price
    in the closed band from [(1-th) c] to [(1+th) c] gives [0]. *)
Theorem signal_of_every_row (sigma : list string) (thres : list float)
    (s : string) (prepared_data : list prepared_row) (price : list float)
    (th : float) :
  threshold sigma thres s = Ok th ->
  price_column prepared_data = Ok price ->
  exists signal,
    signal_column sigma thres s prepared_data price = Ok signal
    /\ List.length signal = List.length prepared_data
    /\ forall j r p,
         nth_error prepared_data j = Some r ->
         nth_error price j = Some p ->
         exists sg,
           nth_error signal j = Some sg
           /\ sg = Spec.signal p (close r) th
           /\ (sg = (-1)%Z \/ sg = 0%Z \/ sg = 1%Z)
           /\ forall x c t : R,
                p = Fin x -> close r = Fin c -> th = Fin t ->
                ((1 - t) * c <= x <= (1 + t) * c)%R -> sg = 0%Z.
Proof.
  intros Hth Hprice.
  pose proof (ColumnFacts.length_price_column _ Hprice) as Hlen.
  exists (zip_with (fun r p => Spec.signal p (close r) th) prepared_data price).
  split; [apply ColumnFacts.signal_column_value; assumption |].
  split.
  { unfold zip_with. rewrite length_map, length_combine, Hlen.
    apply Nat.min_id. }
  intros j r p Hr Hp.
  exists (Spec.signal p (close r) th).
  split.
  { unfold zip_with.
    apply (map_nth_error (fun q => Spec.signal (snd q) (close (fst q)) th)
             j (combine prepared_data price) (d := (r, p))).
    clear - Hr Hp. revert price j Hr Hp.
    induction prepared_data as [| r0 rs IH]; intros [| p0 ps] [| j] Hr Hp;
      simpl in *; try discriminate; [congruence |].
    apply IH; assumption. }
  split; [reflexivity |].
  split.
  { unfold Spec.signal.
    destruct (p >? (Fin 1 + th) * close r)%fl; [right; right; reflexivity |].
    destruct (p <? (Fin 1 - th) * close r)%fl;
      [left; reflexivity | right; left; reflexivity]. }
  intros x c t -> -> -> [Hlo Hhi].
  unfold Spec.signal, flt. cbn [fadd fsub fneg fmul fgt].
  rewrite !FloatFacts.Rltb_false by lra. reflexivity.
Qed.

Lemma signal_of_every_row_witness :
  exists signal,
    signal_column ["iv"%string] [Fin 0.01] "iv" Sample.two_rows
      (map model_price Sample.two_rows) = Ok signal
    /\ List.length signal = List.length Sample.two_rows
    /\ forall j r p,
         nth_error Sample.two_rows j = Some r ->
         nth_error (map model_price Sample.two_rows) j = Some p ->
         exists sg,
           nth_error signal j = Some sg
           /\ sg = Spec.signal p (close r) (Fin 0.01)
           /\ (sg = (-1)%Z \/ sg = 0%Z \/ sg = 1%Z)
           /\ forall x c t : R,
                p = Fin x -> close r = Fin c -> Fin 0.01 = Fin t ->
                ((1 - t) * c <= x <= (1 + t) * c)%R -> sg = 0%Z.
Proof.
  apply signal_of_every_row.
  - reflexivity.
  - apply ColumnFacts.price_column_value.
    intros r [<- | [<- | []]]; reflexivity.
Defined.

(** C8 (as stated, refuted).  A quote that takes no position and whose
    realized return is infinite gives its day the return [inf * 0], a
    [nan].  The value of the next day is then 1.0, the [nan] of the
    cumulative sum being overwritten by [fillna(1)], while 1.0 plus the
    cumulative sum of the commission-adjusted daily averages before it
    is [nan]. *)
Lemma infinite_return_breaks_the_sum :
  Sample.runaway_rows <> []
  /\ exists pnl,
       value_path ["iv"%string] [Fin 0.01] (Fin 0.001) Sample.runaway_rows
         "iv" = Ok pnl
       /\ index pnl = ["2024-01-02"%string; "2024-01-03"%string]
       /\ nth_error (values pnl) 1 = Some (Fin 1)
       /\ claimed_value Sample.runaway_rows (Fin 0.01) (Fin 0.001)
            (index pnl) 1 = NaN.
Proof.
  split; [discriminate |].
  assert (Hk : Forall kind_known Sample.runaway_rows).
  { constructor; [left; reflexivity |].
    constructor; [right; reflexivity | constructor]. }
  assert (Hth : threshold ["iv"%string] [Fin 0.01] "iv" = Ok (Fin 0.01))
    by reflexivity.
  rewrite (@AverageFacts.value_path_positions ["iv"%string] [Fin 0.01]
             (Fin 0.001) Sample.runaway_rows "iv"%string (Fin 0.01) Hk Hth).
  eexists. split; [reflexivity |].
  assert (Hpos : exists v,
             positions Sample.runaway_rows (Fin 0.01)
             = [("2024-01-02"%string, NaN); ("2024-01-03"%string, v)]).
  { eexists. unfold positions, Sample.runaway_rows. cbn [map]. f_equal.
    f_equal. unfold Spec.position_return.
    rewrite MissingFacts.model_price_missing;
      [| left; reflexivity | reflexivity].
    rewrite MissingFacts.signal_of_nan.
    exact AverageFacts.fmul_inf_zero. }
  destruct Hpos as [v Hpos].
  assert (Hdd : exists m,
             groupby_mean
               [("2024-01-02"%string, NaN); ("2024-01-03"%string, v)]
             = [("2024-01-02"%string, NaN); ("2024-01-03"%string, m)]).
  { eexists. reflexivity. }
  destruct Hdd as [m Hdd].
  unfold claimed_value. rewrite Hpos.
  rewrite PathFacts.index_cumulative_value,
    PathFacts.values_cumulative_value, PathFacts.shifted_path_prefix, Hdd.
  split; [reflexivity |]. split; reflexivity.
Qed.

(** C8 (amended).  For every non-empty prepared frame (option kinds
    known, a threshold for the variant) the value series exists, has one
    entry per date of the frame, the dates ascending, and starts at
    exactly 1.0.  When the realized returns and the commission are
    finite, its value at every position [t >= 1] is 1.0 more than the sum,
    over the positions before [t], of the daily averages less the
    commission; the daily average of a date is the sum of
    [realized_return * signal] over the rows of the date, divided by
    their number, the signal being the one of section 4.3. *)
Theorem value_series_is_shifted_cumsum (sigma : list string)
    (thres : list float) (commission : float)
    (prepared_data : list prepared_row) (s : string) (th : float) :
  prepared_data <> [] ->
  Forall kind_known prepared_data ->
  threshold sigma thres s = Ok th ->
  exists pnl,
    value_path sigma thres commission prepared_data s = Ok pnl
    /\ StronglySorted date_le (index pnl)
    /\ NoDup (index pnl)
    /\ (forall d,
          In d (index pnl) <-> exists r, In r prepared_data /\ date r = d)
    /\ nth_error (values pnl) 0 = Some (Fin 1)
    /\ (Forall (fun r => is_finite (ret r)) prepared_data ->
        is_finite commission ->
        forall t,
          (t < List.length pnl)%nat ->
          nth_error (values pnl) t
          = Some (claimed_value prepared_data th commission (index pnl) t)).
Proof.
  intros Hne Hkind Hth.
  rewrite (@AverageFacts.value_path_positions sigma thres commission
             prepared_data s th Hkind Hth).
  set (recs := positions prepared_data th).
  set (dd := groupby_mean recs).
  assert (Hidx : index dd = sorted_unique (map date prepared_data)).
  { unfold dd. rewrite GroupFacts.index_groupby_mean.
    unfold recs. rewrite AverageFacts.index_positions. reflexivity. }
  assert (Hdd : dd <> []).
  { unfold dd. apply GroupFacts.groupby_mean_nonempty.
    unfold recs, positions. destruct prepared_data; [congruence |].
    discriminate. }
  exists (cumulative_value commission dd).
  split; [reflexivity |].
  rewrite PathFacts.index_cumulative_value, Hidx.
  split; [apply OrderFacts.sorted_unique_sorted |].
  split; [apply GroupFacts.sorted_unique_NoDup |].
  split.
  { intros d. rewrite GroupFacts.sorted_unique_In, in_map_iff.
    split; intros [r [H1 H2]]; exists r; split; assumption. }
  split; [apply PathFacts.cumulative_value_first; exact Hdd |].
  intros Hret Hc t Ht.
  rewrite PathFacts.length_cumulative_value in Ht.
  pose proof (@AverageFacts.positions_finite prepared_data th Hret) as Hfin.
  fold recs in Hfin.
  assert (Hmean : all_finite (values dd))
    by (apply GroupFacts.groupby_mean_finite; exact Hfin).
  destruct (@PathFacts.cumulative_value_finite commission dd Hc Hmean Hdd)
    as [H0 Hpos].
  assert (Hval : map (Spec.daily_average recs) (index dd) = values dd)
    by (symmetry; apply AverageFacts.daily_means_are_averages; exact Hfin).
  unfold claimed_value. fold recs. rewrite <- Hidx, Hval.
  destruct t as [| t]; [exact H0 |].
  rewrite Hpos by lia. reflexivity.
Qed.

Lemma value_series_is_shifted_cumsum_witness :
  exists pnl,
    value_path ["iv"%string] [Fin 0.01] (Fin 0.001) Sample.two_rows "iv"
    = Ok pnl
    /\ index pnl = ["2024-01-02"%string; "2024-01-03"%string]
    /\ nth_error (values pnl) 0 = Some (Fin 1)
    /\ nth_error (values pnl) 1
       = Some (claimed_value Sample.two_rows (Fin 0.01) (Fin 0.001)
                 ["2024-01-02"%string; "2024-01-03"%string] 1).
Proof.
  destruct (@value_series_is_shifted_cumsum ["iv"%string] [Fin 0.01]
              (Fin 0.001) Sample.two_rows "iv"%string (Fin 0.01))
    as [pnl [Hv [_ [_ [_ [H0 Ht]]]]]].
  - discriminate.
  - constructor; [left; reflexivity |].
    constructor; [right; reflexivity | constructor].
  - reflexivity.
  - exists pnl.
    assert (Hidx : index pnl = ["2024-01-02"%string; "2024-01-03"%string]).
    { assert (Hk : Forall kind_known Sample.two_rows).
      { constructor; [left; reflexivity |].
        constructor; [right; reflexivity | constructor]. }
      rewrite (@AverageFacts.value_path_positions ["iv"%string] [Fin 0.01]
                 (Fin 0.001) Sample.two_rows "iv"%string (Fin 0.01) Hk
                 eq_refl) in Hv.
      injection Hv as <-.
      rewrite PathFacts.index_cumulative_value,
        GroupFacts.index_groupby_mean.
      reflexivity. }
    split; [exact Hv |]. split; [exact Hidx |]. split; [exact H0 |].
    rewrite <- Hidx. apply Ht.
    + constructor; [exact I |]. constructor; [exact I | constructor].
    + exact I.
    + rewrite <- (SeriesFacts.length_index pnl), Hidx. simpl. lia.
Defined.

(** C9.  In every frame the loop of [prepare_data] builds (lines 106 to
    112, whatever the rates it joins), and so in every frame the
    generator yields, the field [opt] of every row is 0 exactly when
    [opt_type] is the text "call" and 1 for any other [opt_type]; so the
    pricer never reaches its invalid-kind raise on such a row, and a row
    of an unrecognised kind is priced as a put. *)
Theorem option_kind_of_prepared_rows (data : list option_row)
    (vix : vix_table) (sigma : list string) (shibor : list (string * float))
    (shibor_file : rate_frame) (range : string * string)
    (df : list prepared_row) (s : string) (r : prepared_row) :
  prepare_variant data vix shibor s = Ok df
  \/ In (Ok (df, s)) (prepare_data data vix sigma shibor_file range) ->
  In r df ->
  (opt r = 0%Z <-> opt_type r = "call"%string)
  /\ (opt_type r <> "call"%string -> opt r = 1%Z)
  /\ (forall S0 K T sig rf,
        exists p, bsm_option_price (opt r) S0 K T sig rf = Ok p)
  /\ (opt_type r <> "call"%string ->
      forall S0 K T sig rf,
        bsm_option_price (opt r) S0 K T sig rf
        = bsm_option_price 1 S0 K T sig rf).
Proof.
  intros Hin Hr.
  assert (Hdf : exists rates, prepare_variant data vix rates s = Ok df).
  { destruct Hin as [H | H]; [exists shibor; exact H |].
    exact (proj2 (@GeneratorFacts.prepare_data_frame _ _ _ _ _ _ _ H)). }
  destruct Hdf as [rates Hdf].
  pose proof (RunFacts.prepare_variant_opt _ _ _ _ Hdf r Hr) as Hopt.
  destruct (String.eqb_spec (opt_type r) "call") as [Hc | Hc].
  - split; [split; congruence |]. split; [congruence |].
    split; [| congruence].
    intros. apply ColumnFacts.bsm_option_price_known. left. exact Hopt.
  - split; [split; [rewrite Hopt; discriminate | congruence] |].
    split; [intros _; exact Hopt |].
    split.
    + intros. apply ColumnFacts.bsm_option_price_known. right. exact Hopt.
    + intros _ S0 K T sig rf. rewrite Hopt. reflexivity.
Qed.

Lemma option_kind_of_prepared_rows_witness :
  exists df r,
    prepare_variant Sample.quotes Sample.vix Sample.shibor "iv" = Ok df
    /\ nth_error df 2 = Some r
    /\ opt_type r = "CALL"%string
    /\ (opt r = 0%Z <-> opt_type r = "call"%string)
    /\ (opt_type r <> "call"%string -> opt r = 1%Z)
    /\ (forall S0 K T sig rf,
          exists p, bsm_option_price (opt r) S0 K T sig rf = Ok p)
    /\ (opt_type r <> "call"%string ->
        forall S0 K T sig rf,
          bsm_option_price (opt r) S0 K T sig rf
          = bsm_option_price 1 S0 K T sig rf).
Proof.
  eexists. eexists.
  split; [reflexivity |]. split; [reflexivity |]. split; [reflexivity |].
  eapply (@option_kind_of_prepared_rows Sample.quotes Sample.vix
            ["iv"%string] Sample.shibor Sample.rates_by_date date_range _
            "iv"%string).
  - left. reflexivity.
  - right. right. left. reflexivity.
Defined.

(** C10.  The realized returns of the rows of the last (greatest) date
    of a prepared frame reach neither the value series nor the report:
    whatever they are replaced by, the frame gives the same series, the
    same column of the value table and the same report.  What the shift
    drops is the commission-adjusted mean of that date. *)
Theorem last_day_return_is_dropped {L : Library} (sigma : list string)
    (thres : list float) (commission : float)
    (rows rows' : list prepared_row) (s : string) (acc : tables) :
  rows <> [] ->
  same_but_ret_on (last_date rows) rows rows' ->
  (forall r, In r rows -> date_le (date r) (last_date rows))
  /\ value_path sigma thres commission rows' s
     = value_path sigma thres commission rows s
  /\ run_variant sigma thres commission (Ok (rows', s)) acc
     = run_variant sigma thres commission (Ok (rows, s)) acc.
Proof.
  intros _ Hsame.
  split; [intros r Hr; apply OrderFacts.last_date_greatest; exact Hr |].
  pose proof (LastDayFacts.value_path_last_day sigma thres commission s Hsame)
    as Hpath.
  split; [exact Hpath |].
  unfold run_variant. cbn [bind]. rewrite Hpath. reflexivity.
Qed.

Lemma last_day_return_is_dropped_witness :
  (forall r, In r Sample.two_rows ->
     date_le (date r) (last_date Sample.two_rows))
  /\ value_path ["iv"%string] [Fin 0.01] (Fin 0.001)
       [Sample.call_row; with_ret Sample.put_row (Fin 5)] "iv"
     = value_path ["iv"%string] [Fin 0.01] (Fin 0.001) Sample.two_rows "iv"
  /\ run_variant (L := Reference.iso_library) ["iv"%string] [Fin 0.01]
       (Fin 0.001)
       (Ok ([Sample.call_row; with_ret Sample.put_row (Fin 5)], "iv"%string))
       {| result_df := []; pnl_df := empty_frame |}
     = run_variant (L := Reference.iso_library) ["iv"%string] [Fin 0.01]
         (Fin 0.001) (Ok (Sample.two_rows, "iv"%string))
         {| result_df := []; pnl_df := empty_frame |}.
Proof.
  apply last_day_return_is_dropped.
  - discriminate.
  - constructor.
    + split; [reflexivity |]. intros _. reflexivity.
    + constructor; [| constructor].
      split; [reflexivity |]. intros H. exfalso. apply H. reflexivity.
Defined.

(* ================================================================== *)
(** * Further properties of the pricer *)
(* ================================================================== *)

Module ExpiryFacts.

Import FloatFacts.
Local Open Scope R_scope.

(** The quotient [d1] at [T = 0]: the logarithm over a zero. *)
Lemma d1_at_expiry (S0 K sigma r : R) :
  0 < S0 -> 0 < K -> 0 < sigma ->
  ((np_log (Fin S0 / Fin K)
    + (Fin r + Fin 0.5 * Fin sigma ** Fin 2) * Fin 0)
   / (Fin sigma * np_sqrt (Fin 0)))%fl
  = signed_inf (sgn (ln (S0 / K))).
Proof.
  intros HS HK Hs.
  assert (HSK : 0 < S0 / K) by (apply Rdiv_lt_0_compat; assumption).
  rewrite (fdiv_fin S0) by lra.
  rewrite (np_log_fin HSK), (fpow_square Hs), np_sqrt_fin by lra.
  cbn [fmul fadd]. rewrite sqrt_0. unfold fdiv.
  rewrite (@sgn_zero (sigma * 0)) by lra.
  replace (ln (S0 / K) + (r + 0.5 * sigma ^ 2) * 0) with (ln (S0 / K))
    by lra.
  reflexivity.
Qed.

Lemma ln_ratio_pos (S0 K : R) : 0 < K -> K < S0 -> 0 < ln (S0 / K).
Proof.
  intros HK H. rewrite <- ln_1. apply ln_increasing; [lra |].
  apply (Rmult_lt_reg_r K); [exact HK |]. field_simplify; lra.
Qed.

Lemma ln_ratio_neg (S0 K : R) : 0 < S0 -> S0 < K -> ln (S0 / K) < 0.
Proof.
  intros HS H. rewrite <- ln_1. apply ln_increasing.
  - apply Rdiv_lt_0_compat; lra.
  - apply (Rmult_lt_reg_r K); [lra |]. field_simplify; lra.
Qed.

Lemma ln_ratio_zero (S0 K : R) : 0 < K -> S0 = K -> ln (S0 / K) = 0.
Proof.
  intros HK ->. replace (K / K) with 1 by (field; lra). apply ln_1.
Qed.

End ExpiryFacts.

(** X1.  At expiry ([T = 0], with positive [S0], [K] and [sigma]) the
    pricer raises nothing and divides by zero: in the money it returns
    the intrinsic value, out of the money 0, and at the money ([S0 = K])
    [nan], for calls and for puts. *)
Theorem bsm_option_price_at_expiry (S0 K sigma r : R) :
  (0 < S0)%R -> (0 < K)%R -> (0 < sigma)%R ->
  (K < S0 ->
   bsm_option_price 0 (Fin S0) (Fin K) (Fin 0) (Fin sigma) (Fin r)
   = Ok (Fin (S0 - K))
   /\ bsm_option_price 1 (Fin S0) (Fin K) (Fin 0) (Fin sigma) (Fin r)
      = Ok (Fin 0))%R
  /\ (S0 < K ->
      bsm_option_price 0 (Fin S0) (Fin K) (Fin 0) (Fin sigma) (Fin r)
      = Ok (Fin 0)
      /\ bsm_option_price 1 (Fin S0) (Fin K) (Fin 0) (Fin sigma) (Fin r)
         = Ok (Fin (K - S0)))%R
  /\ (S0 = K ->
      bsm_option_price 0 (Fin S0) (Fin K) (Fin 0) (Fin sigma) (Fin r)
      = Ok NaN
      /\ bsm_option_price 1 (Fin S0) (Fin K) (Fin 0) (Fin sigma) (Fin r)
         = Ok NaN).
Proof.
  intros HS HK Hs.
  assert (He : exp (- r * 0) = 1%R)
    by (replace (- r * 0)%R with 0%R by lra; apply exp_0).
  unfold bsm_option_price.
  rewrite (ExpiryFacts.d1_at_expiry r HS HK Hs).
  rewrite FloatFacts.np_sqrt_fin by lra.
  cbn [Z.eqb Pos.eqb fmul fneg np_exp]. rewrite He.
  split; [| split]; intros H.
  - rewrite (FloatFacts.sgn_pos (ExpiryFacts.ln_ratio_pos HK H)).
    cbn [signed_inf fsub fneg fadd fmul Normal.norm_cdf].
    split; do 2 f_equal; lra.
  - rewrite (FloatFacts.sgn_neg (ExpiryFacts.ln_ratio_neg HS H)).
    cbn [signed_inf fsub fneg fadd fmul Normal.norm_cdf].
    split; do 2 f_equal; lra.
  - rewrite (FloatFacts.sgn_zero (ExpiryFacts.ln_ratio_zero HK H)).
    split; reflexivity.
Qed.

Lemma bsm_option_price_at_expiry_witness :
  bsm_option_price 0 (Fin 100) (Fin 95) (Fin 0) (Fin 0.2) (Fin 0.03)
  = Ok (Fin (100 - 95))
  /\ bsm_option_price 1 (Fin 100) (Fin 95) (Fin 0) (Fin 0.2) (Fin 0.03)
     = Ok (Fin 0).
Proof.
  destruct (@bsm_option_price_at_expiry 100 95 0.2 0.03) as [H _];
    try lra.
  apply H. lra.
Defined.

(* ================================================================== *)
(** * Rows that are priced without a position *)
(* ================================================================== *)

Import Terms2.

(** X2.  A row that lacks one of the numbers the pricer reads ([S0], [K],
    [T], [sigma] or [rf] is [nan], as when the volatility of its day is
    missing) is not rejected: its price is [nan], both comparisons of the
    signal loop are false, and its signal is 0. *)
Theorem missing_input_takes_no_position (sigma : list string)
    (thres : list float) (s : string) (prepared_data : list prepared_row)
    (th : float) :
  Forall kind_known prepared_data ->
  threshold sigma thres s = Ok th ->
  exists price signal,
    price_column prepared_data = Ok price
    /\ signal_column sigma thres s prepared_data price = Ok signal
    /\ forall j r,
         nth_error prepared_data j = Some r ->
         input_missing r = true ->
         nth_error price j = Some NaN /\ nth_error signal j = Some 0%Z.
Proof.
  intros Hk Hth.
  assert (Hp : price_column prepared_data
               = Ok (map model_price prepared_data)).
  { apply ColumnFacts.price_column_value. intros r Hr.
    rewrite Forall_forall in Hk.
    destruct (ColumnFacts.bsm_option_price_known (S0 r) (K r) (T r)
                (Utils.sigma r) (rf r / Fin 100)%fl (Hk r Hr)) as [p Hp].
    unfold model_price. rewrite Hp. reflexivity. }
  exists (map model_price prepared_data).
  exists (zip_with (fun r p => Spec.signal p (close r) th) prepared_data
            (map model_price prepared_data)).
  split; [exact Hp |].
  split; [apply ColumnFacts.signal_column_value;
          [exact Hth | apply length_map] |].
  intros j r Hr Hm.
  assert (Hpr : nth_error (map model_price prepared_data) j = Some NaN).
  { rewrite (map_nth_error model_price j prepared_data Hr).
    f_equal. apply MissingFacts.model_price_missing; [| exact Hm].
    rewrite Forall_forall in Hk. apply Hk. exact (nth_error_In _ _ Hr). }
  split; [exact Hpr |].
  rewrite (MissingFacts.nth_error_zip_with _ _ _ _ Hr Hpr).
  f_equal. apply MissingFacts.signal_of_nan.
Qed.

Lemma missing_input_takes_no_position_witness :
  exists price signal,
    price_column [Sample.call_row; Sample2.no_vol_row] = Ok price
    /\ signal_column ["iv"%string] [Fin 0.01] "iv"
         [Sample.call_row; Sample2.no_vol_row] price = Ok signal
    /\ nth_error price 1 = Some NaN /\ nth_error signal 1 = Some 0%Z.
Proof.
  destruct (@missing_input_takes_no_position ["iv"%string] [Fin 0.01]
              "iv"%string [Sample.call_row; Sample2.no_vol_row] (Fin 0.01))
    as [price [signal [Hp [Hs H]]]].
  - constructor; [left; reflexivity |].
    constructor; [left; reflexivity | constructor].
  - reflexivity.
  - exists price, signal. split; [exact Hp |]. split; [exact Hs |].
    apply (H 1%nat Sample2.no_vol_row); reflexivity.
Defined.

(* ================================================================== *)
(** * The first row the pricer rejects *)
(* ================================================================== *)

Module RejectFacts.

Import LoopFacts.

Lemma kind_known_dec (r : prepared_row) : {kind_known r} + {~ kind_known r}.
Proof.
  unfold kind_known.
  destruct (Z.eq_dec (opt r) 0) as [H0 | H0]; [left; left; exact H0 |].
  destruct (Z.eq_dec (opt r) 1) as [H1 | H1]; [left; right; exact H1 |].
  right. intros [H | H]; contradiction.
Qed.

Lemma bsm_option_price_unknown (option_type : Z) (S0 K T sigma rf : float) :
  option_type <> 0%Z -> option_type <> 1%Z ->
  bsm_option_price option_type S0 K T sigma rf = Raise ValueError.
Proof.
  intros H0 H1. unfold bsm_option_price.
  apply Z.eqb_neq in H0. apply Z.eqb_neq in H1. rewrite H0, H1.
  reflexivity.
Qed.

(** A frame with a row of unknown kind splits at the first such row. *)
Lemma first_unknown (df : list prepared_row) :
  ~ Forall kind_known df ->
  exists pre r post,
    df = pre ++ r :: post /\ Forall kind_known pre /\ ~ kind_known r.
Proof.
  induction df as [| r df IH]; intros H.
  - exfalso. apply H. constructor.
  - destruct (kind_known_dec r) as [Hr | Hr].
    + destruct IH as [pre [r' [post [-> [Hpre Hr']]]]].
      { intros Hall. apply H. constructor; assumption. }
      exists (r :: pre), r', post.
      split; [reflexivity |]. split; [constructor; assumption | exact Hr'].
    + exists [], r, df. split; [reflexivity |]. split; [constructor | exact Hr].
Qed.

(** The loop up to a position: the rows before it are priced. *)
Lemma for_each_fill_upto {A : Type}
    (body : nat -> list A -> result (list A)) (init target : list A)
    (k : nat) :
  (forall j, (j < k)%nat ->
     body j (firstn j target ++ skipn j init)
     = Ok (firstn (S j) target ++ skipn (S j) init)) ->
  for_each body (seq 0 k) init = Ok (firstn k target ++ skipn k init).
Proof.
  induction k as [| k IH]; intros Hstep; [reflexivity |].
  rewrite seq_S, RunFacts.for_each_app, IH by (intros; apply Hstep; lia).
  cbn [bind Nat.add for_each]. rewrite Hstep by lia. reflexivity.
Qed.

Lemma price_column_rejects (pre post : list prepared_row)
    (r : prepared_row) :
  Forall kind_known pre -> ~ kind_known r ->
  price_column (pre ++ r :: post) = Raise ValueError.
Proof.
  intros Hpre Hr. unfold price_column, for_range.
  set (df := pre ++ r :: post).
  set (init := map (fun _ => Fin 0) df).
  set (target := map model_price df).
  assert (Hlen : List.length df
                 = (List.length pre + S (List.length post))%nat)
    by (unfold df; rewrite length_app; reflexivity).
  rewrite Hlen, seq_app, RunFacts.for_each_app.
  rewrite (for_each_fill_upto (price_row df) init target).
  - cbn [bind Nat.add seq for_each].
    assert (Hnth : nth_error df (List.length pre) = Some r)
      by (unfold df; rewrite nth_error_app2, Nat.sub_diag by lia;
          reflexivity).
    unfold price_row at 1. rewrite (getitem_Some _ _ Hnth). cbn [bind].
    rewrite RejectFacts.bsm_option_price_unknown; [reflexivity | |];
      intros E; apply Hr; [left | right]; exact E.
  - intros j Hj.
    assert (Hnth : nth_error df j = nth_error pre j)
      by (unfold df; apply nth_error_app1; exact Hj).
    destruct (nth_error pre j) as [q |] eqn:Hq.
    2:{ apply nth_error_None in Hq. lia. }
    unfold price_row. rewrite (getitem_Some _ _ Hnth). cbn [bind].
    rewrite Forall_forall in Hpre.
    destruct (ColumnFacts.bsm_option_price_known (S0 q) (K q) (T q)
                (Utils.sigma q) (rf q / Fin 100)%fl
                (Hpre q (nth_error_In _ _ Hq))) as [p Hp].
    rewrite Hp. cbn [bind]. f_equal. apply update_fill.
    + unfold init, target. rewrite !length_map. reflexivity.
    + unfold target. rewrite (map_nth_error model_price j df Hnth).
      unfold model_price. rewrite Hp. reflexivity.
Qed.

End RejectFacts.

(** X3.  The pricing loop either prices every row or stops at the first
    row whose [opt] is neither 0 nor 1: it returns the column of prices
    when every kind is known, and raises [ValueError] otherwise, so that
    one such row costs the whole variant its price column. *)
Theorem price_column_outcome (prepared_data : list prepared_row) :
  (Forall kind_known prepared_data ->
   price_column prepared_data = Ok (map model_price prepared_data))
  /\ (~ Forall kind_known prepared_data ->
      price_column prepared_data = Raise ValueError).
Proof.
  split.
  - intros Hk. apply ColumnFacts.price_column_value. intros r Hr.
    rewrite Forall_forall in Hk.
    destruct (ColumnFacts.bsm_option_price_known (S0 r) (K r) (T r)
                (Utils.sigma r) (rf r / Fin 100)%fl (Hk r Hr)) as [p Hp].
    unfold model_price. rewrite Hp. reflexivity.
  - intros Hn.
    destruct (RejectFacts.first_unknown Hn)
      as [pre [r [post [-> [Hpre Hr]]]]].
    apply RejectFacts.price_column_rejects; assumption.
Qed.

Lemma price_column_outcome_witness :
  price_column [Sample.call_row; Sample2.odd_kind_row; Sample.put_row]
  = Raise ValueError.
Proof.
  destruct (price_column_outcome
              [Sample.call_row; Sample2.odd_kind_row; Sample.put_row])
    as [_ H].
  apply H. intros Hall.
  inversion Hall as [| ? ? _ Hrest]; subst.
  inversion Hrest as [| ? ? Hodd _]; subst.
  destruct Hodd as [E | E]; discriminate E.
Defined.

(* ================================================================== *)
(** * Thresholds and signals *)
(* ================================================================== *)

Module ThresholdFacts.

Import FloatFacts.
Local Open Scope R_scope.

(** On a non-negative close, a signal that survives a wider band is the
    signal of the narrower one. *)
Lemma signal_wider_band (p : float) (c t t' : R) :
  0 <= c -> 0 <= t <= t' ->
  Spec.signal p (Fin c) (Fin t') = 0%Z
  \/ Spec.signal p (Fin c) (Fin t') = Spec.signal p (Fin c) (Fin t).
Proof.
  intros Hc [Ht Htt'].
  assert (Ha : (1 + t) * c <= (1 + t') * c) by nra.
  assert (Hb : (1 + - t') * c <= (1 + - t) * c) by nra.
  assert (Hab : (1 + - t) * c <= (1 + t) * c) by nra.
  unfold Spec.signal, flt. cbn [fadd fsub fneg fmul].
  destruct p as [x | | |]; cbn [fgt]; try (right; reflexivity).
  unfold Rltb.
  destruct (Rlt_dec ((1 + t') * c) x), (Rlt_dec ((1 + t) * c) x),
    (Rlt_dec x ((1 + - t') * c)), (Rlt_dec x ((1 + - t) * c));
    try (left; reflexivity); try (right; reflexivity); exfalso; lra.
Qed.

End ThresholdFacts.

(** X4.  Widening the band never creates or flips a position: for rows
    with a finite, non-negative close and thresholds [0 <= t <= t'] of
    the same variant, every signal under [t'] is 0 or is the signal the
    row has under [t]. *)
Theorem wider_band_keeps_or_drops (sigma : list string)
    (thres thres' : list float) (s : string)
    (prepared_data : list prepared_row) (price : list float) (t t' : R) :
  threshold sigma thres s = Ok (Fin t) ->
  threshold sigma thres' s = Ok (Fin t') ->
  (0 <= t <= t')%R ->
  List.length price = List.length prepared_data ->
  Forall (fun r => exists c, close r = Fin c /\ (0 <= c)%R) prepared_data ->
  exists signal signal',
    signal_column sigma thres s prepared_data price = Ok signal
    /\ signal_column sigma thres' s prepared_data price = Ok signal'
    /\ forall j sg sg',
         nth_error signal j = Some sg ->
         nth_error signal' j = Some sg' ->
         sg' = 0%Z \/ sg' = sg.
Proof.
  intros Hth Hth' Ht Hlen Hclose.
  exists (zip_with (fun r p => Spec.signal p (close r) (Fin t))
            prepared_data price).
  exists (zip_with (fun r p => Spec.signal p (close r) (Fin t'))
            prepared_data price).
  split; [apply ColumnFacts.signal_column_value; assumption |].
  split; [apply ColumnFacts.signal_column_value; assumption |].
  intros j sg sg' Hsg Hsg'.
  destruct (nth_error prepared_data j) as [r |] eqn:Hr.
  2:{ apply nth_error_None in Hr.
      assert (Hl : (List.length (zip_with
                      (fun r p => Spec.signal p (close r) (Fin t))
                      prepared_data price) <= j)%nat)
        by (rewrite SeriesFacts.length_zip_with by congruence; exact Hr).
      apply nth_error_None in Hl. congruence. }
  destruct (nth_error price j) as [p |] eqn:Hp.
  2:{ apply nth_error_None in Hp.
      assert (Hj : (j < List.length prepared_data)%nat)
        by (apply nth_error_Some; congruence).
      lia. }
  rewrite (MissingFacts.nth_error_zip_with _ _ _ _ Hr Hp) in Hsg.
  rewrite (MissingFacts.nth_error_zip_with _ _ _ _ Hr Hp) in Hsg'.
  injection Hsg as <-. injection Hsg' as <-.
  rewrite Forall_forall in Hclose.
  destruct (Hclose r (nth_error_In _ _ Hr)) as [c [-> Hc]].
  apply ThresholdFacts.signal_wider_band; assumption.
Qed.

Lemma wider_band_keeps_or_drops_witness :
  exists signal signal',
    signal_column ["iv"%string] [Fin 0.01] "iv" Sample.two_rows
      [Fin 7; Fin 2] = Ok signal
    /\ signal_column ["iv"%string] [Fin 0.5] "iv" Sample.two_rows
         [Fin 7; Fin 2] = Ok signal'
    /\ forall j sg sg',
         nth_error signal j = Some sg ->
         nth_error signal' j = Some sg' ->
         sg' = 0%Z \/ sg' = sg.
Proof.
  apply (@wider_band_keeps_or_drops ["iv"%string] [Fin 0.01] [Fin 0.5]
           "iv"%string Sample.two_rows [Fin 7; Fin 2] 0.01 0.5).
  - reflexivity.
  - reflexivity.
  - lra.
  - reflexivity.
  - constructor; [exists 6%R; split; [reflexivity | lra] |].
    constructor; [exists 2%R; split; [reflexivity | lra] | constructor].
Defined.

(** X5.  A variant reads the threshold at the position of the first
    occurrence of its name in [sigma].  The two lists are therefore
    index-aligned when no name repeats; a name that repeats reads, at
    each occurrence, the threshold of its first one. *)
Theorem threshold_of_first_occurrence (sigma : list string)
    (thres : list float) (i : nat) (s : string) :
  nth_error sigma i = Some s ->
  (NoDup sigma -> threshold sigma thres s = getitem thres i)
  /\ exists k,
       (k <= i)%nat
       /\ nth_error sigma k = Some s
       /\ (forall j, (j < k)%nat -> nth_error sigma j <> Some s)
       /\ threshold sigma thres s = getitem thres k.
Proof.
  intros Hi.
  assert (Hfirst : forall l n,
            nth_error l n = Some s ->
            exists pre post,
              l = pre ++ s :: post /\ ~ In s pre
              /\ (List.length pre <= n)%nat).
  { induction l as [| y l IH]; intros n Hn; [destruct n; discriminate |].
    destruct (String.eqb_spec y s) as [-> | Hne].
    - exists [], l. split; [reflexivity |]. split; [intros [] | simpl; lia].
    - destruct n as [| n]; [simpl in Hn; congruence |].
      destruct (IH n Hn) as [pre [post [-> [Hnin Hle]]]].
      exists (y :: pre), post. split; [reflexivity |].
      split; [intros [E | E]; [congruence | contradiction] | simpl; lia]. }
  destruct (Hfirst sigma i Hi) as [pre [post [Hsplit [Hnin Hle]]]].
  assert (Hth : threshold sigma thres s = getitem thres (List.length pre)).
  { unfold threshold. rewrite Hsplit.
    rewrite (@RunFacts.list_index_first s pre post Hnin). reflexivity. }
  split.
  - intros Hnd. rewrite Hth. f_equal.
    destruct (Nat.eq_dec (List.length pre) i) as [E | E]; [exact E |].
    exfalso.
    assert (Hk : nth_error sigma (List.length pre) = Some s)
      by (rewrite Hsplit, nth_error_app2, Nat.sub_diag by lia; reflexivity).
    rewrite NoDup_nth_error in Hnd.
    apply E. apply Hnd; [| congruence].
    apply nth_error_Some. congruence.
  - exists (List.length pre).
    split; [exact Hle |].
    split; [rewrite Hsplit, nth_error_app2, Nat.sub_diag by lia;
            reflexivity |].
    split; [| exact Hth].
    intros j Hj Hs. apply Hnin.
    rewrite Hsplit, nth_error_app1 in Hs by exact Hj.
    exact (nth_error_In _ _ Hs).
Qed.

Lemma threshold_of_first_occurrence_witness :
  threshold ["iv"%string; "hv"%string; "iv"%string]
    [Fin 0.1; Fin 0.2; Fin 0.3] "iv"
  = getitem [Fin 0.1; Fin 0.2; Fin 0.3] 0.
Proof.
  destruct (@threshold_of_first_occurrence
              ["iv"%string; "hv"%string; "iv"%string]
              [Fin 0.1; Fin 0.2; Fin 0.3] 2 "iv"%string eq_refl)
    as [_ [k [Hk [_ [Hfirst Hth]]]]].
  rewrite Hth. f_equal.
  destruct k as [| k]; [reflexivity |].
  exfalso. apply (Hfirst 0%nat); [lia | reflexivity].
Defined.

(* ================================================================== *)
(** * The dates and the commission of the value series *)
(* ================================================================== *)

Module DragFacts.

Import FloatFacts SeriesFacts.
Local Open Scope R_scope.

(** Summing finite values less a commission [c]: the sum without
    commission, less [c] for every value. *)
Lemma fold_commission (c : R) (l : list float) :
  Forall is_finite l ->
  forall a0 b0 : R,
    exists a,
      fold_left fadd (map (fun x => x - Fin 0)%fl l) (Fin a0) = Fin a
      /\ fold_left fadd (map (fun x => x - Fin c)%fl l) (Fin b0)
         = Fin (a - a0 + b0 - INR (List.length l) * c).
Proof.
  induction 1 as [| v l Hv _ IH]; intros a0 b0.
  - exists a0. split; [reflexivity |]. simpl. f_equal. lra.
  - destruct v as [x | | |]; simpl in Hv; try contradiction.
    cbn [map fold_left fsub fneg fadd].
    destruct (IH (a0 + (x + - 0)) (b0 + (x + - c))) as [a [H0 Hc]].
    exists a. split; [exact H0 |].
    rewrite Hc. f_equal.
    change (List.length (Fin x :: l)) with (S (List.length l)).
    rewrite S_INR. lra.
Qed.

Lemma fsum_commission (c : R) (l : list float) :
  Forall is_finite l ->
  exists a,
    fsum (map (fun x => x - Fin 0)%fl l) = Fin a
    /\ fsum (map (fun x => x - Fin c)%fl l)
       = Fin (a - INR (List.length l) * c).
Proof.
  intros H. destruct (fold_commission c H 0 0) as [a [H0 Hc]].
  exists a. split; [exact H0 |].
  unfold fsum. rewrite Hc. f_equal. lra.
Qed.

Lemma Forall_firstn {A : Type} (P : A -> Prop) (n : nat) (l : list A) :
  Forall P l -> Forall P (firstn n l).
Proof.
  intros H. apply Forall_forall. intros x Hx.
  rewrite Forall_forall in H. apply H.
  exact (PathFacts.In_firstn _ _ _ Hx).
Qed.

(** The values of the series with and without a commission. *)
Lemma cumulative_value_drag (c : R) (dd : series string) (t : nat) :
  all_finite (values dd) ->
  (t < List.length dd)%nat ->
  exists x,
    nth_error (values (cumulative_value (Fin 0) dd)) t = Some (Fin x)
    /\ nth_error (values (cumulative_value (Fin c) dd)) t
       = Some (Fin (x - INR t * c)).
Proof.
  intros Hfin Ht.
  assert (Hne : dd <> []) by (destruct dd; [simpl in Ht; lia | discriminate]).
  destruct (@PathFacts.cumulative_value_finite (Fin 0) dd I Hfin Hne)
    as [H00 H0].
  destruct (@PathFacts.cumulative_value_finite (Fin c) dd I Hfin Hne)
    as [Hc0 Hc].
  destruct t as [| t].
  - exists 1. rewrite H00, Hc0. split; [reflexivity |].
    do 2 f_equal. simpl. lra.
  - rewrite H0, Hc by lia.
    destruct (fsum_commission c
                (Forall_firstn (S t) Hfin)) as [a [Ha0 Hac]].
    rewrite Ha0, Hac. exists (a + 1). split; [reflexivity |].
    cbn [fadd]. do 2 f_equal.
    rewrite length_firstn, length_values, Nat.min_l by lia. lra.
Qed.

(** With every kind known and a threshold at hand, the path exists. *)
Lemma value_path_returns (sigma : list string) (thres : list float)
    (commission : float) (prepared_data : list prepared_row) (s : string)
    (th : float) :
  Forall kind_known prepared_data ->
  threshold sigma thres s = Ok th ->
  exists price signal,
    price_column prepared_data = Ok price
    /\ signal_column sigma thres s prepared_data price = Ok signal
    /\ List.length signal = List.length prepared_data
    /\ value_path sigma thres commission prepared_data s
       = Ok (cumulative_value commission
               (daily_mean prepared_data
                  (return_column prepared_data signal))).
Proof.
  intros Hk Hth.
  destruct (ColumnFacts.price_column_known Hk) as [price [Hp Hlen]].
  pose proof (ColumnFacts.signal_column_value sigma thres s prepared_data
                price Hth Hlen) as Hs.
  exists price. eexists. split; [exact Hp |]. split; [exact Hs |].
  split; [apply length_zip_with; congruence |].
  unfold value_path. rewrite Hp. cbn [bind]. rewrite Hs. reflexivity.
Qed.

End DragFacts.

(** X6.  The value series of a frame has one entry per distinct date of
    the frame, in ascending order of the dates as text: its index is
    sorted, has no repetition and holds exactly the dates of the rows. *)
Theorem value_series_dates (sigma : list string) (thres : list float)
    (commission : float) (prepared_data : list prepared_row) (s : string)
    (pnl : series string) :
  value_path sigma thres commission prepared_data s = Ok pnl ->
  index pnl = sorted_unique (map date prepared_data)
  /\ StronglySorted date_le (index pnl)
  /\ NoDup (index pnl)
  /\ forall d, In d (index pnl) <-> exists r, In r prepared_data /\ date r = d.
Proof.
  intros H. unfold value_path in H.
  destruct (price_column prepared_data) as [price |]; [| discriminate].
  cbn [bind] in H.
  destruct (signal_column sigma thres s prepared_data price)
    as [signal |] eqn:Hs; [| discriminate].
  cbn [bind] in H. injection H as <-.
  pose proof (ColumnFacts.length_signal_column _ _ _ _ _ Hs) as Hlen.
  assert (Hi : index (cumulative_value commission
                        (daily_mean prepared_data
                           (return_column prepared_data signal)))
               = sorted_unique (map date prepared_data)).
  { rewrite PathFacts.index_cumulative_value. unfold daily_mean.
    rewrite GroupFacts.index_groupby_mean.
    destruct (DailyFacts.daily_mean_rows prepared_data _
                (DailyFacts.length_return_column prepared_data signal Hlen))
      as [-> _].
    reflexivity. }
  rewrite Hi.
  split; [reflexivity |].
  split; [apply OrderFacts.sorted_unique_sorted |].
  split; [apply GroupFacts.sorted_unique_NoDup |].
  intros d. rewrite GroupFacts.sorted_unique_In, in_map_iff.
  split; intros [r [H1 H2]]; exists r; split; assumption.
Qed.

Lemma value_series_dates_witness :
  exists pnl,
    value_path ["iv"%string] [Fin 0.01] (Fin 0.001) Sample.two_rows "iv"
    = Ok pnl
    /\ index pnl = ["2024-01-02"%string; "2024-01-03"%string].
Proof.
  destruct (@DragFacts.value_path_returns ["iv"%string] [Fin 0.01]
              (Fin 0.001) Sample.two_rows "iv"%string (Fin 0.01))
    as [price [signal [_ [_ [_ Hv]]]]].
  - constructor; [left; reflexivity |].
    constructor; [right; reflexivity | constructor].
  - reflexivity.
  - eexists. split; [exact Hv |].
    destruct (value_series_dates _ _ _ _ _ Hv) as [Hi _].
    rewrite Hi. reflexivity.
Defined.

(** X7.  The commission is a flat drag on every day, whether or not a
    position is held: for finite realized returns, the value at position
    [t] of the series computed with commission [c] is the value computed
    without commission less [t * c]. *)
Theorem commission_is_a_flat_daily_drag (sigma : list string)
    (thres : list float) (prepared_data : list prepared_row) (s : string)
    (th : float) (c : R) :
  Forall kind_known prepared_data ->
  threshold sigma thres s = Ok th ->
  Forall (fun r => is_finite (ret r)) prepared_data ->
  exists pnl0 pnl,
    value_path sigma thres (Fin 0) prepared_data s = Ok pnl0
    /\ value_path sigma thres (Fin c) prepared_data s = Ok pnl
    /\ index pnl = index pnl0
    /\ forall t,
         (t < List.length pnl0)%nat ->
         exists x,
           nth_error (values pnl0) t = Some (Fin x)
           /\ nth_error (values pnl) t = Some (Fin (x - INR t * c)).
Proof.
  intros Hk Hth Hret.
  destruct (@DragFacts.value_path_returns sigma thres (Fin 0)
              prepared_data s th Hk Hth)
    as [price [signal [Hp [Hs [Hlen H0]]]]].
  destruct (@DragFacts.value_path_returns sigma thres (Fin c)
              prepared_data s th Hk Hth)
    as [price' [signal' [Hp' [Hs' [_ Hc]]]]].
  assert (price' = price) by congruence. subst price'.
  assert (signal' = signal) by congruence. subst signal'.
  eexists. eexists. split; [exact H0 |]. split; [exact Hc |].
  split; [rewrite !PathFacts.index_cumulative_value; reflexivity |].
  intros t Ht. rewrite PathFacts.length_cumulative_value in Ht.
  apply DragFacts.cumulative_value_drag; [| exact Ht].
  apply DailyFacts.daily_mean_finite; assumption.
Qed.

Lemma commission_is_a_flat_daily_drag_witness :
  exists pnl0 pnl,
    value_path ["iv"%string] [Fin 0.01] (Fin 0) Sample.two_rows "iv"
    = Ok pnl0
    /\ value_path ["iv"%string] [Fin 0.01] (Fin 0.001) Sample.two_rows "iv"
       = Ok pnl
    /\ index pnl = index pnl0
    /\ forall t,
         (t < List.length pnl0)%nat ->
         exists x,
           nth_error (values pnl0) t = Some (Fin x)
           /\ nth_error (values pnl) t = Some (Fin (x - INR t * 0.001)).
Proof.
  apply (@commission_is_a_flat_daily_drag ["iv"%string] [Fin 0.01]
           Sample.two_rows "iv"%string (Fin 0.01) 0.001).
  - constructor; [left; reflexivity |].
    constructor; [right; reflexivity | constructor].
  - reflexivity.
  - constructor; [exact I |]. constructor; [exact I | constructor].
Defined.

(* ================================================================== *)
(** * Data preparation *)
(* ================================================================== *)

Module PrepareFacts.

(** The rows of an inner join on the labels. *)
Lemma in_merge {A B : Type} (left : list (string * A))
    (right : list (string * B)) (k : string) (a : A) (b : B) :
  In (k, (a, b)) (merge left right) <-> In (k, a) left /\ In (k, b) right.
Proof.
  unfold merge. rewrite in_flat_map. split.
  - intros [[k1 a1] [Hl Hr]]. apply in_map_iff in Hr as [[k2 b2] [E Hr]].
    apply filter_In in Hr as [Hr Hk]. cbn [fst snd] in *.
    apply String.eqb_eq in Hk. injection E as <- <- <-. subst k2.
    split; assumption.
  - intros [Hl Hr]. exists (k, a). split; [exact Hl |].
    apply in_map_iff. exists (k, b). split; [reflexivity |].
    apply filter_In. split; [exact Hr | apply String.eqb_refl].
Qed.

End PrepareFacts.

(** X8.  Called with a pair of dates, as its documentation asks,
    [prepare_data] yields no frame (unless the first date is the text
    "1").  Line 104 reads the pair as a row label and a column label and
    raises [KeyError] when the rate file lacks one of them.  When the
    file has both, the generator ends at once for an empty [sigma];
    otherwise it raises at the first name: [KeyError] when the name is no
    column of the volatility table, and else the error of
    [shibor[['1']]] on what line 104 found. *)
Theorem prepare_data_on_a_pair_of_dates (data : list option_row)
    (vix : vix_table) (sigma : list string) (shibor_file : rate_frame)
    (range : string * string) :
  fst range <> "1"%string ->
  (forall item,
     ~ In (Ok item) (prepare_data data vix sigma shibor_file range))
  /\ (~ has_cell shibor_file range ->
      prepare_data data vix sigma shibor_file range = [Raise KeyError])
  /\ (has_cell shibor_file range ->
      match sigma with
      | [] => prepare_data data vix sigma shibor_file range = []
      | s :: _ =>
          exists e,
            prepare_data data vix sigma shibor_file range = [Raise e]
            /\ (e = KeyError \/ e = IndexError)
            /\ (s <> "asset_price"%string -> ~ In s (vix_columns vix) ->
                e = KeyError)
      end).
Proof.
  intros Hne.
  assert (Hfound : has_cell shibor_file range ->
            match sigma with
            | [] => prepare_data data vix sigma shibor_file range = []
            | s :: _ =>
                exists e,
                  prepare_data data vix sigma shibor_file range = [Raise e]
                  /\ (e = KeyError \/ e = IndexError)
                  /\ (s <> "asset_price"%string ->
                      ~ In s (vix_columns vix) -> e = KeyError)
            end).
  { intros H.
    destruct (@GeneratorFacts.prepare_data_found shibor_file range H Hne)
      as [e [He Hp]].
    rewrite Hp. destruct sigma as [| s rest]; [reflexivity |].
    destruct (column_of vix s) as [column |] eqn:Ec.
    - exists e. split; [reflexivity |].
      split; [destruct He; [right | left]; assumption |].
      intros Hs Hcol.
      rewrite (GeneratorFacts.column_of_missing vix Hs Hcol) in Ec.
      discriminate.
    - exists KeyError. split; [reflexivity |].
      split; [left; reflexivity | intros _ _; reflexivity]. }
  split; [| split; [apply GeneratorFacts.prepare_data_missing | exact Hfound]].
  intros item Hin.
  destruct (GeneratorFacts.has_cell_dec shibor_file range) as [H | H].
  - specialize (Hfound H). destruct sigma as [| s rest].
    + rewrite Hfound in Hin. destruct Hin.
    + destruct Hfound as [e [Hp _]]. rewrite Hp in Hin.
      destruct Hin as [E | []]. discriminate E.
  - rewrite (@GeneratorFacts.prepare_data_missing data vix sigma shibor_file
               range H) in Hin.
    destruct Hin as [E | []]. discriminate E.
Qed.

Lemma prepare_data_on_a_pair_of_dates_witness :
  prepare_data Sample.quotes Sample.vix ["iv"%string] Sample.rates_by_date
    date_range
  = [Raise KeyError].
Proof.
  destruct (@prepare_data_on_a_pair_of_dates Sample.quotes Sample.vix
              ["iv"%string] Sample.rates_by_date date_range)
    as [_ [H _]].
  - discriminate.
  - apply H. intros [Hrow _]. cbn in Hrow.
    destruct Hrow as [E | [E | []]]; discriminate E.
Defined.

(** X9.  A prepared frame is the inner join of the three tables on the
    date, less the quotes without a realized return: its rows are exactly
    the rows built from a quote, a row of the volatility table and a rate
    that carry the same date, the quote's return not being [nan]; the
    volatility is the figure of the table in the column of the variant,
    divided by 100. *)
Theorem prepared_rows_are_the_join (data : list option_row)
    (vix : vix_table) (shibor : list (string * float)) (s : string)
    (df : list prepared_row) (r : prepared_row) :
  prepare_variant data vix shibor s = Ok df ->
  (In r df <->
   exists d v rate column,
     column_of vix s = Ok column
     /\ In d data
     /\ In v (vix_rows vix)
     /\ vix_label v = row_label d
     /\ In (row_label d, rate) shibor
     /\ isna (row_ret d) = false
     /\ r = prepared_of d v (column v) rate).
Proof.
  unfold prepare_variant, select_column. intros H.
  destruct (column_of vix s) as [column |] eqn:Hi;
    cbn [bind] in H; [| discriminate].
  injection H as <-.
  rewrite filter_In, in_map_iff. split.
  - intros [[[label [[d [asset vol]] rate]] [<- Hin]] Hret].
    apply PrepareFacts.in_merge in Hin as [Hin Hrate].
    apply PrepareFacts.in_merge in Hin as [Hd Hv].
    apply in_map_iff in Hd as [d' [E Hd]]. injection E as <- <-.
    apply in_map_iff in Hv as [v [E Hv]]. injection E as Hl <- <-.
    exists d', v, rate, column.
    cbn [ret] in Hret. apply negb_true_iff in Hret.
    repeat (split; [assumption || reflexivity |]). reflexivity.
  - intros [d [v [rate [column' [Hi' [Hd [Hv [Hl [Hrate [Hret ->]]]]]]]]]].
    injection Hi' as <-.
    split; [| cbn [prepared_of ret]; rewrite Hret; reflexivity].
    exists (row_label d, ((d, (vix_asset_price v, column v)), rate)).
    split; [reflexivity |].
    apply PrepareFacts.in_merge. split; [| exact Hrate].
    apply PrepareFacts.in_merge. split.
    + apply in_map_iff. exists d. split; [reflexivity | exact Hd].
    + apply in_map_iff. exists v. split; [rewrite Hl; reflexivity | exact Hv].
Qed.

Lemma prepared_rows_are_the_join_witness :
  In Sample.one_prepared [Sample.one_prepared]
  <-> exists d v rate column,
        column_of Sample.vix "iv" = Ok column
        /\ In d Sample.one_quote
        /\ In v (vix_rows Sample.vix)
        /\ vix_label v = row_label d
        /\ In (row_label d, rate) Sample.shibor
        /\ isna (row_ret d) = false
        /\ Sample.one_prepared = prepared_of d v (column v) rate.
Proof.
  apply (@prepared_rows_are_the_join Sample.one_quote Sample.vix
           Sample.shibor "iv"%string).
  reflexivity.
Defined.

(* ================================================================== *)
(** * Resampling to one observation per day *)
(* ================================================================== *)

Module ResampleFacts.

Local Open Scope Z_scope.

Lemma day_of_day_start (t : timestamp) : day_of (day_start t) = day_of t.
Proof.
  unfold day_start, day_of. apply Z.div_mul. unfold ns_per_day. lia.
Qed.

Lemma day_start_idempotent (t : timestamp) :
  day_start (day_start t) = day_start t.
Proof. unfold day_start at 1 3. rewrite day_of_day_start. reflexivity. Qed.

Lemma day_of_monotone (t t' : timestamp) : t <= t' -> day_of t <= day_of t'.
Proof.
  intros H. unfold day_of. apply Z.div_le_mono; [| exact H].
  unfold ns_per_day. lia.
Qed.

Lemma day_start_le (t : timestamp) : day_start t <= t.
Proof.
  unfold day_start, day_of. rewrite Z.mul_comm.
  apply Z.mul_div_le. unfold ns_per_day. lia.
Qed.

(** ** The stable sort *)

Lemma insert_by_time_perm (p : timestamp * float) (s : series timestamp) :
  Permutation (insert_by_time p s) (p :: s).
Proof.
  induction s as [| h t IH]; simpl; [apply Permutation_refl |].
  destruct (fst p <=? fst h); [apply Permutation_refl |].
  eapply Permutation_trans; [apply perm_skip, IH | apply perm_swap].
Qed.

Lemma sort_by_time_perm (s : series timestamp) :
  Permutation (sort_by_time s) s.
Proof.
  induction s as [| p s IH]; simpl; [apply Permutation_refl |].
  eapply Permutation_trans;
    [apply insert_by_time_perm | apply perm_skip, IH].
Qed.

Lemma insert_by_time_sorted (p : timestamp * float) (s : series timestamp) :
  StronglySorted time_le s -> StronglySorted time_le (insert_by_time p s).
Proof.
  induction 1 as [| h t Ht IH Hall]; simpl.
  - constructor; constructor.
  - destruct (fst p <=? fst h) eqn:E.
    + apply Z.leb_le in E.
      constructor; [constructor; assumption |].
      constructor; [exact E |].
      revert Hall. apply Forall_impl. unfold time_le. intros q Hq. lia.
    + apply Z.leb_gt in E.
      constructor; [exact IH |].
      apply Forall_forall. intros q Hq.
      apply (Permutation_in _ (insert_by_time_perm p t)) in Hq.
      destruct Hq as [<- | Hq]; [unfold time_le; lia |].
      rewrite Forall_forall in Hall. apply Hall. exact Hq.
Qed.

Lemma sort_by_time_sorted (s : series timestamp) :
  StronglySorted time_le (sort_by_time s).
Proof.
  induction s as [| p s IH]; simpl; [constructor |].
  apply insert_by_time_sorted. exact IH.
Qed.

Lemma filter_sorted {A : Type} (R : A -> A -> Prop) (f : A -> bool)
    (l : list A) :
  StronglySorted R l -> StronglySorted R (filter f l).
Proof.
  induction 1 as [| h t Ht IH Hall]; simpl; [constructor |].
  destruct (f h); [| exact IH].
  constructor; [exact IH |].
  apply Forall_forall. intros x Hx. apply filter_In in Hx as [Hx _].
  rewrite Forall_forall in Hall. apply Hall. exact Hx.
Qed.

(** ** The last observation of each day *)

Lemma last_per_day_head (t : timestamp) (v : float)
    (r : series timestamp) :
  exists v' r', last_per_day ((t, v) :: r) = (day_start t, v') :: r'.
Proof.
  revert t v. induction r as [| [t' v'] r IH]; intros t v.
  - exists v, []. reflexivity.
  - cbn [last_per_day]. destruct (day_of t =? day_of t') eqn:E.
    + apply Z.eqb_eq in E. destruct (IH t' v') as [w [r' Hw]].
      exists w, r'.
      change (last_per_day ((t', v') :: r) = (day_start t, w) :: r').
      rewrite Hw. unfold day_start. rewrite E. reflexivity.
    + eexists. eexists. reflexivity.
Qed.

Lemma last_per_day_ascending (l : series timestamp) :
  StronglySorted time_le l -> ascending_days (index (last_per_day l)).
Proof.
  induction 1 as [| [t v] r Hr IH Hall]; [exact I |].
  destruct r as [| [t' v'] r'].
  - simpl. split; exact I.
  - cbn [last_per_day]. destruct (day_of t =? day_of t') eqn:E; [exact IH |].
    apply Z.eqb_neq in E.
    destruct (last_per_day_head t' v' r') as [w [r'' Hw]].
    change (ascending_days
              (index ((day_start t, v) :: last_per_day ((t', v') :: r')))).
    rewrite Hw in IH |- *. cbn [index map fst ascending_days] in IH |- *.
    split; [| exact IH].
    rewrite !day_of_day_start.
    inversion Hall as [| ? ? Hle _]; subst. unfold time_le in Hle.
    cbn [fst] in Hle. pose proof (day_of_monotone Hle). lia.
Qed.

Lemma last_per_day_midnights (l : series timestamp) :
  Forall (fun t => day_start t = t) (index (last_per_day l)).
Proof.
  induction l as [| [t v] r IH]; [constructor |].
  destruct r as [| [t' v'] r'].
  - simpl. constructor; [apply day_start_idempotent | constructor].
  - cbn [last_per_day]. destruct (day_of t =? day_of t'); [exact IH |].
    change (Forall (fun t => day_start t = t)
              (day_start t :: index (last_per_day ((t', v') :: r')))).
    constructor; [apply day_start_idempotent | exact IH].
Qed.

(** Every entry is an observation of its day. *)
Lemma last_per_day_from (l : series timestamp) (t : timestamp)
    (v : float) :
  In (t, v) (last_per_day l) ->
  exists t0, In (t0, v) l /\ day_start t0 = t.
Proof.
  induction l as [| [t1 v1] r IH]; intros H; [destruct H |].
  destruct r as [| [t' v'] r'].
  - destruct H as [E | []]. injection E as <- <-.
    exists t1. split; [left; reflexivity | reflexivity].
  - cbn [last_per_day] in H. destruct (day_of t1 =? day_of t').
    + destruct (IH H) as [t0 [Hin Hd]].
      exists t0. split; [right; exact Hin | exact Hd].
    + destruct H as [E | H].
      * injection E as <- <-.
        exists t1. split; [left; reflexivity | reflexivity].
      * destruct (IH H) as [t0 [Hin Hd]].
        exists t0. split; [right; exact Hin | exact Hd].
Qed.

(** The entry of a day is an observation no earlier than any other of
    that day. *)
Lemma last_per_day_latest (l : series timestamp) :
  StronglySorted time_le l ->
  forall t0 v0,
    In (t0, v0) l ->
    exists t1 v1,
      In (day_start t0, v1) (last_per_day l)
      /\ In (t1, v1) l /\ day_of t1 = day_of t0 /\ t0 <= t1.
Proof.
  induction 1 as [| [t v] r Hr IH Hall]; intros t0 v0 Hin; [destruct Hin |].
  destruct r as [| [t' v'] r'].
  - destruct Hin as [E | []]. injection E as <- <-.
    exists t, v. simpl. repeat split; auto. lia.
  - assert (Hle : t <= t').
    { inversion Hall as [| ? ? Hle _]; subst. exact Hle. }
    cbn [last_per_day]. destruct (day_of t =? day_of t') eqn:E.
    + apply Z.eqb_eq in E.
      destruct Hin as [E0 | Hin].
      * injection E0 as <- <-.
        destruct (IH t' v' (or_introl eq_refl)) as [t1 [v1 [H1 [H2 [H3 H4]]]]].
        exists t1, v1.
        split; [unfold day_start in *; rewrite E; exact H1 |].
        split; [right; exact H2 |]. split; lia.
      * destruct (IH t0 v0 Hin) as [t1 [v1 [H1 [H2 [H3 H4]]]]].
        exists t1, v1. split; [exact H1 |].
        split; [right; exact H2 |]. split; assumption.
    + destruct Hin as [E0 | Hin].
      * injection E0 as <- <-. exists t, v.
        split; [left; reflexivity |]. split; [left; reflexivity |].
        split; [reflexivity | lia].
      * destruct (IH t0 v0 Hin) as [t1 [v1 [H1 [H2 [H3 H4]]]]].
        exists t1, v1. split; [right; exact H1 |].
        split; [right; exact H2 |]. split; assumption.
Qed.

End ResampleFacts.

Module DailyShapeFacts.

Import ResampleFacts.
Local Open Scope Z_scope.

Lemma in_dropna_sort (s : series timestamp) (t : timestamp) (v : float) :
  In (t, v) (dropna (sort_by_time s)) <-> In (t, v) s /\ isna v = false.
Proof.
  unfold dropna, notna. rewrite filter_In. cbn [snd].
  rewrite negb_true_iff. split; intros [H1 H2]; split; try exact H2.
  - exact (Permutation_in _ (sort_by_time_perm s) H1).
  - exact (Permutation_in _ (Permutation_sym (sort_by_time_perm s)) H1).
Qed.

Lemma dropna_sort_sorted (s : series timestamp) :
  StronglySorted time_le (dropna (sort_by_time s)).
Proof. apply filter_sorted, sort_by_time_sorted. Qed.

Lemma resample_values_notna (s : series timestamp) :
  forallb notna (values (resample_last_dropna s)) = true.
Proof.
  apply forallb_forall. intros v Hv. unfold values in Hv.
  apply in_map_iff in Hv as [[t v'] [<- Hin]]. cbn [snd].
  apply last_per_day_from in Hin as [t0 [Hin _]].
  apply in_dropna_sort in Hin as [_ Hna].
  unfold notna. rewrite Hna. reflexivity.
Qed.

(** ** A daily series is left as it is *)

Lemma ascending_head (t : timestamp) (ts : list timestamp) :
  ascending_days (t :: ts) ->
  Forall (fun t' => day_of t < day_of t') ts.
Proof.
  revert t. induction ts as [| t' ts IH]; intros t H; [constructor |].
  destruct H as [Hlt Hrest]. constructor; [exact Hlt |].
  specialize (IH t' Hrest). revert IH. apply Forall_impl. intros a Ha. lia.
Qed.

Lemma sort_daily (s : series timestamp) :
  ascending_days (index s) -> sort_by_time s = s.
Proof.
  induction s as [| [t v] r IH]; intros H; [reflexivity |].
  cbn [sort_by_time fold_right].
  change (fold_right insert_by_time [] r) with (sort_by_time r).
  destruct H as [Hh Hr]. rewrite (IH Hr).
  destruct r as [| [t' v'] r']; [reflexivity |].
  cbn [insert_by_time fst]. cbn [index map fst] in Hh.
  assert (Hle : t <= t').
  { destruct (Z_le_gt_dec t t') as [Hle | Hgt]; [exact Hle |].
    assert (H1 : t' <= t) by lia.
    pose proof (day_of_monotone H1). lia. }
  apply Z.leb_le in Hle. rewrite Hle. reflexivity.
Qed.

Lemma dropna_notna (s : series timestamp) :
  forallb notna (values s) = true -> dropna s = s.
Proof.
  unfold dropna, values.
  induction s as [| [t v] r IH]; intros H; [reflexivity |].
  simpl in H. apply andb_prop in H as [Hv Hr].
  simpl. rewrite Hv, (IH Hr). reflexivity.
Qed.

Lemma last_per_day_daily (s : series timestamp) :
  ascending_days (index s) ->
  Forall (fun t => day_start t = t) (index s) ->
  last_per_day s = s.
Proof.
  induction s as [| [t v] r IH]; intros Ha Hm; [reflexivity |].
  inversion Hm as [| ? ? Ht Hr]; subst. destruct Ha as [Hh Hrest].
  destruct r as [| [t' v'] r'].
  - simpl. rewrite Ht. reflexivity.
  - cbn [last_per_day]. cbn [index map fst] in Hh.
    assert (E : (day_of t =? day_of t') = false) by (apply Z.eqb_neq; lia).
    rewrite E, Ht. f_equal. apply IH; assumption.
Qed.

Lemma resample_daily (s : series timestamp) :
  is_daily s -> resample_last_dropna s = s.
Proof.
  intros [Ha [Hm Hv]]. unfold resample_last_dropna.
  rewrite (sort_daily _ Ha), (dropna_notna _ Hv).
  apply last_per_day_daily; assumption.
Qed.

Lemma resample_is_daily (s : series timestamp) :
  is_daily (resample_last_dropna s).
Proof.
  split; [| split].
  - apply last_per_day_ascending, dropna_sort_sorted.
  - apply last_per_day_midnights.
  - apply resample_values_notna.
Qed.

End DailyShapeFacts.

(** X10.  Line 46 leaves a daily series: its labels are midnights of
    strictly ascending calendar days and no value is [nan].  Every entry
    is a value observed on its day, and every day with a value keeps one:
    an observation of that day that is not [nan] and no earlier than any
    other such observation of the day. *)
Theorem resampled_series_is_daily (s : series timestamp) :
  is_daily (resample_last_dropna s)
  /\ (forall t v,
        In (t, v) (resample_last_dropna s) ->
        exists t0, In (t0, v) s /\ day_start t0 = t /\ isna v = false)
  /\ (forall t0 v0,
        In (t0, v0) s -> isna v0 = false ->
        exists t1 v1,
          In (day_start t0, v1) (resample_last_dropna s)
          /\ In (t1, v1) s /\ isna v1 = false
          /\ day_of t1 = day_of t0 /\ (t0 <= t1)%Z).
Proof.
  split; [apply DailyShapeFacts.resample_is_daily |].
  split.
  - intros t v H. unfold resample_last_dropna in H.
    apply ResampleFacts.last_per_day_from in H as [t0 [Hin Hd]].
    apply DailyShapeFacts.in_dropna_sort in Hin as [Hin Hna].
    exists t0. repeat split; assumption.
  - intros t0 v0 Hin Hna.
    assert (Hl : In (t0, v0) (dropna (sort_by_time s)))
      by (apply DailyShapeFacts.in_dropna_sort; split; assumption).
    destruct (ResampleFacts.last_per_day_latest
                (DailyShapeFacts.dropna_sort_sorted s) _ _ Hl)
      as [t1 [v1 [H1 [H2 [H3 H4]]]]].
    apply DailyShapeFacts.in_dropna_sort in H2 as [H2 Hna1].
    exists t1, v1. repeat split; assumption.
Qed.

Lemma resampled_series_is_daily_witness :
  resample_last_dropna Sample2.intraday
  = [(Sample.jan_2, Fin 2); (Sample.jan_3, Fin 3)]
  /\ is_daily (resample_last_dropna Sample2.intraday).
Proof.
  split; [reflexivity |].
  destruct (resampled_series_is_daily Sample2.intraday) as [H _].
  exact H.
Defined.

(** X11.  Resampling a daily series changes nothing, so resampling twice
    is resampling once: the series [get_backtest_result] hands over, one
    value per date, reaches the metrics as it is whenever its dates are
    ascending midnights. *)
Theorem resampling_a_daily_series (s : series timestamp) :
  (is_daily s -> resample_last_dropna s = s)
  /\ resample_last_dropna (resample_last_dropna s)
     = resample_last_dropna s.
Proof.
  split; [apply DailyShapeFacts.resample_daily |].
  apply DailyShapeFacts.resample_daily, DailyShapeFacts.resample_is_daily.
Qed.

Lemma resampling_a_daily_series_witness :
  resample_last_dropna Sample.rising = Sample.rising.
Proof.
  destruct (resampling_a_daily_series Sample.rising) as [H _].
  apply H. split; [| split].
  - split; [reflexivity | split; exact I].
  - constructor; [reflexivity |]. constructor; [reflexivity | constructor].
  - reflexivity.
Defined.

Module OutcomeFacts.

Import FloatFacts SeriesFacts ResampleFacts DailyShapeFacts.
Local Open Scope py_scope.

(** ** When there is a daily value at all *)

Lemma some_value (s : series timestamp) :
  forallb isna (values s) = false ->
  exists t v, In (t, v) s /\ isna v = false.
Proof.
  induction s as [| [t v] r IH]; intros H; [discriminate |].
  cbn [values map snd forallb] in H.
  destruct (isna v) eqn:E.
  - destruct (IH H) as [t' [v' [Hin Hna]]].
    exists t', v'. split; [right; exact Hin | exact Hna].
  - exists t, v. split; [left; reflexivity | exact E].
Qed.

Lemma resample_no_value (s : series timestamp) :
  forallb isna (values s) = true -> resample_last_dropna s = [].
Proof.
  intros H. unfold resample_last_dropna.
  destruct (dropna (sort_by_time s)) as [| [t v] r] eqn:E; [reflexivity |].
  assert (Hin : In (t, v) (dropna (sort_by_time s)))
    by (rewrite E; left; reflexivity).
  apply in_dropna_sort in Hin as [Hin Hna].
  rewrite forallb_forall in H.
  assert (Hv : isna v = true).
  { apply H. unfold values. apply in_map_iff. exists (t, v).
    split; [reflexivity | exact Hin]. }
  congruence.
Qed.

Lemma resample_some_value (s : series timestamp) :
  forallb isna (values s) = false ->
  exists t v r, resample_last_dropna s = (t, v) :: r.
Proof.
  intros H. destruct (some_value _ H) as [t0 [v0 [Hin Hna]]].
  assert (Hl : In (t0, v0) (dropna (sort_by_time s)))
    by (apply in_dropna_sort; split; assumption).
  destruct (last_per_day_latest (dropna_sort_sorted s) _ _ Hl)
    as [t1 [v1 [H1 _]]].
  fold (resample_last_dropna s) in H1.
  destruct (resample_last_dropna s) as [| [t v] r]; [destruct H1 |].
  exists t, v, r. reflexivity.
Qed.

(** ** The series of line 52 starts at a number *)

Lemma length_pct_change (vs : list float) :
  List.length (pct_change vs) = List.length vs.
Proof.
  unfold pct_change. apply length_zip_with.
  symmetry. apply length_shift.
Qed.

Lemma cum_values_cons (v : float) (r : list float) :
  exists tl,
    cumprod (map (fun x => x + Fin 0)%fl
               (fillna (Fin 0) (pct_change (v :: r))))
    = Fin (1 * (0 + 0)) :: tl
    /\ List.length tl = List.length r.
Proof.
  rewrite MetricsFacts.pct_change_cons.
  cbn [fillna map isna fadd]. unfold cumprod. cbn [accumulate isna fmul].
  eexists. split; [reflexivity |].
  rewrite length_accumulate, !length_map.
  unfold zip_with. rewrite length_map, length_combine.
  rewrite PathFacts.length_removelast_cons. apply Nat.min_id.
Qed.

Lemma cum_ret_ser_cons (t : timestamp) (v : float)
    (r : series timestamp) :
  exists tl,
    cum_ret_ser ((t, v) :: r) = (t, Fin (1 * (0 + 0))) :: tl
    /\ index tl = index r.
Proof.
  unfold cum_ret_ser, on_values. cbn [values map snd index fst].
  destruct (cum_values_cons v (map snd r)) as [tl [-> Hlen]].
  cbn [combine]. eexists. split; [reflexivity |].
  rewrite length_map in Hlen.
  unfold index. clear - Hlen. revert tl Hlen.
  induction r as [| [t' v'] r IH]; intros [| a tl] Hlen;
    simpl in Hlen; try discriminate; [reflexivity |].
  simpl. f_equal. apply IH. lia.
Qed.

(** ** [idxmax] returns a label of the series *)

Lemma idxmax_fold_in {I : Type} (r : series I) :
  forall best : I * float,
    In (fst (fold_left
               (fun best p =>
                  if fgt (nan_to_ninf (snd p)) (snd best)
                  then (fst p, nan_to_ninf (snd p)) else best)
               r best))
       (fst best :: index r).
Proof.
  induction r as [| p r IH]; intros best; [left; reflexivity |].
  cbn [fold_left].
  match goal with
  | |- In (fst (fold_left _ _ ?b)) _ => specialize (IH b)
  end.
  destruct (fgt (nan_to_ninf (snd p)) (snd best)).
  - right. exact IH.
  - destruct IH as [IH | IH]; [left; exact IH | right; right; exact IH].
Qed.

Lemma idxmax_some {I : Type} (s : series I) :
  forallb isna (values s) = false ->
  exists i, idxmax s = Ok i /\ In i (index s).
Proof.
  intros H. unfold idxmax. rewrite H.
  destruct s as [| [i v] r]; [discriminate |].
  eexists. split; [reflexivity |].
  exact (idxmax_fold_in r (i, nan_to_ninf v)).
Qed.

(** ** Dates *)

Lemma ascending_first (t : timestamp) (ts : list timestamp) :
  ascending_days (t :: ts) ->
  forall t', In t' (t :: ts) -> (day_of t <= day_of t')%Z.
Proof.
  intros H t' [<- | Hin]; [lia |].
  pose proof (@ascending_head t ts H) as Hall.
  rewrite Forall_forall in Hall. specialize (Hall _ Hin). lia.
Qed.

Lemma midnight_le (a b : timestamp) :
  day_start a = a -> day_start b = b ->
  (day_of a <= day_of b)%Z -> (a <= b)%Z.
Proof.
  intros Ha Hb H. rewrite <- Ha, <- Hb. unfold day_start.
  apply Z.mul_le_mono_nonneg_r; [unfold ns_per_day; lia | exact H].
Qed.

Lemma length_drawdowns (c : list float) :
  List.length (drawdowns c) = List.length c.
Proof.
  assert (H : List.length (maximum_accumulate c) = List.length c).
  { destruct c as [| v r]; [reflexivity |]. simpl. f_equal.
    generalize v. induction r as [| w r IH]; intros a; [reflexivity |].
    simpl. f_equal. apply IH. }
  unfold drawdowns.
  rewrite length_zip_with; rewrite length_zip_with; congruence.
Qed.

(** Lines 46 to 78 on a series with a value. *)
Lemma compute_metrics_some (ser : series timestamp) :
  forallb isna (values ser) = false ->
  exists m,
    compute_metrics ser = Ok m
    /\ In (drawdown_start m) (index (resample_last_dropna ser))
    /\ In (drawdown_end m) (index (resample_last_dropna ser))
    /\ (drawdown_start m <= drawdown_end m)%Z.
Proof.
  intros H. unfold compute_metrics.
  pose proof (resample_is_daily ser) as [Hasc [Hmid _]].
  destruct (resample_some_value _ H) as [t0 [v0 [r Hpv]]].
  rewrite Hpv in *.
  destruct (cum_ret_ser_cons t0 v0 r) as [tl [Hcum Hidx]].
  rewrite Hcum.
  assert (Hci : index ((t0, Fin (1 * (0 + 0))) :: tl)
                = index ((t0, v0) :: r)).
  { cbn [index map fst]. f_equal. exact Hidx. }
  set (cum := (t0, Fin (1 * (0 + 0))) :: tl) in *.
  (* iloc[-1] *)
  assert (Hlast : exists x, iloc_last (values cum) = Ok x).
  { unfold cum. cbn [values map snd iloc_last]. eexists. reflexivity. }
  destruct Hlast as [x ->]. cbn [bind].
  (* max *)
  assert (Hmax : exists d, py_max (drawdowns (values cum)) = Ok d).
  { pose proof (length_drawdowns (values cum)) as Hl.
    destruct (drawdowns (values cum)) as [| d ds]; [discriminate Hl |].
    eexists. reflexivity. }
  destruct Hmax as [d ->]. cbn [bind].
  (* the end of the drawdown *)
  set (gap := on_values (fun c => zip_with fsub (expanding_max c) c) cum).
  assert (Hgap : forallb isna (values gap) = false).
  { unfold gap, on_values, cum.
    cbn [values index map fst snd expanding_max expanding_max_from isna
         zip_with combine fsub fneg fadd forallb andb].
    unfold expanding_max. cbn [expanding_max_from isna].
    unfold zip_with. cbn [combine map fst snd fsub fneg fadd isna forallb].
    reflexivity. }
  destruct (idxmax_some _ Hgap) as [e [-> He]]. cbn [bind].
  assert (Hgi : index gap = index cum).
  { unfold gap. apply index_on_values.
    unfold zip_with. rewrite length_map, length_combine.
    assert (Hx : forall a c, List.length (expanding_max_from a c)
                             = List.length c).
    { intros a c. revert a. induction c as [| w c IH]; intros a;
        [reflexivity |].
      simpl. f_equal. apply IH. }
    unfold expanding_max. rewrite Hx, Nat.min_id. apply length_values. }
  rewrite Hgi, Hci in He.
  (* the start *)
  assert (Hupto : forallb isna (values (loc_upto e cum)) = false).
  { unfold loc_upto, cum. cbn [filter fst].
    pose proof (@ascending_first t0 (index r) Hasc e He) as Hle.
    apply Z.leb_le in Hle. rewrite Hle. reflexivity. }
  destruct (idxmax_some _ Hupto) as [s [-> Hs]]. cbn [bind].
  eexists. split; [reflexivity |].
  cbn [drawdown_start drawdown_end].
  unfold loc_upto, index in Hs. apply in_map_iff in Hs as [p [<- Hp]].
  apply filter_In in Hp as [Hp Hday]. apply Z.leb_le in Hday.
  assert (Hps : In (fst p) (index ((t0, v0) :: r))).
  { rewrite <- Hci. unfold index. apply in_map. exact Hp. }
  split; [exact Hps |]. split; [exact He |].
  rewrite Forall_forall in Hmid.
  apply midnight_le; [apply Hmid; exact Hps | apply Hmid; exact He |].
  exact Hday.
Qed.

Lemma compute_metrics_none (ser : series timestamp) :
  forallb isna (values ser) = true ->
  compute_metrics ser = Raise IndexError.
Proof.
  intros H. unfold compute_metrics.
  rewrite (resample_no_value _ H). reflexivity.
Qed.

End OutcomeFacts.

(** X12.  Once the index has been converted, a call of
    [get_backtest_info] has two outcomes.  On a series without any value
    that is not [nan] (the empty series among them) it raises the
    [IndexError] of [cum_ret_ser.iloc[-1]]; on any other series it
    returns a report: one value that is not [nan] is enough, whatever the
    other values are. *)
Theorem get_backtest_info_outcome {L : Library} (ser : series label)
    (ts : list timestamp) :
  to_datetime_index (index ser) = Ok ts ->
  (forallb isna (values ser) = true ->
   snd (get_backtest_info ser) = Raise IndexError)
  /\ (forallb isna (values ser) = false ->
      exists m,
        compute_metrics (combine ts (values ser)) = Ok m
        /\ snd (get_backtest_info ser) = Ok (format_report m)).
Proof.
  intros Hts.
  rewrite (InfoFacts.get_backtest_info_converted _ Hts). cbn [snd].
  assert (Hv : values (combine ts (values ser)) = values ser).
  { apply SeriesFacts.values_combine.
    rewrite (InfoFacts.to_datetime_index_length _ Hts).
    rewrite SeriesFacts.length_index, SeriesFacts.length_values.
    reflexivity. }
  split; intros H.
  - rewrite OutcomeFacts.compute_metrics_none; [reflexivity |].
    rewrite Hv. exact H.
  - rewrite <- Hv in H.
    destruct (OutcomeFacts.compute_metrics_some _ H) as [m [Hm _]].
    exists m. rewrite Hm. split; reflexivity.
Qed.

Lemma get_backtest_info_outcome_witness :
  snd (get_backtest_info (L := Reference.iso_library)
         [(LStr "2024-01-02", NaN); (LStr "2024-01-03", NaN)])
  = Raise IndexError
  /\ exists m,
       compute_metrics
         (combine [Sample.jan_2; Sample.jan_3] (values Sample.rising_text))
       = Ok m
       /\ snd (get_backtest_info (L := Reference.iso_library)
                 Sample.rising_text)
          = Ok (format_report (L := Reference.iso_library) m).
Proof.
  split.
  - destruct (@get_backtest_info_outcome Reference.iso_library
                [(LStr "2024-01-02", NaN); (LStr "2024-01-03", NaN)]
                [Sample.jan_2; Sample.jan_3] eq_refl) as [H _].
    apply H. reflexivity.
  - destruct (@get_backtest_info_outcome Reference.iso_library
                Sample.rising_text [Sample.jan_2; Sample.jan_3] eq_refl)
      as [_ H].
    apply H. reflexivity.
Defined.

(** X13.  Whenever lines 46 to 78 go through, the two drawdown dates are
    days of the daily series, and the start is not after the end: the
    start is looked up in [cum_ret_ser.loc[:end]]. *)
Theorem drawdown_dates_are_ordered (ser : series timestamp) (m : metrics) :
  compute_metrics ser = Ok m ->
  In (drawdown_start m) (index (resample_last_dropna ser))
  /\ In (drawdown_end m) (index (resample_last_dropna ser))
  /\ (drawdown_start m <= drawdown_end m)%Z.
Proof.
  intros Hm.
  destruct (forallb isna (values ser)) eqn:E.
  - rewrite (OutcomeFacts.compute_metrics_none _ E) in Hm. discriminate.
  - destruct (OutcomeFacts.compute_metrics_some _ E) as [m' [Hm' H]].
    rewrite Hm in Hm'. injection Hm' as <-. exact H.
Qed.

Lemma drawdown_dates_are_ordered_witness :
  exists m,
    compute_metrics Sample2.intraday = Ok m
    /\ In (drawdown_start m) [Sample.jan_2; Sample.jan_3]
    /\ In (drawdown_end m) [Sample.jan_2; Sample.jan_3]
    /\ (drawdown_start m <= drawdown_end m)%Z.
Proof.
  destruct (OutcomeFacts.compute_metrics_some Sample2.intraday eq_refl)
    as [m [Hm _]].
  exists m. split; [exact Hm |].
  exact (drawdown_dates_are_ordered Sample2.intraday Hm).
Defined.

Module PositiveFacts.

Import FloatFacts SeriesFacts ResampleFacts DailyShapeFacts.
Local Open Scope py_scope.

Lemma positive_notna (a : float) : is_positive a -> isna a = false.
Proof. destruct a; simpl; intros H; try contradiction; reflexivity. Qed.

Lemma resample_positive (s : series timestamp) :
  Forall is_positive (values s) ->
  Forall is_positive (values (resample_last_dropna s)).
Proof.
  intros H. rewrite Forall_forall in *. intros v Hv.
  unfold values in Hv. apply in_map_iff in Hv as [[t v'] [<- Hin]].
  cbn [snd]. unfold resample_last_dropna in Hin.
  apply last_per_day_from in Hin as [t0 [Hin _]].
  apply in_dropna_sort in Hin as [Hin _].
  apply H. unfold values. apply in_map_iff.
  exists (t0, v'). split; [reflexivity | exact Hin].
Qed.

(** The first day of the daily series is the day of the earliest
    observation. *)
Lemma resample_first_day (s : series timestamp) :
  s <> [] ->
  Forall is_positive (values s) ->
  exists t0 v r,
    resample_last_dropna s = (day_start t0, v) :: r
    /\ In t0 (index s)
    /\ forall t, In t (index s) -> (t0 <= t)%Z.
Proof.
  intros Hne Hpos.
  assert (Hall : forall t v, In (t, v) s ->
                             In (t, v) (dropna (sort_by_time s))).
  { intros t v Hin. apply in_dropna_sort. split; [exact Hin |].
    apply positive_notna. rewrite Forall_forall in Hpos. apply Hpos.
    unfold values. apply in_map_iff. exists (t, v).
    split; [reflexivity | exact Hin]. }
  pose proof (dropna_sort_sorted s) as Hsorted.
  unfold resample_last_dropna.
  destruct (dropna (sort_by_time s)) as [| [a va] l] eqn:E.
  - destruct s as [| [t v] s']; [contradiction |].
    destruct (Hall t v (or_introl eq_refl)).
  - destruct (last_per_day_head a va l) as [v' [r' Hhead]].
    exists a, v', r'. split; [exact Hhead |].
    assert (Ha : In (a, va) s).
    { assert (Hin : In (a, va) (dropna (sort_by_time s)))
        by (rewrite E; left; reflexivity).
      apply in_dropna_sort in Hin as [Hin _]. exact Hin. }
    split.
    + unfold index. apply in_map_iff. exists (a, va).
      split; [reflexivity | exact Ha].
    + intros t Ht. unfold index in Ht.
      apply in_map_iff in Ht as [[t' v] [<- Hin]]. cbn [fst].
      specialize (Hall _ _ Hin).
      inversion Hsorted as [| ? ? _ Hle]; subst.
      destruct Hall as [Heq | Hin'].
      * injection Heq as <- _. lia.
      * rewrite Forall_forall in Hle. exact (Hle _ Hin').
Qed.

End PositiveFacts.

(** X14.  On a series of positive values, however they move, line 52
    brings the running product to 0 at the first day and it stays
    there.  The report then shows a total and an annualized return of
    [-1], a maximum drawdown and a Calmar ratio of [nan], and the day of
    the earliest observation as both drawdown dates. *)
Theorem report_of_positive_values {L : Library} (ser : series label)
    (ts : list timestamp) :
  to_datetime_index (index ser) = Ok ts ->
  ser <> [] ->
  Forall is_positive (values ser) ->
  exists report t0,
    snd (get_backtest_info ser) = Ok report
    /\ In t0 ts
    /\ (forall t, In t ts -> (t0 <= t)%Z)
    /\ Total_Return report = percent (Fin (-1))
    /\ Annualized_Return report = percent (Fin (-1))
    /\ Maximum_Drawdown report = percent NaN
    /\ Calmar_Ratio report = format_2f NaN
    /\ Maximum_Drawdown_Start_Date report = strftime_ymd (day_start t0)
    /\ Maximum_Drawdown_End_Date report = strftime_ymd (day_start t0).
Proof.
  intros Hts Hne Hpos.
  rewrite (InfoFacts.get_backtest_info_converted _ Hts). cbn [snd].
  assert (Hlen : List.length ts = List.length (values ser)).
  { rewrite (InfoFacts.to_datetime_index_length _ Hts).
    rewrite SeriesFacts.length_index, SeriesFacts.length_values.
    reflexivity. }
  set (s := combine ts (values ser)).
  assert (Hv : values s = values ser)
    by (apply SeriesFacts.values_combine; exact Hlen).
  assert (Hi : index s = ts)
    by (apply SeriesFacts.index_combine; exact Hlen).
  assert (Hs : s <> []).
  { intros E. rewrite E in Hv. destruct ser; [contradiction | discriminate]. }
  rewrite <- Hv in Hpos.
  destruct (PositiveFacts.resample_first_day Hs Hpos)
    as [t0 [v0 [r [Hres [Hin Hmin]]]]].
  destruct (MetricsFacts.compute_metrics_positive s Hres
              (@PositiveFacts.resample_positive s Hpos))
    as [m [Hm [H1 [H2 [H3 [H4 [H5 H6]]]]]]].
  exists (format_report m), t0.
  rewrite Hm. rewrite Hi in Hin, Hmin.
  split; [reflexivity |].
  split; [exact Hin |]. split; [exact Hmin |].
  cbn [format_report Total_Return Annualized_Return Maximum_Drawdown
       Calmar_Ratio Maximum_Drawdown_Start_Date Maximum_Drawdown_End_Date].
  rewrite H1, H2, H3, H4, H5, H6. repeat split; reflexivity.
Qed.

Lemma report_of_positive_values_witness :
  exists report,
    snd (get_backtest_info (L := Reference.iso_library)
           [(LStr "2024-01-03", Fin 3); (LStr "2024-01-02", Fin 5)])
    = Ok report
    /\ Total_Return report = "-100.00%"%string
    /\ Maximum_Drawdown_Start_Date report = "2024-01-02"%string.
Proof.
  destruct (@report_of_positive_values Reference.iso_library
              [(LStr "2024-01-03", Fin 3); (LStr "2024-01-02", Fin 5)]
              [Sample.jan_3; Sample.jan_2] eq_refl)
    as [report [t0 [Hr [Hin [Hmin [Ht [_ [_ [_ [Hs _]]]]]]]]]].
  - discriminate.
  - constructor; [simpl; lra |]. constructor; [simpl; lra | constructor].
  - exists report. split; [exact Hr |]. split.
    + rewrite Ht. apply RisingFacts.percent_minus_one.
    + rewrite Hs.
      assert (E : t0 = Sample.jan_2).
      { destruct Hin as [<- | [<- | []]]; [| reflexivity].
        specialize (Hmin Sample.jan_2 (or_intror (or_introl eq_refl))).
        vm_compute in Hmin. exfalso. apply Hmin. reflexivity. }
      rewrite E. reflexivity.
Defined.

Module FrameFacts.

Import SeriesFacts.
Local Open Scope py_scope.

(** ** [df[name] = s] *)

Lemma set_column_names (name : string) (col : list float)
    (cols : list (string * list float)) (n : string) :
  In n (map fst (set_column name col cols))
  <-> In n (map fst cols) \/ n = name.
Proof.
  induction cols as [| [m c] r IH]; simpl.
  - split; [intros [<- | []]; right; reflexivity
           | intros [[] | ->]; left; reflexivity].
  - destruct (String.eqb_spec m name) as [-> | Hne]; simpl.
    + split; [intros [<- | H]; [left; left; reflexivity | left; right; exact H]
             | intros [[<- | H] | ->];
               [left; reflexivity | right; exact H | left; reflexivity]].
    + rewrite IH. tauto.
Qed.

Lemma set_column_lengths (name : string) (col : list float)
    (cols : list (string * list float)) (k : nat) :
  List.length col = k ->
  Forall (fun c => List.length (snd c) = k) cols ->
  Forall (fun c => List.length (snd c) = k) (set_column name col cols).
Proof.
  intros Hc H. induction H as [| [m c] r Hm Hr IH]; simpl.
  - constructor; [exact Hc | constructor].
  - destruct (String.eqb m name).
    + constructor; [exact Hc | exact Hr].
    + constructor; [exact Hm | exact IH].
Qed.

Lemma index_equals_length (a b : list timestamp) :
  index_equals a b = true -> List.length a = List.length b.
Proof.
  unfold index_equals. intros H. apply andb_prop in H as [H _].
  apply Nat.eqb_eq. exact H.
Qed.

Section SetItem.

Variables (df df' : frame) (name : string) (s : series timestamp).
Hypothesis Hset : setitem df name s = Ok df'.

Lemma setitem_names (n : string) :
  In n (column_names df') <-> In n (column_names df) \/ n = name.
Proof.
  unfold setitem in Hset.
  match type of Hset with
  | bind ?c _ = _ => destruct c as [col |]; [| discriminate]
  end.
  cbn [bind] in Hset. injection Hset as <-.
  unfold column_names. cbn [frame_columns].
  rewrite set_column_names.
  destruct (frame_index df), s; cbn [frame_columns];
    rewrite ?map_map; cbn [fst]; reflexivity.
Qed.

Lemma setitem_index :
  frame_index df'
  = match frame_index df with [] => index s | _ :: _ => frame_index df end.
Proof.
  unfold setitem in Hset.
  match type of Hset with
  | bind ?c _ = _ => destruct c as [col |]; [| discriminate]
  end.
  cbn [bind] in Hset. injection Hset as <-. cbn [frame_index].
  destruct (frame_index df) eqn:E, s; cbn [frame_index];
    rewrite ?E; reflexivity.
Qed.

Lemma setitem_rectangular : rectangular df -> rectangular df'.
Proof.
  intros Hrect. unfold setitem in Hset.
  set (df1 := match frame_index df, s with
              | [], _ :: _ =>
                  {| frame_index := index s;
                     frame_columns :=
                       map (fun c => (fst c, map (fun _ => NaN) s))
                           (frame_columns df) |}
              | _, _ => df
              end) in *.
  assert (Hrect1 : rectangular df1).
  { unfold df1. destruct (frame_index df), s; try exact Hrect.
    unfold rectangular. cbn [frame_index frame_columns].
    apply Forall_forall. intros c Hc.
    apply in_map_iff in Hc as [c0 [<- _]]. cbn [snd].
    rewrite length_map, length_index. reflexivity. }
  assert (Hcol : forall col,
             (if index_equals (index s) (frame_index df1) then Ok (values s)
              else match frame_index df1 with
                   | [] => Ok (values s)
                   | _ :: _ =>
                       if is_unique (index s)
                       then Ok (reindex (frame_index df1) s)
                       else Raise ValueError
                   end) = Ok col ->
             List.length col = List.length (frame_index df1)).
  { intros col Hc.
    destruct (index_equals (index s) (frame_index df1)) eqn:E.
    - injection Hc as <-. apply index_equals_length in E.
      rewrite length_values, <- E, length_index. reflexivity.
    - destruct (frame_index df1) as [| t r] eqn:Ei.
      + exfalso.
        assert (Hs : s = []).
        { destruct s as [| p s']; [reflexivity |]. exfalso.
          unfold df1 in Ei. revert Ei.
          destruct (frame_index df) eqn:Ef; intros Ei.
          - cbn [frame_index index map] in Ei. discriminate.
          - congruence. }
        rewrite Hs in E. discriminate.
      + destruct (is_unique (index s)); [| discriminate].
        injection Hc as <-. unfold reindex.
        exact (length_map (fun t => lookup t s) (t :: r)). }
  match type of Hset with
  | bind ?c _ = _ => destruct c as [col |] eqn:Ec; [| discriminate]
  end.
  cbn [bind] in Hset. injection Hset as <-.
  unfold rectangular. cbn [frame_index frame_columns].
  apply set_column_lengths; [exact (Hcol col eq_refl) | exact Hrect1].
Qed.

End SetItem.

End FrameFacts.

Module SuccessFacts.

Import SeriesFacts ColumnFacts InfoFacts RunFacts FrameFacts.
Local Open Scope py_scope.

(** A frame that is priced has no row of an unknown kind. *)
Lemma price_column_priced (df : list prepared_row) (price : list float) :
  price_column df = Ok price -> Forall kind_known df.
Proof.
  intros H.
  destruct (Forall_dec kind_known RejectFacts.kind_known_dec df)
    as [Hk | Hn]; [exact Hk |].
  destruct (RejectFacts.first_unknown Hn) as [pre [r [post [-> [Hpre Hr]]]]].
  rewrite (RejectFacts.price_column_rejects post Hpre Hr) in H.
  discriminate.
Qed.

Section WithLibrary.

Context {L : Library}.

Variables (sigma : list string) (thres : list float) (commission : float).

(** What a pass of the loop that goes through has done. *)
Lemma run_variant_ok (df : list prepared_row) (s : string)
    (acc acc' : tables) :
  run_variant sigma thres commission (Ok (df, s)) acc = Ok acc' ->
  exists pnl ts res,
    df <> []
    /\ value_path sigma thres commission df s = Ok pnl
    /\ to_datetime_index (map LStr (index pnl)) = Ok ts
    /\ ts <> []
    /\ setitem (pnl_df acc) s (combine ts (values pnl)) = Ok (pnl_df acc')
    /\ result_df acc' = result_df acc ++ [(s, res)].
Proof.
  unfold run_variant. intros H. cbn [bind] in H.
  destruct (value_path sigma thres commission df s) as [pnl |] eqn:Hpnl;
    [| discriminate].
  cbn [bind] in H.
  destruct (to_datetime_index (map LStr (index pnl))) as [ts |] eqn:Hts;
    [| discriminate].
  cbn [bind] in H.
  destruct (setitem (pnl_df acc) s (combine ts (values pnl)))
    as [f |] eqn:Hset; [| discriminate].
  cbn [bind] in H.
  destruct (snd (get_backtest_info (combine (map LTs ts) (values pnl))))
    as [res |] eqn:Hres; [| discriminate].
  cbn [bind] in H. injection H as <-.
  assert (Hne : ts <> []).
  { intros E. rewrite E in Hres. cbn [map combine] in Hres.
    rewrite get_backtest_info_empty in Hres. discriminate. }
  exists pnl, ts, res. cbn [pnl_df result_df].
  repeat split; try reflexivity; try assumption.
  intros E. rewrite E in Hpnl. rewrite value_path_empty in Hpnl.
  injection Hpnl as <-. cbn [index map to_datetime_index] in Hts.
  injection Hts as <-. apply Hne. reflexivity.
Qed.

(** A frame with rows is only priced and signalled with every kind known
    and a threshold at hand. *)
Lemma value_path_reads_threshold (df : list prepared_row) (s : string)
    (pnl : series string) :
  df <> [] ->
  value_path sigma thres commission df s = Ok pnl ->
  Forall kind_known df /\ exists th, threshold sigma thres s = Ok th.
Proof.
  intros Hne H. unfold value_path in H.
  destruct (price_column df) as [price |] eqn:Hp; [| discriminate].
  cbn [bind] in H.
  pose proof (price_column_priced _ Hp) as Hk.
  split; [exact Hk |].
  destruct (threshold sigma thres s) as [th | e] eqn:Hth;
    [exists th; reflexivity |].
  pose proof (ColumnFacts.length_price_column _ Hp) as Hlen.
  rewrite (@signal_column_raises sigma thres s df price e Hth Hne Hlen) in H.
  discriminate.
Qed.

(** The loop over the yielded frames [frames], from the tables [acc]. *)
Lemma run_loop (frames : list (list prepared_row * string)) :
  forall acc t,
    for_each (run_variant sigma thres commission) (map Ok frames) acc
    = Ok t ->
    map fst (result_df t) = map fst (result_df acc) ++ map snd frames
    /\ Forall (fun item =>
                 fst item <> []
                 /\ Forall kind_known (fst item)
                 /\ exists th, threshold sigma thres (snd item) = Ok th)
              frames
    /\ (forall n, In n (column_names (pnl_df t))
                  <-> In n (column_names (pnl_df acc))
                      \/ In n (map snd frames))
    /\ (rectangular (pnl_df acc) -> rectangular (pnl_df t))
    /\ (frame_index (pnl_df acc) <> [] ->
        frame_index (pnl_df t) = frame_index (pnl_df acc)).
Proof.
  induction frames as [| [df s] frames IH]; intros acc t H.
  - cbn [map for_each] in H. injection H as <-.
    rewrite app_nil_r. repeat split; try tauto.
    + constructor.
    + intros [H | []]; exact H.
  - cbn [map for_each] in H.
    destruct (run_variant sigma thres commission (Ok (df, s)) acc)
      as [acc' |] eqn:Hstep; [| discriminate].
    cbn [bind] in H.
    destruct (run_variant_ok _ _ _ Hstep)
      as [pnl [ts [res [Hne [Hpnl [Hts [Htsne [Hset Hres]]]]]]]].
    destruct (IH _ _ H) as [Hnames [Hall [Hcols [Hrect Hidx]]]].
    split; [| split; [| split; [| split]]].
    + rewrite Hnames, Hres, map_app, <- app_assoc. reflexivity.
    + constructor; [| exact Hall]. cbn [fst snd].
      split; [exact Hne |].
      exact (@value_path_reads_threshold df s pnl Hne Hpnl).
    + intros n. rewrite Hcols, (@setitem_names _ _ _ _ Hset n). simpl.
      split; [intros [[H1 | ->] | H1] | intros [H1 | [-> | H1]]]; auto.
    + intros Hr. apply Hrect. exact (@setitem_rectangular _ _ _ _ Hset Hr).
    + intros Hi. pose proof (@setitem_index _ _ _ _ Hset) as Hsi.
      destruct (frame_index (pnl_df acc)) as [| a l] eqn:E; [congruence |].
      rewrite Hidx; rewrite Hsi; [reflexivity | discriminate].
Qed.

End WithLibrary.

End SuccessFacts.

Module SampleRun.

(** The loop goes through on one frame of one quote. *)
Lemma one_quote_run :
  exists report,
    for_each
      (run_variant (L := Reference.iso_library) ["iv"%string]
         [Fin 0.1; Fin 0.2] (Fin 0.001))
      [Ok ([Sample.one_prepared], "iv"%string)]
      {| result_df := []; pnl_df := empty_frame |}
    = Ok {| result_df := [("iv"%string, report)];
            pnl_df := {| frame_index := [Sample.jan_2];
                         frame_columns := [("iv"%string, [Fin 1])] |} |}.
Proof.
  destruct MismatchFacts.single_day_positive as [Hres Hpos].
  destruct (MetricsFacts.compute_metrics_positive _ Hres Hpos)
    as [m [Hm _]].
  exists (format_report (L := Reference.iso_library) m).
  cbn [for_each]. unfold run_variant. cbn [bind].
  rewrite MismatchFacts.one_quote_value_path. cbn [bind].
  assert (Hts : to_datetime_index (L := Reference.iso_library)
                  (map LStr (index [("2024-01-02"%string, Fin 1)]))
                = Ok [Sample.jan_2]) by reflexivity.
  rewrite Hts. cbn [bind values map snd combine].
  assert (Hset : setitem empty_frame "iv" [(Sample.jan_2, Fin 1)]
                 = Ok {| frame_index := [Sample.jan_2];
                         frame_columns := [("iv"%string, [Fin 1])] |})
    by reflexivity.
  cbn [pnl_df]. rewrite Hset. cbn [bind].
  assert (Hts' : to_datetime_index (L := Reference.iso_library)
                   (index [(LTs Sample.jan_2, Fin 1)])
                 = Ok [Sample.jan_2]) by reflexivity.
  rewrite (InfoFacts.get_backtest_info_converted _ Hts'). cbn [snd].
  cbn [values map snd combine]. rewrite Hm. reflexivity.
Qed.

End SampleRun.

(** X15.  Whenever the loop of [get_backtest_result] (lines 27 to 53)
    goes through the frames a generator yields, the result table has one
    report per frame, under the names and in the order of the yields,
    the value table has a column for exactly these names, and every
    frame had at least one row, no row of an unknown kind and a threshold
    at [thres[sigma.index(s)]].  An empty frame never lets the loop go
    through. *)
Theorem the_loop_covers_every_frame {L : Library}
    (sigma : list string) (thres : list float) (commission : float)
    (frames : list (list prepared_row * string)) (t : tables) :
  for_each (run_variant sigma thres commission) (map Ok frames)
    {| result_df := []; pnl_df := empty_frame |} = Ok t ->
  map fst (result_df t) = map snd frames
  /\ (forall n, In n (column_names (pnl_df t)) <-> In n (map snd frames))
  /\ (forall df s, In (df, s) frames ->
        df <> []
        /\ Forall kind_known df
        /\ exists th, threshold sigma thres s = Ok th).
Proof.
  intros H.
  destruct (SuccessFacts.run_loop _ _ _ _ _ H)
    as [Hnames [Hall [Hcols _]]].
  cbn [result_df pnl_df map app] in Hnames.
  split; [exact Hnames |]. split.
  - intros n. rewrite Hcols. cbn [pnl_df empty_frame column_names
                                    frame_columns map].
    split; [intros [[] | Hn]; exact Hn | intros Hn; right; exact Hn].
  - intros df s Hin. rewrite Forall_forall in Hall.
    exact (Hall (df, s) Hin).
Qed.

Lemma the_loop_covers_every_frame_witness :
  exists t,
    for_each
      (run_variant (L := Reference.iso_library) ["iv"%string]
         [Fin 0.1; Fin 0.2] (Fin 0.001))
      (map Ok [([Sample.one_prepared], "iv"%string)])
      {| result_df := []; pnl_df := empty_frame |} = Ok t
    /\ map fst (result_df t) = ["iv"%string].
Proof.
  destruct SampleRun.one_quote_run as [report Hrun].
  eexists. split; [exact Hrun |].
  destruct (@the_loop_covers_every_frame Reference.iso_library
              _ _ _ [([Sample.one_prepared], "iv"%string)] _ Hrun)
    as [H _].
  exact H.
Defined.

(** X16.  The value table the loop builds is rectangular: every column
    is as long as the index.  The index is that of the first frame's
    series, its dates as timestamps; the series of the later frames are
    aligned on it. *)
Theorem value_table_of_the_loop {L : Library}
    (sigma : list string) (thres : list float) (commission : float)
    (frames : list (list prepared_row * string)) (t : tables) :
  for_each (run_variant sigma thres commission) (map Ok frames)
    {| result_df := []; pnl_df := empty_frame |} = Ok t ->
  rectangular (pnl_df t)
  /\ forall df s rest,
       frames = (df, s) :: rest ->
       exists pnl ts,
         value_path sigma thres commission df s = Ok pnl
         /\ to_datetime_index (map LStr (index pnl)) = Ok ts
         /\ frame_index (pnl_df t) = ts.
Proof.
  intros H. split.
  - destruct (SuccessFacts.run_loop _ _ _ _ _ H)
      as [_ [_ [_ [Hrect _]]]].
    apply Hrect. constructor.
  - intros df s rest Hs. subst frames.
    cbn [map for_each] in H.
    destruct (run_variant sigma thres commission (Ok (df, s)) _)
      as [acc' |] eqn:Hstep; [| discriminate].
    cbn [bind] in H.
    destruct (@SuccessFacts.run_variant_ok _ _ _ _ _ _ _ _ Hstep)
      as [pnl [ts [res [Hne [Hpnl [Hts [Htsne [Hset _]]]]]]]].
    exists pnl, ts. repeat split; try assumption.
    pose proof (@FrameFacts.setitem_index _ _ _ _ Hset) as Hsi.
    cbn [pnl_df empty_frame frame_index] in Hsi.
    assert (Hi : index (combine ts (values pnl)) = ts).
    { apply SeriesFacts.index_combine.
      rewrite (InfoFacts.to_datetime_index_length _ Hts).
      rewrite length_map, SeriesFacts.length_index,
        SeriesFacts.length_values.
      reflexivity. }
    rewrite Hi in Hsi.
    destruct (SuccessFacts.run_loop _ _ _ _ _ H)
      as [_ [_ [_ [_ Hidx]]]].
    rewrite Hidx; rewrite Hsi; [reflexivity | exact Htsne].
Qed.

Lemma value_table_of_the_loop_witness :
  exists t,
    for_each
      (run_variant (L := Reference.iso_library) ["iv"%string]
         [Fin 0.1; Fin 0.2] (Fin 0.001))
      (map Ok [([Sample.one_prepared], "iv"%string)])
      {| result_df := []; pnl_df := empty_frame |} = Ok t
    /\ rectangular (pnl_df t).
Proof.
  destruct SampleRun.one_quote_run as [report Hrun].
  eexists. split; [exact Hrun |].
  destruct (@value_table_of_the_loop Reference.iso_library
              _ _ _ [([Sample.one_prepared], "iv"%string)] _ Hrun)
    as [H _].
  exact H.
Defined.

(* ================================================================== *)
(** * More on the pricer *)
(* ================================================================== *)

Module DomainFacts.

Import FloatFacts MissingFacts.
Local Open Scope R_scope.

(** Once [d1] is [nan], so is the price of either kind. *)
Lemma bsm_option_price_nan_d1 (option_type : Z) (S0 K T sigma rf : float) :
  option_type = 0%Z \/ option_type = 1%Z ->
  ((np_log (S0 / K) + (rf + Fin 0.5 * sigma ** Fin 2) * T)
   / (sigma * np_sqrt T))%fl = NaN ->
  bsm_option_price option_type S0 K T sigma rf = Ok NaN.
Proof.
  intros Hk H. unfold bsm_option_price. rewrite H.
  destruct Hk as [-> | ->]; cbn [Z.eqb Pos.eqb]; f_equal.
  - cbn [Normal.norm_cdf]. rewrite fmul_nan_r. reflexivity.
  - cbn [fsub fadd fneg Normal.norm_cdf]. rewrite fmul_nan_r. reflexivity.
Qed.

Lemma np_sqrt_negative (t : R) : t < 0 -> np_sqrt (Fin t) = NaN.
Proof. intros H. unfold np_sqrt. rewrite Rltb_true by exact H. reflexivity. Qed.

Lemma np_log_negative_ratio (s k : R) :
  s * k < 0 -> np_log (Fin s / Fin k)%fl = NaN.
Proof.
  intros H.
  assert (Hk : k <> 0) by (intros ->; lra).
  rewrite fdiv_fin by exact Hk.
  assert (Hneg : s / k < 0).
  { unfold Rdiv.
    replace (s * / k) with (s * k * (/ k * / k)) by (field; exact Hk).
    assert (0 < / k * / k).
    { destruct (Rtotal_order k 0) as [Hlt | [Heq | Hgt]]; [| contradiction |].
      - apply Rinv_lt_0_compat in Hlt. nra.
      - apply Rinv_0_lt_compat in Hgt. nra. }
    nra. }
  unfold np_log. rewrite (sgn_neg Hneg). reflexivity.
Qed.

Lemma d1_scales (lam S0 K T sigma r : R) :
  0 < lam -> 0 < K ->
  Spec.d1 (lam * S0) (lam * K) T sigma r = Spec.d1 S0 K T sigma r.
Proof.
  intros Hl HK. unfold Spec.d1.
  replace (lam * S0 / (lam * K)) with (S0 / K) by (field; lra).
  reflexivity.
Qed.

End DomainFacts.

(** X17.  The price is homogeneous in the underlying and the strike: for
    strictly positive inputs, multiplying [S0] and [K] by the same
    positive factor multiplies the price of a call and of a put by that
    factor. *)
Theorem bsm_option_price_scales (option_type : Z)
    (lam S0 K T sigma r : R) :
  option_type = 0%Z \/ option_type = 1%Z ->
  (0 < lam)%R -> (0 < S0)%R -> (0 < K)%R -> (0 < T)%R -> (0 < sigma)%R ->
  exists p : R,
    bsm_option_price option_type (Fin S0) (Fin K) (Fin T) (Fin sigma)
      (Fin r) = Ok (Fin p)
    /\ bsm_option_price option_type (Fin (lam * S0)) (Fin (lam * K))
         (Fin T) (Fin sigma) (Fin r) = Ok (Fin (lam * p)).
Proof.
  intros Hk Hl HS HK HT Hs.
  assert (HlS : (0 < lam * S0)%R) by nra.
  assert (HlK : (0 < lam * K)%R) by nra.
  rewrite !PricerFacts.bsm_option_price_finite by assumption.
  destruct Hk as [-> | ->]; cbn [Z.eqb Pos.eqb]; eexists;
    (split; [reflexivity |]); do 2 f_equal;
    unfold Spec.call_price, Spec.put_price, Spec.d2;
    rewrite !DomainFacts.d1_scales by assumption; lra.
Qed.

Lemma bsm_option_price_scales_witness :
  exists p : R,
    bsm_option_price 1 (Fin 100) (Fin 95) (Fin 0.1) (Fin 0.2) (Fin 0.03)
    = Ok (Fin p)
    /\ bsm_option_price 1 (Fin (2 * 100)) (Fin (2 * 95)) (Fin 0.1)
         (Fin 0.2) (Fin 0.03) = Ok (Fin (2 * p)).
Proof.
  apply (@bsm_option_price_scales 1 2 100 95 0.1 0.2 0.03);
    [right; reflexivity | lra | lra | lra | lra | lra].
Defined.

(** X18.  A row outside the domain of the formula is not rejected.  With
    a negative time to expiry (the square root), or an underlying and a
    strike of opposite signs (the logarithm), its price in the frame is
    [nan], whatever its other fields are, and its signal stays 0. *)
Theorem rows_outside_the_domain_take_no_position (sigma : list string)
    (thres : list float) (s : string) (prepared_data : list prepared_row)
    (th : float) :
  Forall kind_known prepared_data ->
  threshold sigma thres s = Ok th ->
  exists price signal,
    price_column prepared_data = Ok price
    /\ signal_column sigma thres s prepared_data price = Ok signal
    /\ forall j r,
         nth_error prepared_data j = Some r ->
         outside_domain r ->
         nth_error price j = Some NaN /\ nth_error signal j = Some 0%Z.
Proof.
  intros Hk Hth.
  assert (Hp : price_column prepared_data
               = Ok (map model_price prepared_data)).
  { apply ColumnFacts.price_column_value. intros r Hr.
    rewrite Forall_forall in Hk.
    destruct (ColumnFacts.bsm_option_price_known (S0 r) (K r) (T r)
                (Utils.sigma r) (rf r / Fin 100)%fl (Hk r Hr)) as [p Hp].
    unfold model_price. rewrite Hp. reflexivity. }
  exists (map model_price prepared_data).
  exists (zip_with (fun r p => Spec.signal p (close r) th) prepared_data
            (map model_price prepared_data)).
  split; [exact Hp |].
  split; [apply ColumnFacts.signal_column_value;
          [exact Hth | apply length_map] |].
  intros j r Hr Hout.
  assert (Hpr : nth_error (map model_price prepared_data) j = Some NaN).
  { rewrite (map_nth_error model_price j prepared_data Hr).
    f_equal. unfold model_price.
    rewrite DomainFacts.bsm_option_price_nan_d1; [reflexivity | |].
    - rewrite Forall_forall in Hk. apply Hk. exact (nth_error_In _ _ Hr).
    - destruct Hout as [[t [-> Ht]] | [x [k [-> [-> Hxk]]]]].
      + rewrite (DomainFacts.np_sqrt_negative Ht).
        rewrite MissingFacts.fmul_nan_r. apply MetricsFacts.fdiv_nan_r.
      + rewrite (DomainFacts.np_log_negative_ratio Hxk). reflexivity. }
  split; [exact Hpr |].
  rewrite (MissingFacts.nth_error_zip_with _ _ _ _ Hr Hpr).
  f_equal. apply MissingFacts.signal_of_nan.
Qed.

Lemma rows_outside_the_domain_take_no_position_witness :
  exists price signal,
    price_column [Sample.call_row; Sample2.expired_row] = Ok price
    /\ signal_column ["iv"%string] [Fin 0.01] "iv"
         [Sample.call_row; Sample2.expired_row] price = Ok signal
    /\ nth_error price 1 = Some NaN /\ nth_error signal 1 = Some 0%Z.
Proof.
  destruct (@rows_outside_the_domain_take_no_position ["iv"%string]
              [Fin 0.01] "iv"%string [Sample.call_row; Sample2.expired_row]
              (Fin 0.01))
    as [price [signal [Hp [Hs H]]]].
  - constructor; [left; reflexivity |].
    constructor; [left; reflexivity | constructor].
  - reflexivity.
  - exists price, signal. split; [exact Hp |]. split; [exact Hs |].
    apply (H 1%nat Sample2.expired_row); [reflexivity |].
    left. exists (-0.02)%R. split; [reflexivity | lra].
Defined.

(* ================================================================== *)
(** * Short series *)
(* ================================================================== *)

Module ShortFacts.

Import SeriesFacts.
Local Open Scope py_scope.

Lemma length_filter_le {A : Type} (f : A -> bool) (l : list A) :
  (List.length (filter f l) <= List.length l)%nat.
Proof.
  induction l as [| a l IH]; [apply Nat.le_refl |].
  simpl. destruct (f a); simpl; lia.
Qed.

(** The first change of a series is [nan], so [dropna] leaves one return
    less than there are values, at most. *)
Lemma length_ret_ser (pv : series timestamp) :
  (List.length (ret_ser pv) <= List.length pv - 1)%nat.
Proof.
  unfold ret_ser, on_values, dropna.
  destruct pv as [| [t v] r]; [apply Nat.le_refl |].
  cbn [values map snd]. rewrite MetricsFacts.pct_change_cons.
  cbn [index map fst combine filter snd notna isna negb].
  etransitivity; [apply length_filter_le |].
  rewrite length_combine, length_map. cbn [List.length]. lia.
Qed.

Lemma std_short (vs : list float) :
  (List.length vs <= 1)%nat -> std vs = NaN.
Proof.
  intros H. unfold std.
  assert (Hl : (List.length (filter notna vs) <= 1)%nat).
  { etransitivity; [apply length_filter_le | exact H]. }
  apply Nat.leb_le in Hl. rewrite Hl. reflexivity.
Qed.

Lemma compute_metrics_volatility (ser : series timestamp) (m : metrics) :
  compute_metrics ser = Ok m ->
  annualized_volatility m
  = (std (values (ret_ser (resample_last_dropna ser)))
     * np_sqrt (Fin 252))%fl
  /\ sharpe_ratio m = (annualized_return m / annualized_volatility m)%fl.
Proof.
  unfold compute_metrics. intros H.
  destruct (iloc_last _) as [x |]; [| discriminate]. cbn [bind] in H.
  destruct (py_max _) as [d |]; [| discriminate]. cbn [bind] in H.
  destruct (idxmax _) as [e |]; [| discriminate]. cbn [bind] in H.
  destruct (idxmax _) as [s |]; [| discriminate]. cbn [bind] in H.
  injection H as <-. split; reflexivity.
Qed.

End ShortFacts.

(** X19.  A report needs three daily values for a volatility: on a
    series with one or two days that have a value there is at most one
    daily return, its sample deviation is [nan], and the report goes
    through with an annualized volatility and a Sharpe ratio of [nan]. *)
Theorem volatility_needs_three_days (ser : series timestamp) (m : metrics) :
  compute_metrics ser = Ok m ->
  (List.length (resample_last_dropna ser) <= 2)%nat ->
  annualized_volatility m = NaN /\ sharpe_ratio m = NaN.
Proof.
  intros Hm Hlen.
  destruct (ShortFacts.compute_metrics_volatility _ Hm) as [Hv Hs].
  assert (E : annualized_volatility m = NaN).
  { rewrite Hv, ShortFacts.std_short; [reflexivity |].
    rewrite SeriesFacts.length_values.
    pose proof (ShortFacts.length_ret_ser (resample_last_dropna ser)).
    lia. }
  split; [exact E |].
  rewrite Hs, E. apply MetricsFacts.fdiv_nan_r.
Qed.

Lemma volatility_needs_three_days_witness :
  exists m,
    compute_metrics Sample2.intraday = Ok m
    /\ annualized_volatility m = NaN /\ sharpe_ratio m = NaN.
Proof.
  destruct (OutcomeFacts.compute_metrics_some Sample2.intraday eq_refl)
    as [m [Hm _]].
  exists m. split; [exact Hm |].
  apply (volatility_needs_three_days Sample2.intraday Hm).
  vm_compute. lia.
Defined.
